(** * daily-fits analytics: leaderboard statistics, window resolution, export

    A shallow embedding of [analytics/scripts/monthly_stats.py],
    [analytics/scripts/weekly_stats.py] and [analytics/scripts/export_csv.py],
    with the properties their specification states about them.

    Conventions of the embedding
    - Python [int] is [Z]; Python [str] is [string].
    - A Python [float] is the rational number it stands for, in [Q].  Every
      operation that yields a float rounds its exact result to 53
      significant bits, to nearest and ties to even, as binary64 does:
      [a / b] on ints is the rounded quotient, [x * y] the rounded product,
      [float(n)] the rounded integer, [round(x, 2)] the float nearest to the
      decimal with two places nearest to [x].  [int(x)] truncates towards
      zero and comparisons are those of the rationals.
      The exponent range of binary64 is not modelled.  The floats of the
      scripts are quotients and products of SQLite integers (below 2^63 in
      magnitude) and of lengths of lists; they stay far from both ends of
      the range, so neither overflow nor subnormal numbers occur.
    - A [dict] (insertion ordered) is an association list; updating a key
      keeps its place, a new key goes to the end.
    - [sorted(xs, key=k, reverse=True)] is the stable descending sort.
    - Code that can raise returns a [result]. *)

From Stdlib Require Import ZArith QArith Qpower Qabs List String Ascii Bool.
From Stdlib Require Import Lia Lqa Permutation Sorted.
Import ListNotations.

Local Open Scope string_scope.
Local Open Scope list_scope.
Local Open Scope Z_scope.

(** ** Binary floating point *)

Module Float.

(** The integer nearest to [x], ties to the even one. *)
Definition round_half_even (x : Q) : Z :=
  let n := Qnum x in
  let d := Z.pos (Qden x) in
  let q := n / d in
  let r := n mod d in
  match 2 * r ?= d with
  | Lt => q
  | Gt => q + 1
  | Eq => if Z.even q then q else q + 1
  end.

(** The exponent of [x], not 0: the [k] with [2^k <= |x| < 2^(k+1)]. *)
Definition ilog2 (x : Q) : Z :=
  let k := Z.log2 (Z.abs (Qnum x)) - Z.log2 (Z.pos (Qden x)) in
  if Qle_bool (2 ^ k)%Q (Qabs x) then k else k - 1.

(** [x] rounded to nearest, ties to even, with 53 significant bits: the
    integer nearest to [x / 2^e], times [2^e], where [2^e] is the distance
    between the floats around [x]. *)
Definition rn (x : Q) : Q :=
  if Qnum x =? 0 then 0%Q
  else
    let e := ilog2 x - 52 in
    Qred (inject_Z (round_half_even (x * 2 ^ (- e))%Q) * 2 ^ e)%Q.

End Float.

(** ** Python values and control *)

Module Py.

Inductive exn : Type :=
| ZeroDivisionError
| ValueError
| IllegalMonthError
| OverflowError
| IndexError
| DatabaseError.   (* [sqlite3.Error] and its subclasses *)

Inductive result (A : Type) : Type :=
| Ok (a : A)
| Raise (e : exn).
Arguments Ok {A} a.
Arguments Raise {A} e.

Definition bind {A B} (c : result A) (k : A -> result B) : result B :=
  match c with
  | Ok a => k a
  | Raise e => Raise e
  end.

Fixpoint mapM {A B} (f : A -> result B) (l : list A) : result (list B) :=
  match l with
  | [] => Ok []
  | x :: l' =>
      bind (f x) (fun y => bind (mapM f l') (fun ys => Ok (y :: ys)))
  end.

(** [len(xs)] *)
Definition len {A} (l : list A) : Z := Z.of_nat (List.length l).

(** [sum(xs)] on ints *)
Definition sum (l : list Z) : Z := fold_left Z.add l 0.

(** [a / b] on ints: true division, the correctly rounded quotient;
    [ZeroDivisionError] when [b] is 0. *)
Definition truediv (a b : Z) : result Q :=
  if b =? 0 then Raise ZeroDivisionError
  else Ok (Float.rn (Qdiv (inject_Z a) (inject_Z b))).

(** [float(n)], also the conversion of the int operand of a mixed
    operation. *)
Definition float_of_int (n : Z) : Q := Float.rn (inject_Z n).

(** [x * y] on floats *)
Definition fmul (x y : Q) : Q := Float.rn (Qmult x y).

(** [int(x)] on a float: truncation towards zero. *)
Definition int_of_float (x : Q) : Z := Z.quot (Qnum x) (Z.pos (Qden x)).

(** [round(x, 2)] on a float: [x] is written with two decimal places,
    correctly rounded (ties to even), and the decimal is read back as the
    nearest float. *)
Definition round2 (x : Q) : Q :=
  Float.rn (Qmake (Float.round_half_even (Qmult x (inject_Z 100))) 100).

(** [x < y] on floats *)
Definition Qltb (x y : Q) : bool :=
  match Qcompare x y with
  | Lt => true
  | _ => false
  end.

(** [max(xs)] and [min(xs)]: [ValueError] on the empty sequence. *)
Definition max (l : list Z) : result Z :=
  match l with
  | [] => Raise ValueError
  | x :: l' => Ok (fold_left Z.max l' x)
  end.

Definition min (l : list Z) : result Z :=
  match l with
  | [] => Raise ValueError
  | x :: l' => Ok (fold_left Z.min l' x)
  end.

(** *** dict *)

Definition dict (V : Type) : Type := list (string * V).

Fixpoint dict_get {V} (d : dict V) (k : string) : option V :=
  match d with
  | [] => None
  | (k', v) :: d' => if String.eqb k' k then Some v else dict_get d' k
  end.

(** [k in d] *)
Definition dict_mem {V} (d : dict V) (k : string) : bool :=
  match dict_get d k with
  | Some _ => true
  | None => false
  end.

(** [d.get(k, default)] *)
Definition get_default {V} (d : dict V) (k : string) (default : V) : V :=
  match dict_get d k with
  | Some v => v
  | None => default
  end.

(** [d[k] = v] *)
Fixpoint dict_set {V} (d : dict V) (k : string) (v : V) : dict V :=
  match d with
  | [] => [(k, v)]
  | (k', v') :: d' =>
      if String.eqb k' k then (k', v) :: d'
      else (k', v') :: dict_set d' k v
  end.

(** [d[k] += 1] on a [defaultdict(int)] *)
Definition incr (d : dict Z) (k : string) : dict Z :=
  dict_set d k (get_default d k 0 + 1).

(** [d[k].append(x)] on a [defaultdict(list)] *)
Definition append_to {A} (d : dict (list A)) (k : string) (x : A)
  : dict (list A) :=
  dict_set d k (get_default d k [] ++ [x]).

(** [s.add(x)] on a set of strings *)
Definition set_add (s : list string) (x : string) : list string :=
  if existsb (String.eqb x) s then s else s ++ [x].

(** [d[k].add(x)] on a [defaultdict(set)] *)
Definition add_to (d : dict (list string)) (k x : string)
  : dict (list string) :=
  dict_set d k (set_add (get_default d k []) x).

Definition items {V} (d : dict V) : list (string * V) := d.
Definition keys {V} (d : dict V) : list string := map fst d.
Definition values {V} (d : dict V) : list V := map snd d.

(** *** sorted *)

Section Sorting.
Context {A K : Type}.
Variable key : A -> K.
Variable lt : K -> K -> bool.

(** Insert [x], which precedes every element of [l] in the input, into
    the already sorted [l]: it passes the elements with a strictly
    greater key and stops before the first one that is not. *)
Fixpoint insert_desc (x : A) (l : list A) : list A :=
  match l with
  | [] => [x]
  | y :: l' =>
      if lt (key x) (key y) then y :: insert_desc x l' else x :: y :: l'
  end.

(** [sorted(l, key=key, reverse=True)] *)
Definition sorted_desc (l : list A) : list A :=
  fold_right insert_desc [] l.
End Sorting.

(** [l[:n]] for [n >= 0] *)
Definition take {A} (n : nat) (l : list A) : list A := firstn n l.

(** [(a1, b1) < (a2, b2)] on pairs of ints *)
Definition pair_ltb (x y : Z * Z) : bool :=
  if fst x =? fst y then snd x <? snd y else fst x <? fst y.

End Py.

Notation "x <- c ;; k" := (Py.bind c (fun x => k))
  (at level 61, c at next level, right associativity).

(** ** The store and the rows it returns *)

(** A row of [daily_scores JOIN players], as both report queries select it. *)
Record Row : Type := {
  stat_date : string;
  position : Z;
  score : Z;
  playfab_id : string;
  display_name : string
}.

(** The data store is external.  It is used through [sqlite3.connect] and
    the three queries the scripts execute: the scores of a date range
    (ordered by date, then position), the [players] table, and the number
    of distinct dates of [daily_scores] in a date range.  Each of them
    answers or raises. *)
Record Store : Type := {
  connect : Py.result unit;
  select_scores : string -> string -> Py.result (list Row);
  select_players : Py.result (list (string * string));
  count_days : string -> string -> Py.result Z
}.

Inductive query : Type :=
| QScores (start_date end_date : string)
| QPlayers
| QDayCount (start_date end_date : string).

(** What a run does to the outside world, in order. *)
Inductive event : Type :=
| EvPathExists
| EvConnect
| EvExecute (q : query)
| EvClose.

(** A computation that logs its events and may raise. *)
Definition IO (A : Type) : Type := list event * Py.result A.

Definition io_ret {A} (a : A) : IO A := ([], Py.Ok a).

Definition io_lift {A} (r : Py.result A) : IO A := ([], r).

Definition io_emit (e : event) : IO unit := ([e], Py.Ok tt).

Definition io_bind {A B} (c : IO A) (k : A -> IO B) : IO B :=
  match c with
  | (tr, Py.Ok a) => let '(tr', r) := k a in (tr ++ tr', r)
  | (tr, Py.Raise e) => (tr, Py.Raise e)
  end.

Notation "x <~ c ;; k" := (io_bind c (fun x => k))
  (at level 61, c at next level, right associativity).

(** [player_names = {}; for row in ...: player_names[id] = name] *)
Definition build_player_names (rows : list (string * string))
  : Py.dict string :=
  fold_left (fun d r => Py.dict_set d (fst r) (snd r)) rows [].

(** ** monthly_stats.py *)

Module Monthly.

(** The six accumulators of the loop over the fetched rows. *)
Record Acc : Type := {
  first_place_counts : Py.dict Z;
  podium_counts : Py.dict Z;
  top_10_counts : Py.dict Z;
  participation_counts : Py.dict Z;
  total_scores : Py.dict (list Z);
  daily_participants : Py.dict (list string)
}.

Definition empty_acc : Acc :=
  {| first_place_counts := []; podium_counts := []; top_10_counts := [];
     participation_counts := []; total_scores := [];
     daily_participants := [] |}.

(** The body of [for row in scores]. *)
Definition step (acc : Acc) (row : Row) : Acc :=
  let pid := playfab_id row in
  {| participation_counts := Py.incr (participation_counts acc) pid;
     daily_participants :=
       Py.add_to (daily_participants acc) (stat_date row) pid;
     total_scores := Py.append_to (total_scores acc) pid (score row);
     first_place_counts :=
       if position row =? 0 then Py.incr (first_place_counts acc) pid
       else first_place_counts acc;
     podium_counts :=
       if position row <=? 2 then Py.incr (podium_counts acc) pid
       else podium_counts acc;
     top_10_counts :=
       if position row <=? 9 then Py.incr (top_10_counts acc) pid
       else top_10_counts acc |}.

Definition accumulate (scores : list Row) : Acc :=
  fold_left step scores empty_acc.

Record ChampionEntry : Type := {
  ch_playfab_id : string;
  ch_display_name : string;
  ch_first_place_count : Z;
  ch_win_percentage : Q
}.

Record PodiumEntry : Type := {
  po_playfab_id : string;
  po_display_name : string;
  po_podium_count : Z;
  po_podium_percentage : Q
}.

Record Top10Entry : Type := {
  tt_playfab_id : string;
  tt_display_name : string;
  tt_top_10_count : Z
}.

Record ConsistentEntry : Type := {
  co_playfab_id : string;
  co_display_name : string;
  co_days_played : Z;
  co_average_score : Z;
  co_max_score : Z;
  co_min_score : Z;
  co_consistency_rating : Q
}.

Record ParticipationStats : Type := {
  total_unique_players : Z;
  total_days_tracked : Z;
  avg_daily_participants : Q
}.

Record ScoreStatistics : Type := {
  total_scores_recorded : Z;
  ss_average_score : Z;
  highest_score : Z;
  lowest_score : Z
}.

Record Report : Type := {
  month_period : string * string;
  monthly_champion : option ChampionEntry;
  top_champions : list ChampionEntry;
  top_podium_finishes : list PodiumEntry;
  top_10_finishes : list Top10Entry;
  most_consistent : list ConsistentEntry;
  participation_stats : ParticipationStats;
  score_statistics : option ScoreStatistics
}.

(** [(count / total_days * 100) if total_days > 0 else 0] *)
Definition percentage (count total_days : Z) : Py.result Q :=
  if total_days >? 0 then
    q <- Py.truediv count total_days ;;
    Py.Ok (Py.fmul q (Py.float_of_int 100))
  else Py.Ok (inject_Z 0).

Definition champion_entry (player_names : Py.dict string) (total_days : Z)
  (item : string * Z) : Py.result ChampionEntry :=
  w <- percentage (snd item) total_days ;;
  Py.Ok {| ch_playfab_id := fst item;
           ch_display_name := Py.get_default player_names (fst item) "Unknown";
           ch_first_place_count := snd item;
           ch_win_percentage := w |}.

Definition podium_entry (player_names : Py.dict string) (total_days : Z)
  (item : string * Z) : Py.result PodiumEntry :=
  w <- percentage (snd item) total_days ;;
  Py.Ok {| po_playfab_id := fst item;
           po_display_name := Py.get_default player_names (fst item) "Unknown";
           po_podium_count := snd item;
           po_podium_percentage := w |}.

Definition top10_entry (player_names : Py.dict string) (item : string * Z)
  : Top10Entry :=
  {| tt_playfab_id := fst item;
     tt_display_name := Py.get_default player_names (fst item) "Unknown";
     tt_top_10_count := snd item |}.

(** [sorted(counts.items(), key=lambda x: x[1], reverse=True)] *)
Definition by_count_desc (counts : Py.dict Z) : list (string * Z) :=
  Py.sorted_desc (@snd string Z) Z.ltb (Py.items counts).

(** One turn of [for pid, days_played in participation_counts.items()]:
    the entry appended to [consistent], if any. *)
Definition consistent_entry (player_names : Py.dict string)
  (total_scores : Py.dict (list Z)) (item : string * Z)
  : Py.result (option ConsistentEntry) :=
  let pid := fst item in
  let days_played := snd item in
  if (days_played >=? 5) && Py.dict_mem total_scores pid then
    let scores_list := Py.get_default total_scores pid [] in
    avg_score <- Py.truediv (Py.sum scores_list) (Py.len scores_list) ;;
    max_score <- Py.max scores_list ;;
    min_score <- Py.min scores_list ;;
    Py.Ok (Some {| co_playfab_id := pid;
                   co_display_name :=
                     Py.get_default player_names pid "Unknown";
                   co_days_played := days_played;
                   co_average_score := Py.int_of_float avg_score;
                   co_max_score := max_score;
                   co_min_score := min_score;
                   co_consistency_rating :=
                     Py.fmul (Py.float_of_int days_played) avg_score |})
  else Py.Ok None.

(** The [consistent] list before it is sorted. *)
Definition consistent_entries (player_names : Py.dict string)
  (total_scores : Py.dict (list Z)) (participation : Py.dict Z)
  : Py.result (list ConsistentEntry) :=
  l <- Py.mapM (consistent_entry player_names total_scores)
         (Py.items participation) ;;
  Py.Ok (List.concat (map (fun o => match o with Some e => [e] | None => [] end) l)).

(** [consistent.sort(key=lambda x: x['consistency_rating'], reverse=True)] *)
Definition sort_consistent (l : list ConsistentEntry) : list ConsistentEntry :=
  Py.sorted_desc co_consistency_rating Py.Qltb l.

Definition is_empty {A} (l : list A) : bool :=
  match l with [] => true | _ => false end.

(** The part of [calculate_monthly_stats] after the queries: from the rows
    of the three result sets to the report. *)
Definition build_report (scores : list Row) (players : list (string * string))
  (total_days : Z) (start_date end_date : string) : Py.result Report :=
  let acc := accumulate scores in
  let player_names := build_player_names players in
  avg <- Py.truediv
           (Py.sum (map Py.len (Py.values (daily_participants acc))))
           (Z.max (Py.len (daily_participants acc)) 1) ;;
  let pstats := {| total_unique_players := Py.len (participation_counts acc);
                   total_days_tracked := total_days;
                   avg_daily_participants := avg |} in
  (* Determine monthly champion *)
  champs <-
    (if is_empty (first_place_counts acc) then Py.Ok (None, [])
     else
       let top := by_count_desc (first_place_counts acc) in
       match top with
       | [] => Py.Raise Py.IndexError   (* top_champions[0] *)
       | first :: _ =>
           c <- champion_entry player_names total_days first ;;
           l <- Py.mapM (champion_entry player_names total_days)
                  (Py.take 10 top) ;;
           Py.Ok (Some c, l)
       end) ;;
  (* Top podium finishers *)
  podium <-
    (if is_empty (podium_counts acc) then Py.Ok []
     else Py.mapM (podium_entry player_names total_days)
            (Py.take 10 (by_count_desc (podium_counts acc)))) ;;
  (* Top 10 finishers *)
  let top10 :=
    if is_empty (top_10_counts acc) then []
    else map (top10_entry player_names)
           (Py.take 20 (by_count_desc (top_10_counts acc))) in
  (* Most consistent players *)
  consistent <-
    (if is_empty (participation_counts acc) then Py.Ok []
     else
       l <- consistent_entries player_names (total_scores acc)
              (participation_counts acc) ;;
       Py.Ok (Py.take 15 (sort_consistent l))) ;;
  (* Overall score statistics *)
  sstats <-
    (if is_empty (total_scores acc) then Py.Ok None
     else
       let all_scores := List.concat (Py.values (total_scores acc)) in
       a <- Py.truediv (Py.sum all_scores) (Py.len all_scores) ;;
       hi <- Py.max all_scores ;;
       lo <- Py.min all_scores ;;
       Py.Ok (Some {| total_scores_recorded := Py.len all_scores;
                      ss_average_score := Py.int_of_float a;
                      highest_score := hi;
                      lowest_score := lo |})) ;;
  Py.Ok {| month_period := (start_date, end_date);
           monthly_champion := fst champs;
           top_champions := snd champs;
           top_podium_finishes := podium;
           top_10_finishes := top10;
           most_consistent := consistent;
           participation_stats := pstats;
           score_statistics := sstats |}.

(** [calculate_monthly_stats]: connect, run the three queries, close,
    build the report.  There is no [try]: when a call raises, what follows
    it, [conn.close()] included, is not run. *)
Definition calculate_monthly_stats (db : Store) (start_date end_date : string)
  : IO Report :=
  _ <~ io_emit EvConnect ;;
  _ <~ io_lift (connect db) ;;
  _ <~ io_emit (EvExecute (QScores start_date end_date)) ;;
  scores <~ io_lift (select_scores db start_date end_date) ;;
  _ <~ io_emit (EvExecute QPlayers) ;;
  players <~ io_lift (select_players db) ;;
  _ <~ io_emit (EvExecute (QDayCount start_date end_date)) ;;
  total_days <~ io_lift (count_days db start_date end_date) ;;
  _ <~ io_emit EvClose ;;
  io_lift (build_report scores players total_days start_date end_date).

End Monthly.

(** ** weekly_stats.py *)

Module Weekly.

Record Winner : Type := {
  wi_playfab_id : string;
  wi_display_name : string;
  wi_score : Z
}.

Record Acc : Type := {
  first_place_counts : Py.dict Z;
  podium_counts : Py.dict Z;
  participation_counts : Py.dict Z;
  total_scores : Py.dict (list Z);
  daily_winners : Py.dict Winner
}.

Definition empty_acc : Acc :=
  {| first_place_counts := []; podium_counts := [];
     participation_counts := []; total_scores := [];
     daily_winners := [] |}.

(** The body of [for row in scores]. *)
Definition step (acc : Acc) (row : Row) : Acc :=
  let pid := playfab_id row in
  {| participation_counts := Py.incr (participation_counts acc) pid;
     total_scores := Py.append_to (total_scores acc) pid (score row);
     first_place_counts :=
       if position row =? 0 then Py.incr (first_place_counts acc) pid
       else first_place_counts acc;
     daily_winners :=
       if position row =? 0 then
         Py.dict_set (daily_winners acc) (stat_date row)
           {| wi_playfab_id := pid;
              wi_display_name := display_name row;
              wi_score := score row |}
       else daily_winners acc;
     podium_counts :=
       if position row <=? 2 then Py.incr (podium_counts acc) pid
       else podium_counts acc |}.

Definition accumulate (scores : list Row) : Acc :=
  fold_left step scores empty_acc.

Record ChampionEntry : Type := {
  ch_playfab_id : string;
  ch_display_name : string;
  ch_first_place_count : Z
}.

(** An entry of [top_first_places] and of [top_podium_finishes]. *)
Record CountEntry : Type := {
  cn_playfab_id : string;
  cn_display_name : string;
  cn_count : Z
}.

Record ConsistentEntry : Type := {
  co_playfab_id : string;
  co_display_name : string;
  co_days_played : Z;
  co_average_score : Z
}.

Record Report : Type := {
  week_period : string * string;
  report_daily_winners : Py.dict Winner;
  weekly_champion : option ChampionEntry;
  top_first_places : list CountEntry;
  top_podium_finishes : list CountEntry;
  most_consistent : list ConsistentEntry;
  total_unique_players : Z
}.

Definition count_entry (player_names : Py.dict string) (item : string * Z)
  : CountEntry :=
  {| cn_playfab_id := fst item;
     cn_display_name := Py.get_default player_names (fst item) "Unknown";
     cn_count := snd item |}.

(** [sorted(counts.items(), key=lambda x: x[1], reverse=True)] *)
Definition by_count_desc (counts : Py.dict Z) : list (string * Z) :=
  Py.sorted_desc (@snd string Z) Z.ltb (Py.items counts).

(** One turn of [for pid, days_played in participation_counts.items()]. *)
Definition consistent_entry (player_names : Py.dict string)
  (total_scores : Py.dict (list Z)) (item : string * Z)
  : Py.result (option ConsistentEntry) :=
  let pid := fst item in
  let days_played := snd item in
  if (days_played >=? 3) && Py.dict_mem total_scores pid then
    let scores_list := Py.get_default total_scores pid [] in
    avg_score <- Py.truediv (Py.sum scores_list) (Py.len scores_list) ;;
    Py.Ok (Some {| co_playfab_id := pid;
                   co_display_name :=
                     Py.get_default player_names pid "Unknown";
                   co_days_played := days_played;
                   co_average_score := Py.int_of_float avg_score |})
  else Py.Ok None.

Definition consistent_entries (player_names : Py.dict string)
  (total_scores : Py.dict (list Z)) (participation : Py.dict Z)
  : Py.result (list ConsistentEntry) :=
  l <- Py.mapM (consistent_entry player_names total_scores)
         (Py.items participation) ;;
  Py.Ok (List.concat
           (map (fun o => match o with Some e => [e] | None => [] end) l)).

(** The sort key [(x['days_played'], x['average_score'])]. *)
Definition consistency_key (e : ConsistentEntry) : Z * Z :=
  (co_days_played e, co_average_score e).

Definition sort_consistent (l : list ConsistentEntry) : list ConsistentEntry :=
  Py.sorted_desc consistency_key Py.pair_ltb l.

Definition is_empty {A} (l : list A) : bool :=
  match l with [] => true | _ => false end.

(** The part of [calculate_weekly_stats] after the queries. *)
Definition build_report (scores : list Row) (players : list (string * string))
  (start_date end_date : string) : Py.result Report :=
  let acc := accumulate scores in
  let player_names := build_player_names players in
  (* Determine weekly champion (most first places) *)
  champs <-
    (if is_empty (first_place_counts acc) then Py.Ok (None, [])
     else
       let top := by_count_desc (first_place_counts acc) in
       match top with
       | [] => Py.Raise Py.IndexError   (* top_first[0] *)
       | first :: _ =>
           Py.Ok (Some {| ch_playfab_id := fst first;
                          ch_display_name :=
                            Py.get_default player_names (fst first) "Unknown";
                          ch_first_place_count := snd first |},
                  map (count_entry player_names) (Py.take 10 top))
       end) ;;
  (* Top podium finishers *)
  let podium :=
    if is_empty (podium_counts acc) then []
    else map (count_entry player_names)
           (Py.take 10 (by_count_desc (podium_counts acc))) in
  (* Most consistent *)
  consistent <-
    (if is_empty (participation_counts acc) then Py.Ok []
     else
       l <- consistent_entries player_names (total_scores acc)
              (participation_counts acc) ;;
       Py.Ok (Py.take 10 (sort_consistent l))) ;;
  Py.Ok {| week_period := (start_date, end_date);
           report_daily_winners := daily_winners acc;
           weekly_champion := fst champs;
           top_first_places := snd champs;
           top_podium_finishes := podium;
           most_consistent := consistent;
           total_unique_players := Py.len (participation_counts acc) |}.

(** [calculate_weekly_stats]: connect, run the two queries, close, build
    the report; no [try] here either. *)
Definition calculate_weekly_stats (db : Store) (start_date end_date : string)
  : IO Report :=
  _ <~ io_emit EvConnect ;;
  _ <~ io_lift (connect db) ;;
  _ <~ io_emit (EvExecute (QScores start_date end_date)) ;;
  scores <~ io_lift (select_scores db start_date end_date) ;;
  _ <~ io_emit (EvExecute QPlayers) ;;
  players <~ io_lift (select_players db) ;;
  _ <~ io_emit EvClose ;;
  io_lift (build_report scores players start_date end_date).

End Weekly.

(** ** Formatting and parsing of numbers in strings *)

Module Text.

Definition code (c : ascii) : Z := Z.of_N (N_of_ascii c).

Definition digit_char (d : Z) : ascii := ascii_of_N (Z.to_N (48 + d)).

Definition is_digit (c : ascii) : bool := (48 <=? code c) && (code c <=? 57).

Definition digit_val (c : ascii) : Z := code c - 48.

(** The decimal digits of [n >= 0], most significant first. *)
Fixpoint dec_digits (fuel : nat) (n : Z) : string :=
  match fuel with
  | O => ""
  | S f =>
      if n <? 10 then String (digit_char n) ""
      else String.append (dec_digits f (n / 10))
             (String (digit_char (n mod 10)) "")
  end.

Definition str_nat (n : Z) : string :=
  dec_digits (S (Z.to_nat (Z.log2 n))) n.

(** [f'{n}'] and [str(n)] *)
Definition str_int (n : Z) : string :=
  if n <? 0 then String "-" (str_nat (- n)) else str_nat n.

(** [s.rjust(w, '0')] *)
Definition zfill (w : nat) (s : string) : string :=
  String.append
    (string_of_list_ascii (repeat "0"%char (w - String.length s)%nat)) s.

(** [f'{n:02d}']: the sign, then the digits padded with zeros so that the
    whole has at least two characters. *)
Definition format_02d (n : Z) : string :=
  if n <? 0 then String "-" (zfill 1 (str_nat (- n))) else zfill 2 (str_nat n).

(** [f'{n:04d}'] *)
Definition format_04d (n : Z) : string :=
  if n <? 0 then String "-" (zfill 3 (str_nat (- n))) else zfill 4 (str_nat n).

End Text.

(** ** The calendar: Python's [datetime] and [calendar] modules

    The scripts call [calendar.monthrange], [datetime.strptime],
    [date + timedelta] and [strftime].  These are the standard library's;
    they are embedded here from their reference implementation
    (the proleptic Gregorian ordinal, day 1 = 0001-01-01). *)

Module Calendar.

Record date : Type := { year : Z; month : Z; day : Z }.

Definition MINYEAR : Z := 1.
Definition MAXYEAR : Z := 9999.
Definition MAXORDINAL : Z := 3652059.

(** [calendar.isleap] *)
Definition isleap (y : Z) : bool :=
  (y mod 4 =? 0) && (negb (y mod 100 =? 0) || (y mod 400 =? 0)).

(** [calendar.mdays] *)
Definition mdays : list Z := [0; 31; 28; 31; 30; 31; 30; 31; 31; 30; 31; 30; 31].

Definition DAYS_BEFORE_MONTH : list Z :=
  [0; 0; 31; 59; 90; 120; 151; 181; 212; 243; 273; 304; 334].

Definition index (l : list Z) (i : Z) : Z := nth (Z.to_nat i) l 0.

Definition days_in_month (y m : Z) : Z :=
  index mdays m + (if (m =? 2) && isleap y then 1 else 0).

Definition days_before_year (y : Z) : Z :=
  let y' := y - 1 in y' * 365 + y' / 4 - y' / 100 + y' / 400.

Definition days_before_month (y m : Z) : Z :=
  index DAYS_BEFORE_MONTH m + (if (m >? 2) && isleap y then 1 else 0).

Definition ymd2ord (y m d : Z) : Z :=
  days_before_year y + days_before_month y m + d.

(** [date(y, m, d)]: the constructor checks its fields. *)
Definition make_date (y m d : Z) : Py.result date :=
  if (MINYEAR <=? y) && (y <=? MAXYEAR) && (1 <=? m) && (m <=? 12)
     && (1 <=? d) && (d <=? days_in_month y m)
  then Py.Ok {| year := y; month := m; day := d |}
  else Py.Raise Py.ValueError.

Definition toordinal (d : date) : Z := ymd2ord (year d) (month d) (day d).

(** [date.weekday()]: Monday is 0. *)
Definition weekday (d : date) : Z := (toordinal d + 6) mod 7.

(** [_ord2ymd] *)
Definition ord2ymd (n : Z) : date :=
  let n := n - 1 in
  let n400 := n / 146097 in
  let n := n mod 146097 in
  let y := n400 * 400 + 1 in
  let n100 := n / 36524 in
  let n := n mod 36524 in
  let n4 := n / 1461 in
  let n := n mod 1461 in
  let n1 := n / 365 in
  let n := n mod 365 in
  let y := y + n100 * 100 + n4 * 4 + n1 in
  if (n1 =? 4) || (n100 =? 4) then {| year := y - 1; month := 12; day := 31 |}
  else
    let leapyear := (n1 =? 3) && (negb (n4 =? 24) || (n100 =? 3)) in
    let m := Z.shiftr (n + 50) 5 in
    let preceding :=
      index DAYS_BEFORE_MONTH m + (if (m >? 2) && leapyear then 1 else 0) in
    if preceding >? n then
      let m := m - 1 in
      let preceding :=
        preceding
        - (index mdays m + (if (m =? 2) && leapyear then 1 else 0)) in
      {| year := y; month := m; day := n - preceding + 1 |}
    else {| year := y; month := m; day := n - preceding + 1 |}.

(** [date.fromordinal] *)
Definition fromordinal (n : Z) : Py.result date :=
  if (1 <=? n) && (n <=? MAXORDINAL) then Py.Ok (ord2ymd n)
  else Py.Raise Py.ValueError.

(** [d + timedelta(days=k)] *)
Definition add_days (d : date) (k : Z) : Py.result date :=
  let o := toordinal d + k in
  if (0 <? o) && (o <=? MAXORDINAL) then Py.Ok (ord2ymd o)
  else Py.Raise Py.OverflowError.

(** [d.strftime('%Y-%m-%d')], the year on four digits.  (Where Python
    leaves [%Y] to the C library, glibc writes a year below 1000 without
    padding; the windows stated below have years from 1000 on.) *)
Definition strftime_Ymd (d : date) : string :=
  String.append (Text.format_04d (year d))
    (String "-" (String.append (Text.format_02d (month d))
       (String "-" (Text.format_02d (day d))))).

(** [calendar.monthrange(y, m)[1]]: the month is checked first; the
    weekday of the first day, the other component, is not used. *)
Definition monthrange_ndays (y m : Z) : Py.result Z :=
  if (1 <=? m) && (m <=? 12) then Py.Ok (days_in_month y m)
  else Py.Raise Py.IllegalMonthError.

(** *** [datetime.strptime(s, '%Y-W%W-%w')]

    The format is compiled to the regular expression
    [(?P<Y>\d\d\d\d)-W(?P<W>5[0-3]|[0-4]\d|\d)-(?P<w>[0-6])], matched at
    the start of the string; the whole string must be consumed.  The texts
    parsed here are made of ASCII characters, for which [\d] is [[0-9]]. *)

(** One character with code in [lo..hi]; the result is its value as a
    digit. *)
Definition re_range (lo hi : Z) (s : string) : option (Z * string) :=
  match s with
  | String a rest =>
      if (lo <=? Text.code a) && (Text.code a <=? hi)
      then Some (Text.digit_val a, rest) else None
  | EmptyString => None
  end.

(** [\d] *)
Definition re_digit (s : string) : option (Z * string) := re_range 48 57 s.

Definition re_lit (c : ascii) (s : string) : option string :=
  match s with
  | String a rest => if Ascii.eqb a c then Some rest else None
  | EmptyString => None
  end.

(** The letter [W] of the format; the expression is compiled with
    [IGNORECASE]. *)
Definition re_letter_W (s : string) : option string :=
  match s with
  | String a rest =>
      if Ascii.eqb a "W" || Ascii.eqb a "w" then Some rest else None
  | EmptyString => None
  end.

(** [(?P<Y>\d\d\d\d)] *)
Definition re_Y (s : string) : option (Z * string) :=
  match re_digit s with
  | Some (a, s1) =>
      match re_digit s1 with
      | Some (b, s2) =>
          match re_digit s2 with
          | Some (c, s3) =>
              match re_digit s3 with
              | Some (d, s4) => Some (1000 * a + 100 * b + 10 * c + d, s4)
              | None => None
              end
          | None => None
          end
      | None => None
      end
  | None => None
  end.

(** The ways the group [W] can match at the start of [s], in the order in
    which the alternatives [5[0-3]], [[0-4]\d] and [\d] are tried. *)
Definition re_W (s : string) : list (Z * string) :=
  (match re_lit "5" s with
   | Some s1 =>
       match re_range 48 51 s1 with
       | Some (b, s2) => [(50 + b, s2)]
       | None => []
       end
   | None => []
   end)
  ++
  (match re_range 48 52 s with
   | Some (a, s1) =>
       match re_digit s1 with
       | Some (b, s2) => [(10 * a + b, s2)]
       | None => []
       end
   | None => []
   end)
  ++
  (match re_digit s with
   | Some (a, s1) => [(a, s1)]
   | None => []
   end).

(** [(?P<w>[0-6])] *)
Definition re_w (s : string) : option (Z * string) := re_range 48 54 s.

(** The first alternative of [W] after which [-(?P<w>[0-6])] matches. *)
Fixpoint first_match (alts : list (Z * string)) : option (Z * Z * string) :=
  match alts with
  | [] => None
  | (W, s) :: alts' =>
      match re_lit "-" s with
      | Some s1 =>
          match re_w s1 with
          | Some (w, s2) => Some (W, w, s2)
          | None => first_match alts'
          end
      | None => first_match alts'
      end
  end.

(** The fields found: year, week of the year, [%w] day number. *)
Definition match_Y_W_w (s : string) : Py.result (Z * Z * Z) :=
  match re_Y s with
  | Some (Y, s1) =>
      match re_lit "-" s1 with
      | Some s2 =>
          match re_letter_W s2 with
          | Some s3 =>
              match first_match (re_W s3) with
              | Some (W, w, EmptyString) => Py.Ok (Y, W, w)
              | _ => Py.Raise Py.ValueError
              end
          | None => Py.Raise Py.ValueError
          end
      | None => Py.Raise Py.ValueError
      end
  | None => Py.Raise Py.ValueError
  end.

(** [_calc_julian_from_U_or_W] with the week starting on Monday. *)
Definition calc_julian_from_W (first_weekday week_of_year day_of_week : Z)
  : Z :=
  let week_0_length := (7 - first_weekday) mod 7 in
  if week_of_year =? 0 then 1 + day_of_week - first_weekday
  else 1 + (week_0_length + 7 * (week_of_year - 1)) + day_of_week.

Definition strptime_Y_W_w (s : string) : Py.result date :=
  f <- match_Y_W_w s ;;
  let '(Y, W, w) := f in
  let weekday_ := if w =? 0 then 6 else w - 1 in
  jan1 <- make_date Y 1 1 ;;
  let julian := calc_julian_from_W (weekday jan1) W weekday_ in
  let Y' := if julian <=? 0 then Y - 1 else Y in
  let julian' :=
    if julian <=? 0 then julian + (if isleap Y' then 366 else 365)
    else julian in
  jan1' <- make_date Y' 1 1 ;;
  fromordinal ((julian' - 1) + toordinal jan1').

End Calendar.

(** ** The window resolvers and the entry points *)

(** [monthly_stats.get_month_date_range] *)
Definition get_month_date_range (year month : Z)
  : Py.result (string * string) :=
  let prefix :=
    String.append (Text.str_int year)
      (String "-" (String.append (Text.format_02d month) "-")) in
  let first_day := String.append prefix "01" in
  last_day_num <- Calendar.monthrange_ndays year month ;;
  let last_day := String.append prefix (Text.format_02d last_day_num) in
  Py.Ok (first_day, last_day).

(** [weekly_stats.get_week_date_range] *)
Definition get_week_date_range (year week : Z) : Py.result (string * string) :=
  first_day <-
    Calendar.strptime_Y_W_w
      (String.append (Text.str_int year)
         (String.append "-W" (String.append (Text.format_02d week) "-1"))) ;;
  last_day <- Calendar.add_days first_day 6 ;;
  Py.Ok (Calendar.strftime_Ymd first_day, Calendar.strftime_Ymd last_day).

(** Where a run of [main] stands: it has returned an exit status, or it
    has the report and goes on to display it.  The display of the report
    and the optional JSON dump, which follow in [main], are not embedded:
    a run that reaches them is followed no further. *)
Inductive Stage (R : Type) : Type :=
| Exit (status : Z)
| Display (report : R).
Arguments Exit {R} status.
Arguments Display {R} report.

(** [monthly_stats.main] up to the display of the report, for the month
    given on the command line or taken from the clock. *)
Definition monthly_main (db_found : bool) (db : Store) (year month : Z)
  : IO (Stage Monthly.Report) :=
  range <~ io_lift (get_month_date_range year month) ;;
  _ <~ io_emit EvPathExists ;;
  if negb db_found then io_ret (Exit 1)
  else
    stats <~ Monthly.calculate_monthly_stats db (fst range) (snd range) ;;
    io_ret (Display stats).

(** [weekly_stats.main], likewise. *)
Definition weekly_main (db_found : bool) (db : Store) (year week : Z)
  : IO (Stage Weekly.Report) :=
  range <~ io_lift (get_week_date_range year week) ;;
  _ <~ io_emit EvPathExists ;;
  if negb db_found then io_ret (Exit 1)
  else
    stats <~ Weekly.calculate_weekly_stats db (fst range) (snd range) ;;
    io_ret (Display stats).

(** ** export_csv.py *)

Module Exporter.

(** The values of the exported score records: [None], an int, a string.
    (The player summaries, which hold a float, have their own records in
    [PlayerSummary].) *)
Inductive value : Type :=
| VNone
| VInt (z : Z)
| VStr (s : string).

Definition record : Type := Py.dict value.

(** The files and the console. *)
Record World : Type := {
  files : Py.dict string;
  stdout : list string
}.

Definition print (w : World) (line : string) : World :=
  {| files := files w; stdout := stdout w ++ [line] |}.

(** [open(path, 'w')]: the file exists and is empty afterwards. *)
Definition open_w (w : World) (path : string) : World :=
  {| files := Py.dict_set (files w) path ""; stdout := stdout w |}.

(** [f.write(text)] on the file opened at [path] *)
Definition fwrite (w : World) (path text : string) : World :=
  {| files :=
       Py.dict_set (files w) path
         (String.append (Py.get_default (files w) path "") text);
     stdout := stdout w |}.

Definition dquote : ascii := "034"%char.
Definition CR : ascii := "013"%char.
Definition LF : ascii := "010"%char.

Fixpoint str_exists (p : ascii -> bool) (s : string) : bool :=
  match s with
  | EmptyString => false
  | String c s' => p c || str_exists p s'
  end.

Fixpoint str_concat_map (f : ascii -> string) (s : string) : string :=
  match s with
  | EmptyString => EmptyString
  | String c s' => String.append (f c) (str_concat_map f s')
  end.

(** *** The [csv] module's writer, dialect [excel] *)

(** What the writer makes of a field: [None] is empty, the rest is [str]. *)
Definition csv_text (v : value) : string :=
  match v with
  | VNone => ""
  | VInt z => Text.str_int z
  | VStr s => s
  end.

Definition csv_special (c : ascii) : bool :=
  Ascii.eqb c "," || Ascii.eqb c dquote || Ascii.eqb c CR || Ascii.eqb c LF.

(** [QUOTE_MINIMAL] with [doublequote]: a field with a special character
    is put in quotes, its quotes doubled. *)
Definition csv_field (s : string) : string :=
  if str_exists csv_special s then
    String dquote
      (String.append
         (str_concat_map
            (fun c => if Ascii.eqb c dquote
                      then String dquote (String dquote "")
                      else String c "") s)
         (String dquote ""))
  else s.

Fixpoint join (sep : string) (l : list string) : string :=
  match l with
  | [] => ""
  | [x] => x
  | x :: l' => String.append x (String.append sep (join sep l'))
  end.

(** [writer.writerow(row)]: the line written, with its terminator.  A row
    of one empty field is written as a pair of quotes. *)
Definition csv_row (row : list value) : string :=
  let body :=
    match map csv_text row with
    | [EmptyString] => String dquote (String dquote "")
    | fields => join "," (map csv_field fields)
    end in
  String.append body (String CR (String LF "")).

(** [DictWriter._dict_to_list] with [extrasaction='raise'] and
    [restval='']. *)
Definition dict_to_list (fieldnames : list string) (rowdict : record)
  : Py.result (list value) :=
  if existsb (fun k => negb (existsb (String.eqb k) fieldnames))
       (Py.keys rowdict)
  then Py.Raise Py.ValueError
  else Py.Ok (map (fun k => Py.get_default rowdict k (VStr "")) fieldnames).

(** [DictWriter.writerows]: the rows are converted and written one after
    the other; a row that cannot be converted stops the writing. *)
Fixpoint writerows (fieldnames : list string) (rows : list record)
  (path : string) (w : World) : World * Py.result unit :=
  match rows with
  | [] => (w, Py.Ok tt)
  | r :: rows' =>
      match dict_to_list fieldnames r with
      | Py.Ok row => writerows fieldnames rows' path (fwrite w path (csv_row row))
      | Py.Raise e => (w, Py.Raise e)
      end
  end.

(** [write_csv] *)
Definition write_csv (records : list record) (output_path : string)
  (w : World) : World * Py.result unit :=
  match records with
  | [] => (print w "No records to export", Py.Ok tt)
  | first :: _ =>
      let fieldnames := Py.keys first in
      let w := open_w w output_path in
      (* writer.writeheader() *)
      let w := fwrite w output_path (csv_row (map VStr fieldnames)) in
      writerows fieldnames records output_path w
  end.

(** *** [json.dump(records, f, indent=2)] *)

Definition hex_digit (n : Z) : ascii :=
  if n <? 10 then Text.digit_char n else ascii_of_N (Z.to_N (87 + n)).

(** [ensure_ascii] escaping of one character (code points below 256). *)
Definition json_escape (c : ascii) : string :=
  let n := Text.code c in
  if Ascii.eqb c dquote then String "\" (String dquote "")
  else if Ascii.eqb c "\" then "\\"
  else if n =? 10 then "\n"
  else if n =? 13 then "\r"
  else if n =? 9 then "\t"
  else if n =? 8 then "\b"
  else if n =? 12 then "\f"
  else if (n <? 32) || (126 <? n) then
    String.append "\u00"
      (String (hex_digit (n / 16)) (String (hex_digit (n mod 16)) ""))
  else String c "".

Definition json_value (v : value) : string :=
  match v with
  | VNone => "null"
  | VInt z => Text.str_int z
  | VStr s =>
      String dquote
        (String.append (str_concat_map json_escape s) (String dquote ""))
  end.

Definition NL : string := String LF "".

(** An object at nesting depth 1 of an array. *)
Definition json_object (r : record) : string :=
  match r with
  | [] => "{}"
  | _ =>
      String.append "{"
        (String.append NL
           (String.append "    "
              (String.append
                 (join (String.append "," (String.append NL "    "))
                    (map (fun kv =>
                            String.append (json_value (VStr (fst kv)))
                              (String.append ": " (json_value (snd kv))))
                       (Py.items r)))
                 (String.append NL "  }"))))
  end.

Definition json_array (records : list record) : string :=
  match records with
  | [] => "[]"
  | _ =>
      String.append "["
        (String.append NL
           (String.append "  "
              (String.append
                 (join (String.append "," (String.append NL "  "))
                    (map json_object records))
                 (String.append NL "]"))))
  end.

(** [write_json] *)
Definition write_json (records : list record) (output_path : string)
  (w : World) : World * Py.result unit :=
  let w := open_w w output_path in
  (fwrite w output_path (json_array records), Py.Ok tt).

End Exporter.

(** ** export_csv.py: the player summaries *)

Module PlayerSummary.

(** A row of the summary query, one per player.  The four counts are SQL
    [COUNT]s; [average_score] is SQL's [AVG], [NULL] for a player without
    scores and a float otherwise; [max_score] and [min_score] are [NULL]
    for such a player. *)
Record SummaryRow : Type := {
  playfab_id : Exporter.value;
  display_name : Exporter.value;
  platform : Exporter.value;
  platform_user_id : Exporter.value;
  first_seen : Exporter.value;
  last_seen : Exporter.value;
  total_days_played : Z;
  first_place_count : Z;
  podium_count : Z;
  top_10_count : Z;
  average_score : option Q;
  max_score : Exporter.value;
  min_score : Exporter.value
}.

(** A number of a record: an int or a float. *)
Inductive number : Type :=
| Int (z : Z)
| Flt (x : Q).

(** [round(avg, 2) if avg else 0]: [None] and [0.0] are false. *)
Definition rounded_average (avg : option Q) : number :=
  match avg with
  | Some a => if Qeq_bool a 0 then Int 0 else Flt (Py.round2 a)
  | None => Int 0
  end.

(** A record of the export. *)
Record Summary : Type := {
  s_playfab_id : Exporter.value;
  s_display_name : Exporter.value;
  s_platform : Exporter.value;
  s_platform_user_id : Exporter.value;
  s_first_seen : Exporter.value;
  s_last_seen : Exporter.value;
  s_total_days_played : Z;
  s_first_place_count : Z;
  s_podium_count : Z;
  s_top_10_count : Z;
  s_average_score : number;
  s_max_score : Exporter.value;
  s_min_score : Exporter.value
}.

(** The record appended for a row. *)
Definition to_record (row : SummaryRow) : Summary :=
  {| s_playfab_id := playfab_id row;
     s_display_name := display_name row;
     s_platform := platform row;
     s_platform_user_id := platform_user_id row;
     s_first_seen := first_seen row;
     s_last_seen := last_seen row;
     s_total_days_played := total_days_played row;
     s_first_place_count := first_place_count row;
     s_podium_count := podium_count row;
     s_top_10_count := top_10_count row;
     s_average_score := rounded_average (average_score row);
     s_max_score := max_score row;
     s_min_score := min_score row |}.

(** [export_player_summary], from the rows that the query returns: one
    record per row, in the order of the rows. *)
Definition export_player_summary (fetched : list SummaryRow) : list Summary :=
  map to_record fetched.

End PlayerSummary.

(** ** The notions of the specification

    The specification speaks of players, of their aggregates over a window
    and of calendar notions.  They are defined here directly on the input,
    independently of the loops of the scripts. *)

Module Spec.

(** The distinct elements of [l], each at its first occurrence. *)
Fixpoint first_occurrences (l : list string) : list string :=
  match l with
  | [] => []
  | x :: l' =>
      x :: filter (fun y => negb (String.eqb x y)) (first_occurrences l')
  end.

(** The rows of player [pid]. *)
Definition rows_of (pid : string) (rows : list Row) : list Row :=
  filter (fun r => String.eqb (playfab_id r) pid) rows.

(** The players of the window, in the order of their first row. *)
Definition players (rows : list Row) : list string :=
  first_occurrences (map playfab_id rows).

Definition is_first (r : Row) : bool := position r =? 0.
Definition is_podium (r : Row) : bool := position r <=? 2.
Definition is_top10 (r : Row) : bool := position r <=? 9.

(** The number of rows of [pid] that satisfy [p]. *)
Definition count (p : Row -> bool) (pid : string) (rows : list Row) : Z :=
  Py.len (rows_of pid (filter p rows)).

(** The number of rows of [pid]: what the reports call [days_played]. *)
Definition days_played (pid : string) (rows : list Row) : Z :=
  Py.len (rows_of pid rows).

Definition scores_of (pid : string) (rows : list Row) : list Z :=
  map score (rows_of pid rows).

(** The PlayerAggregate of the data model. *)
Record PlayerAggregate : Type := {
  player_id : string;
  first_place_count : Z;
  podium_count : Z;
  top10_count : Z;
  pa_days_played : Z;
  scores : list Z
}.

Definition aggregate (rows : list Row) (pid : string) : PlayerAggregate :=
  {| player_id := pid;
     first_place_count := count is_first pid rows;
     podium_count := count is_podium pid rows;
     top10_count := count is_top10 pid rows;
     pa_days_played := days_played pid rows;
     scores := scores_of pid rows |}.

Definition player_aggregates (rows : list Row) : list PlayerAggregate :=
  map (aggregate rows) (players rows).

(** The players with a row that satisfies [p], in the order of their first
    such row, each with the number of such rows. *)
Definition tally (p : Row -> bool) (rows : list Row) : list (string * Z) :=
  map (fun pid => (pid, count p pid rows)) (players (filter p rows)).

(** The mean of a sequence of scores, as a rational number. *)
Definition mean (l : list Z) : Q :=
  Qdiv (inject_Z (Py.sum l)) (inject_Z (Py.len l)).

Definition list_max (l : list Z) : Z :=
  match l with
  | [] => 0
  | x :: l' => fold_left Z.max l' x
  end.

Definition list_min (l : list Z) : Z :=
  match l with
  | [] => 0
  | x :: l' => fold_left Z.min l' x
  end.

(** [count / total_days * 100] as a rational number, and 0 when no day is
    tracked. *)
Definition percentage (count total_days : Z) : Q :=
  if total_days >? 0
  then Qmult (Qdiv (inject_Z count) (inject_Z total_days)) (inject_Z 100)
  else inject_Z 0.

(** A list is in descending order of [key] when no element has a key
    smaller than that of a later one. *)
Definition descending {A K} (key : A -> K) (lt : K -> K -> bool)
  : list A -> Prop :=
  StronglySorted (fun x y => lt (key x) (key y) = false).

(** The elements with equal keys are in the same order in [l'] as in [l]. *)
Definition keeps_order_of_equals {A} (key : A -> Z) (l l' : list A) : Prop :=
  forall c, filter (fun x => key x =? c) l' = filter (fun x => key x =? c) l.

(** [l'] is [l] sorted in descending order of [key] by a stable sort. *)
Definition stable_sort_desc {A} (key : A -> Z) (l l' : list A) : Prop :=
  Permutation l l' /\ descending key Z.ltb l' /\ keeps_order_of_equals key l l'.

(** *** The calendar of the specification *)

(** The last day of month [m] of year [y]: thirty days have April, June,
    September and November, February has 28 and 29 in a leap year, the
    others 31. *)
Definition is_leap_year (y : Z) : Prop :=
  (y mod 4 = 0 /\ y mod 100 <> 0) \/ y mod 400 = 0.

Definition is_leap_yearb (y : Z) : bool :=
  ((y mod 4 =? 0) && negb (y mod 100 =? 0)) || (y mod 400 =? 0).

Definition last_day_of_month (y m : Z) : Z :=
  if (m =? 4) || (m =? 6) || (m =? 9) || (m =? 11) then 30
  else if m =? 2 then (if is_leap_yearb y then 29 else 28)
  else 31.

(** The text [YYYY-MM-DD] of a date. *)
Definition iso_text (y m d : Z) : string :=
  String.append (Text.format_04d y)
    (String "-" (String.append (Text.format_02d m)
       (String "-" (Text.format_02d d)))).

(** The same with the year written without padding; for the years 1000
    to 9999 this is [iso_text]. *)
Definition date_text (y m d : Z) : string :=
  String.append (Text.str_int y)
    (String "-" (String.append (Text.format_02d m)
       (String "-" (Text.format_02d d)))).

(** ISO 8601: the weeks start on Monday and week 1 of a year is the week
    that contains the 4th of January.  The result is the ordinal of the
    Monday of week [w] of ISO year [y]. *)
Definition iso_week_monday (y w : Z) : Z :=
  let jan4 := Calendar.ymd2ord y 1 4 in
  let week1_monday := jan4 - (jan4 + 6) mod 7 in
  week1_monday + 7 * (w - 1).

End Spec.

(** ** The reports in closed form

    What [build_report] returns, written with the notions of the
    specification instead of the accumulators of the loop. *)

Module MonthlySpec.

(** The float that [count / total_days * 100] yields: the quotient is
    rounded, then its product with 100. *)
Definition percentage (count total_days : Z) : Q :=
  if total_days >? 0
  then Py.fmul (Float.rn (Qdiv (inject_Z count) (inject_Z total_days)))
         (Py.float_of_int 100)
  else inject_Z 0.

Definition champion_of (names : Py.dict string) (total_days : Z)
  (item : string * Z) : Monthly.ChampionEntry :=
  {| Monthly.ch_playfab_id := fst item;
     Monthly.ch_display_name := Py.get_default names (fst item) "Unknown";
     Monthly.ch_first_place_count := snd item;
     Monthly.ch_win_percentage := percentage (snd item) total_days |}.

Definition podium_of (names : Py.dict string) (total_days : Z)
  (item : string * Z) : Monthly.PodiumEntry :=
  {| Monthly.po_playfab_id := fst item;
     Monthly.po_display_name := Py.get_default names (fst item) "Unknown";
     Monthly.po_podium_count := snd item;
     Monthly.po_podium_percentage := percentage (snd item) total_days |}.

Definition consistent_of (names : Py.dict string) (rows : list Row)
  (pid : string) : Monthly.ConsistentEntry :=
  let l := Spec.scores_of pid rows in
  {| Monthly.co_playfab_id := pid;
     Monthly.co_display_name := Py.get_default names pid "Unknown";
     Monthly.co_days_played := Spec.days_played pid rows;
     Monthly.co_average_score := Py.int_of_float (Float.rn (Spec.mean l));
     Monthly.co_max_score := Spec.list_max l;
     Monthly.co_min_score := Spec.list_min l;
     Monthly.co_consistency_rating :=
       Py.fmul (Py.float_of_int (Spec.days_played pid rows))
         (Float.rn (Spec.mean l)) |}.

(** The players with at least five rows, in the order of their first row. *)
Definition eligible (rows : list Row) : list string :=
  filter (fun pid => Spec.days_played pid rows >=? 5) (Spec.players rows).

Definition consistent (names : Py.dict string) (rows : list Row)
  : list Monthly.ConsistentEntry :=
  map (consistent_of names rows) (eligible rows).

Definition avg_daily (rows : list Row) : Q :=
  let dp := Monthly.daily_participants (Monthly.accumulate rows) in
  Float.rn
    (Qdiv (inject_Z (Py.sum (map Py.len (Py.values dp))))
       (inject_Z (Z.max (Py.len dp) 1))).

Definition score_stats (rows : list Row) : option Monthly.ScoreStatistics :=
  match rows with
  | [] => None
  | _ =>
      let all_scores :=
        List.concat (map (fun pid => Spec.scores_of pid rows)
                       (Spec.players rows)) in
      Some {| Monthly.total_scores_recorded := Py.len all_scores;
              Monthly.ss_average_score :=
                Py.int_of_float (Float.rn (Spec.mean all_scores));
              Monthly.highest_score := Spec.list_max all_scores;
              Monthly.lowest_score := Spec.list_min all_scores |}
  end.

Definition report (rows : list Row) (players : list (string * string))
  (total_days : Z) (start_date end_date : string) : Monthly.Report :=
  let names := build_player_names players in
  let champions :=
    Py.sorted_desc (@snd string Z) Z.ltb (Spec.tally Spec.is_first rows) in
  {| Monthly.month_period := (start_date, end_date);
     Monthly.monthly_champion :=
       match champions with
       | [] => None
       | first :: _ => Some (champion_of names total_days first)
       end;
     Monthly.top_champions :=
       map (champion_of names total_days) (firstn 10 champions);
     Monthly.top_podium_finishes :=
       map (podium_of names total_days)
         (firstn 10
            (Py.sorted_desc (@snd string Z) Z.ltb
               (Spec.tally Spec.is_podium rows)));
     Monthly.top_10_finishes :=
       map (Monthly.top10_entry names)
         (firstn 20
            (Py.sorted_desc (@snd string Z) Z.ltb
               (Spec.tally Spec.is_top10 rows)));
     Monthly.most_consistent :=
       firstn 15 (Monthly.sort_consistent (consistent names rows));
     Monthly.participation_stats :=
       {| Monthly.total_unique_players := Py.len (Spec.players rows);
          Monthly.total_days_tracked := total_days;
          Monthly.avg_daily_participants := avg_daily rows |};
     Monthly.score_statistics := score_stats rows |}.

End MonthlySpec.

Module WeeklySpec.

Definition consistent_of (names : Py.dict string) (rows : list Row)
  (pid : string) : Weekly.ConsistentEntry :=
  {| Weekly.co_playfab_id := pid;
     Weekly.co_display_name := Py.get_default names pid "Unknown";
     Weekly.co_days_played := Spec.days_played pid rows;
     Weekly.co_average_score :=
       Py.int_of_float (Float.rn (Spec.mean (Spec.scores_of pid rows))) |}.

(** The players with at least three rows, in the order of their first row. *)
Definition eligible (rows : list Row) : list string :=
  filter (fun pid => Spec.days_played pid rows >=? 3) (Spec.players rows).

Definition consistent (names : Py.dict string) (rows : list Row)
  : list Weekly.ConsistentEntry :=
  map (consistent_of names rows) (eligible rows).

Definition report (rows : list Row) (players : list (string * string))
  (start_date end_date : string) : Weekly.Report :=
  let names := build_player_names players in
  let firsts :=
    Py.sorted_desc (@snd string Z) Z.ltb (Spec.tally Spec.is_first rows) in
  {| Weekly.week_period := (start_date, end_date);
     Weekly.report_daily_winners := Weekly.daily_winners (Weekly.accumulate rows);
     Weekly.weekly_champion :=
       match firsts with
       | [] => None
       | first :: _ =>
           Some {| Weekly.ch_playfab_id := fst first;
                   Weekly.ch_display_name :=
                     Py.get_default names (fst first) "Unknown";
                   Weekly.ch_first_place_count := snd first |}
       end;
     Weekly.top_first_places :=
       map (Weekly.count_entry names) (firstn 10 firsts);
     Weekly.top_podium_finishes :=
       map (Weekly.count_entry names)
         (firstn 10
            (Py.sorted_desc (@snd string Z) Z.ltb
               (Spec.tally Spec.is_podium rows)));
     Weekly.most_consistent :=
       firstn 10 (Weekly.sort_consistent (consistent names rows));
     Weekly.total_unique_players := Py.len (Spec.players rows) |}.

End WeeklySpec.

(** ** Invariants of the aggregation loops *)

Module Inv.

(** A player's counters are nested (a missing entry counts as 0). *)
Definition monthly_nested (acc : Monthly.Acc) : Prop :=
  forall pid,
    0 <= Py.get_default (Monthly.first_place_counts acc) pid 0
      <= Py.get_default (Monthly.podium_counts acc) pid 0
    /\ Py.get_default (Monthly.podium_counts acc) pid 0
       <= Py.get_default (Monthly.top_10_counts acc) pid 0
       <= Py.get_default (Monthly.participation_counts acc) pid 0.

Definition weekly_nested (acc : Weekly.Acc) : Prop :=
  forall pid,
    0 <= Py.get_default (Weekly.first_place_counts acc) pid 0
      <= Py.get_default (Weekly.podium_counts acc) pid 0
    /\ Py.get_default (Weekly.podium_counts acc) pid 0
       <= Py.get_default (Weekly.participation_counts acc) pid 0.

End Inv.

(** ** Dictionaries as tables of their keys *)

Module Table.

(** The dictionary with the keys [ks], in this order, and the values [f k]. *)
Definition tabulate {V} (f : string -> V) (ks : list string) : Py.dict V :=
  map (fun k => (k, f k)) ks.

(** The elements of [rows] with key [k]. *)
Definition group_of {R} (kf : R -> string) (k : string) (rows : list R)
  : list R :=
  filter (fun r => String.eqb (kf r) k) rows.

(** The keys of [rows] in the order of first occurrence, each with the
    summary [S] of its group. *)
Definition grouped {R V} (kf : R -> string) (S : list R -> V)
  (rows : list R) : Py.dict V :=
  tabulate (fun k => S (group_of kf k rows))
    (Spec.first_occurrences (map kf rows)).

End Table.

(** ** Sample inputs *)

Module Sample.

Definition row (d : string) (pos sc : Z) (pid name : string) : Row :=
  {| stat_date := d; position := pos; score := sc;
     playfab_id := pid; display_name := name |}.

(** One day, two players: A is first, B second. *)
Definition one_day : list Row :=
  [ row "2024-01-01" 0 100 "A" "Ann"; row "2024-01-01" 1 90 "B" "Bob" ].

(** Five days of one player, with mean score 10.4. *)
Definition five_days : list Row :=
  [ row "2024-01-01" 0 10 "A" "Ann"; row "2024-01-02" 0 10 "A" "Ann";
    row "2024-01-03" 0 10 "A" "Ann"; row "2024-01-04" 0 10 "A" "Ann";
    row "2024-01-05" 0 12 "A" "Ann" ].

Definition names : list (string * string) :=
  [("A", "Ann"); ("B", "Bob"); ("C", "Cat")].

(** Two days, three players: A, B, C on the first day, B, A, C on the
    second. *)
Definition two_days : list Row :=
  [ row "2024-01-01" 0 100 "A" "Ann"; row "2024-01-01" 1 90 "B" "Bob";
    row "2024-01-01" 2 80 "C" "Cat"; row "2024-01-02" 0 95 "B" "Bob";
    row "2024-01-02" 1 85 "A" "Ann"; row "2024-01-02" 2 70 "C" "Cat" ].

(** Seven days of A and B.  A plays the first five days, with scores 11,
    12, 12, 12, 12 (sum 59); B plays all seven, with score 8 each day
    (sum 56). *)
Definition long_month : list Row :=
  [ row "2024-01-01" 0 11 "A" "Ann"; row "2024-01-01" 1 8 "B" "Bob";
    row "2024-01-02" 0 12 "A" "Ann"; row "2024-01-02" 1 8 "B" "Bob";
    row "2024-01-03" 0 12 "A" "Ann"; row "2024-01-03" 1 8 "B" "Bob";
    row "2024-01-04" 0 12 "A" "Ann"; row "2024-01-04" 1 8 "B" "Bob";
    row "2024-01-05" 0 12 "A" "Ann"; row "2024-01-05" 1 8 "B" "Bob";
    row "2024-01-06" 0 8 "B" "Bob"; row "2024-01-07" 0 8 "B" "Bob" ].

(** Three days of A and B: A scores 10, 10, 11 (sum 31) and B scores 10,
    11, 11 (sum 32). *)
Definition short_week : list Row :=
  [ row "2024-01-01" 0 10 "A" "Ann"; row "2024-01-01" 1 10 "B" "Bob";
    row "2024-01-02" 0 10 "A" "Ann"; row "2024-01-02" 1 11 "B" "Bob";
    row "2024-01-03" 0 11 "A" "Ann"; row "2024-01-03" 1 11 "B" "Bob" ].

(** Seven days of A and B with the same total, 29: B plays the first
    five days, with scores 5, 6, 6, 6, 6; A plays all seven, with scores
    4, 4, 4, 4, 4, 4, 5. *)
Definition equal_totals : list Row :=
  [ row "2024-01-01" 0 5 "B" "Bob"; row "2024-01-01" 1 4 "A" "Ann";
    row "2024-01-02" 0 6 "B" "Bob"; row "2024-01-02" 1 4 "A" "Ann";
    row "2024-01-03" 0 6 "B" "Bob"; row "2024-01-03" 1 4 "A" "Ann";
    row "2024-01-04" 0 6 "B" "Bob"; row "2024-01-04" 1 4 "A" "Ann";
    row "2024-01-05" 0 6 "B" "Bob"; row "2024-01-05" 1 4 "A" "Ann";
    row "2024-01-06" 0 4 "A" "Ann"; row "2024-01-07" 0 5 "A" "Ann" ].

(** Five days of one player whose score, 2^53 + 1 each day, is not a
    float. *)
Definition large_scores : list Row :=
  [ row "2024-01-01" 0 9007199254740993 "A" "Ann";
    row "2024-01-02" 0 9007199254740993 "A" "Ann";
    row "2024-01-03" 0 9007199254740993 "A" "Ann";
    row "2024-01-04" 0 9007199254740993 "A" "Ann";
    row "2024-01-05" 0 9007199254740993 "A" "Ann" ].

End Sample.

(** ** Numerals *)

Module Numeral.

(** Every character of [s] is a decimal digit. *)
Fixpoint all_digits (s : string) : bool :=
  match s with
  | EmptyString => true
  | String c s' => Text.is_digit c && all_digits s'
  end.

(** The integers [lo], [lo + 1], ..., [lo + n - 1]. *)
Definition range (lo : Z) (n : nat) : list Z :=
  map (fun i => lo + Z.of_nat i) (seq 0 n).

Definition is_none {A} (o : option A) : bool :=
  match o with
  | None => true
  | Some _ => false
  end.

(** The text of week [w], followed by [-1], is read as week [w], day 1. *)
Definition week_is_read (w : Z) : bool :=
  match
    Calendar.first_match
      (Calendar.re_W (String.append (Text.format_02d w) "-1"))
  with
  | Some (W, d, EmptyString) => (W =? w) && (d =? 1)
  | _ => false
  end.

End Numeral.

Module SampleStore.

(** A store that is present and holds no rows. *)
Definition empty : Store :=
  {| connect := Py.Ok tt;
     select_scores := fun _ _ => Py.Ok [];
     select_players := Py.Ok [];
     count_days := fun _ _ => Py.Ok 0 |}.

(** A store whose [daily_scores] table is missing: the scores query
    raises. *)
Definition no_table : Store :=
  {| connect := Py.Ok tt;
     select_scores := fun _ _ => Py.Raise Py.DatabaseError;
     select_players := Py.Ok [];
     count_days := fun _ _ => Py.Raise Py.DatabaseError |}.

End SampleStore.

(** ** The exported files, as the specification describes them *)

Module ExporterSpec.

(** The world in which the file at [path] has the content [text]. *)
Definition set_file (w : Exporter.World) (path text : string)
  : Exporter.World :=
  {| Exporter.files := Py.dict_set (Exporter.files w) path text;
     Exporter.stdout := Exporter.stdout w |}.

(** The row of a record under the header [fieldnames]: the value of each
    field, the empty string for a field the record lacks. *)
Definition row_of (fieldnames : list string) (r : Exporter.record)
  : list Exporter.value :=
  map (fun k => Py.get_default r k (Exporter.VStr "")) fieldnames.

(** One line per record. *)
Fixpoint csv_rows (fieldnames : list string) (records : list Exporter.record)
  : string :=
  match records with
  | [] => ""
  | r :: records' =>
      String.append (Exporter.csv_row (row_of fieldnames r))
        (csv_rows fieldnames records')
  end.

(** The header line made of the keys of the first record, then one line
    per record. *)
Definition csv_file (first : Exporter.record) (rest : list Exporter.record)
  : string :=
  String.append
    (Exporter.csv_row (map Exporter.VStr (Py.keys first)))
    (csv_rows (Py.keys first) (first :: rest)).

(** Two records with different keys. *)
Definition mixed_records : list Exporter.record :=
  [ [("a", Exporter.VInt 1)]; [("b", Exporter.VInt 2)] ].

Definition uniform_records : list Exporter.record :=
  [ [("a", Exporter.VInt 1); ("b", Exporter.VStr "x")];
    [("a", Exporter.VInt 2); ("b", Exporter.VNone)] ].

Definition no_files : Exporter.World :=
  {| Exporter.files := []; Exporter.stdout := [] |}.

End ExporterSpec.

(** ** Days and their participants *)

Module Daily.

(** The dates of the rows, in the order of first occurrence. *)
Definition dates (rows : list Row) : list string :=
  Spec.first_occurrences (map stat_date rows).

(** The rows of date [d]. *)
Definition rows_on (d : string) (rows : list Row) : list Row :=
  filter (fun r => String.eqb (stat_date r) d) rows.

(** The distinct players with a row on date [d]. *)
Definition players_on (d : string) (rows : list Row) : list string :=
  Spec.first_occurrences (map playfab_id (rows_on d rows)).

(** The first-place rows of date [d]. *)
Definition first_places_on (d : string) (rows : list Row) : list Row :=
  filter (fun r => Spec.is_first r && String.eqb (stat_date r) d) rows.

(** What the weekly loop stores for a first-place row. *)
Definition winner_of (r : Row) : Weekly.Winner :=
  {| Weekly.wi_playfab_id := playfab_id r;
     Weekly.wi_display_name := display_name r;
     Weekly.wi_score := score r |}.

Fixpoint last_opt {A} (l : list A) : option A :=
  match l with
  | [] => None
  | [x] => Some x
  | _ :: l' => last_opt l'
  end.

(** The winner taken from the last row of a list; of no use on the empty
    list. *)
Definition last_winner (l : list Row) : Weekly.Winner :=
  match last_opt l with
  | Some r => winner_of r
  | None =>
      {| Weekly.wi_playfab_id := ""; Weekly.wi_display_name := "";
         Weekly.wi_score := 0 |}
  end.

End Daily.

(** ** export_csv.py: the export of the daily scores *)

Module ExportScores.

(** A row of the query: the eight selected columns. *)
Record ScoreRow : Type := {
  stat_date : Exporter.value;
  statistic_name : Exporter.value;
  position : Exporter.value;
  score : Exporter.value;
  playfab_id : Exporter.value;
  display_name : Exporter.value;
  platform : Exporter.value;
  platform_user_id : Exporter.value
}.

(** The text of the query before its conditions. *)
Definition base_query : string := "
        SELECT 
            ds.stat_date,
            ds.statistic_name,
            ds.position,
            ds.score,
            ds.playfab_id,
            p.display_name,
            p.platform,
            p.platform_user_id
        FROM daily_scores ds
        JOIN players p ON ds.playfab_id = p.playfab_id
    ".

(** [if start_date:] on an optional string: [None] and the empty string
    do not count. *)
Definition given (s : option string) : bool :=
  match s with
  | Some (String _ _) => true
  | _ => false
  end.

Definition text_of (s : option string) : string :=
  match s with
  | Some t => t
  | None => ""
  end.

(** The query and its parameters, as [export_daily_scores] builds them. *)
Definition scores_query (start_date end_date : option string)
  : string * list string :=
  let conditions :=
    (if given start_date then ["ds.stat_date >= ?"] else [])
    ++ (if given end_date then ["ds.stat_date <= ?"] else []) in
  let params :=
    (if given start_date then [text_of start_date] else [])
    ++ (if given end_date then [text_of end_date] else []) in
  let query :=
    match conditions with
    | [] => base_query
    | _ =>
        String.append base_query
          (String.append " WHERE " (Exporter.join " AND " conditions))
    end in
  (String.append query " ORDER BY ds.stat_date, ds.position", params).

(** The record made of a row. *)
Definition to_record (row : ScoreRow) : Exporter.record :=
  [ ("stat_date", stat_date row);
    ("statistic_name", statistic_name row);
    ("position", position row);
    ("score", score row);
    ("playfab_id", playfab_id row);
    ("display_name", display_name row);
    ("platform", platform row);
    ("platform_user_id", platform_user_id row) ].

(** [export_daily_scores]; [execute] stands for the store: what
    [cursor.execute(query, params)] followed by [fetchall] returns. *)
Definition export_daily_scores
  (execute : string -> list string -> list ScoreRow)
  (start_date end_date : option string) : list Exporter.record :=
  let '(query, params) := scores_query start_date end_date in
  map to_record (execute query params).

(** The columns of the export, in the order of the header. *)
Definition columns : list string :=
  [ "stat_date"; "statistic_name"; "position"; "score"; "playfab_id";
    "display_name"; "platform"; "platform_user_id" ].

End ExportScores.

(** ** Counting characters *)

Module Chars.

(** The number of occurrences of [c] in [s]. *)
Fixpoint count (c : ascii) (s : string) : nat :=
  match s with
  | EmptyString => O
  | String a s' => ((if Ascii.eqb a c then 1 else 0) + count c s')%nat
  end.

(** Every character of [s] satisfies [p]. *)
Fixpoint all (p : ascii -> bool) (s : string) : bool :=
  match s with
  | EmptyString => true
  | String a s' => p a && all p s'
  end.

(** A printable ASCII character or a line feed. *)
Definition plain (c : ascii) : bool :=
  (Text.code c =? 10) || ((32 <=? Text.code c) && (Text.code c <=? 126)).

End Chars.

(** ** Reading a CSV field back

    The scripts only write CSV.  To state that the writer loses nothing,
    a reader of one field is defined here: a quoted field ends at the
    first quote that is not doubled, a bare field at the first special
    character. *)

Module Reading.

(** The field after its opening quote, and what follows its closing one. *)
Fixpoint read_quoted (s : string) : string * string :=
  match s with
  | EmptyString => ("", "")
  | String c s' =>
      if Ascii.eqb c Exporter.dquote then
        match s' with
        | String c' s'' =>
            if Ascii.eqb c' Exporter.dquote then
              let '(f, r) := read_quoted s'' in (String Exporter.dquote f, r)
            else ("", s')
        | EmptyString => ("", "")
        end
      else let '(f, r) := read_quoted s' in (String c f, r)
  end.

Fixpoint read_bare (s : string) : string * string :=
  match s with
  | EmptyString => ("", "")
  | String c s' =>
      if Exporter.csv_special c then ("", s)
      else let '(f, r) := read_bare s' in (String c f, r)
  end.

Definition read_field (s : string) : string * string :=
  match s with
  | String c s' =>
      if Ascii.eqb c Exporter.dquote then read_quoted s' else read_bare s
  | EmptyString => ("", "")
  end.

(** What may follow a field in a line: nothing, a comma or the line
    terminator. *)
Definition follows (r : string) : bool :=
  match r with
  | EmptyString => true
  | String c _ => Exporter.csv_special c && negb (Ascii.eqb c Exporter.dquote)
  end.

(** The fields of a line, each followed by its separator or by the line
    terminator. *)
Fixpoint fields (l : list string) : string :=
  match l with
  | [] => String Exporter.CR (String Exporter.LF "")
  | f :: l' =>
      String.append (Exporter.csv_field f)
        (match l' with
         | [] => String Exporter.CR (String Exporter.LF "")
         | _ => String "," (fields l')
         end)
  end.

(** What follows a field in [fields]. *)
Definition after_field (l : list string) : string :=
  match l with
  | [] => String Exporter.CR (String Exporter.LF "")
  | _ => String "," (fields l)
  end.

(** The line of a row with the texts [l]; a single empty field is written
    as a pair of quotes. *)
Definition line (l : list string) : string :=
  match l with
  | [EmptyString] =>
      String Exporter.dquote
        (String Exporter.dquote (String Exporter.CR (String Exporter.LF "")))
  | _ => fields l
  end.

End Reading.

(** ** The file of a scores export *)

Module ScoresFile.

(** The eight values of a row, in the order of the columns. *)
Definition values (row : ExportScores.ScoreRow) : list Exporter.value :=
  [ ExportScores.stat_date row; ExportScores.statistic_name row;
    ExportScores.position row; ExportScores.score row;
    ExportScores.playfab_id row; ExportScores.display_name row;
    ExportScores.platform row; ExportScores.platform_user_id row ].

Definition header : string :=
  String.append
    "stat_date,statistic_name,position,score,playfab_id,display_name,platform,platform_user_id"
    (String Exporter.CR (String Exporter.LF "")).

(** One line per row. *)
Fixpoint lines (rows : list ExportScores.ScoreRow) : string :=
  match rows with
  | [] => ""
  | row :: rows' =>
      String.append (Exporter.csv_row (values row)) (lines rows')
  end.

(** The bounds that count: those that are given and not empty. *)
Definition bounds (start_date end_date : option string) : list string :=
  filter (fun d => negb (String.eqb d ""))
    (match start_date with Some d => [d] | None => [] end
     ++ match end_date with Some d => [d] | None => [] end).

End ScoresFile.

(** ** The names of the players table *)

Module Names.

(** The name that the last row of the players table gives to [pid];
    [Unknown] when the table has no row for [pid]. *)
Definition name_of (players : list (string * string)) (pid : string)
  : string :=
  match Daily.last_opt (filter (fun r => String.eqb (fst r) pid) players) with
  | Some r => snd r
  | None => "Unknown"
  end.

End Names.
(** * Properties *)

(** ** Rounding to binary64 *)

Lemma rhe_cases (x : Q) :
  let q := Qnum x / Z.pos (Qden x) in
  let r := Qnum x mod Z.pos (Qden x) in
  Qnum x = Z.pos (Qden x) * q + r /\ 0 <= r < Z.pos (Qden x)
  /\ ((2 * r < Z.pos (Qden x) /\ Float.round_half_even x = q)
      \/ (2 * r > Z.pos (Qden x) /\ Float.round_half_even x = q + 1)
      \/ (2 * r = Z.pos (Qden x)
          /\ (Float.round_half_even x = q \/ Float.round_half_even x = q + 1))).
Proof.
  cbv zeta. pose proof (Z.div_mod (Qnum x) (Z.pos (Qden x)) ltac:(lia)) as E.
  pose proof (Z.mod_pos_bound (Qnum x) (Z.pos (Qden x)) ltac:(lia)) as B.
  split; [exact E|]. split; [exact B|].
  unfold Float.round_half_even.
  destruct (Z.compare_spec (2 * (Qnum x mod Z.pos (Qden x))) (Z.pos (Qden x)))
    as [H|H|H].
  - right. right. split; [exact H|].
    destruct (Z.even (Qnum x / Z.pos (Qden x))); auto.
  - left. split; [exact H|reflexivity].
  - right. left. split; [lia|reflexivity].
Qed.

Lemma rhe_ge_int (x : Q) (m : Z) :
  (inject_Z m <= x)%Q -> m <= Float.round_half_even x.
Proof.
  intros H. unfold Qle in H. simpl in H.
  destruct (rhe_cases x) as (E & B & C). cbv zeta in *.
  set (d := Z.pos (Qden x)) in *. set (q := Qnum x / d) in *.
  set (r := Qnum x mod d) in *.
  assert (m <= q) by nia.
  destruct C as [[_ ->]|[[_ ->]|[_ [->| ->]]]]; lia.
Qed.

Lemma rhe_le_int (x : Q) (m : Z) :
  (x <= inject_Z m)%Q -> Float.round_half_even x <= m.
Proof.
  intros H. unfold Qle in H. simpl in H.
  destruct (rhe_cases x) as (E & B & C). cbv zeta in *.
  set (d := Z.pos (Qden x)) in *. set (q := Qnum x / d) in *.
  set (r := Qnum x mod d) in *.
  destruct C as [[C ->]|[[C ->]|[C [->| ->]]]]; nia.
Qed.

Lemma rhe_int (x : Q) (m : Z) :
  (x == inject_Z m)%Q -> Float.round_half_even x = m.
Proof.
  intros H. apply Z.le_antisymm.
  - apply rhe_le_int. rewrite H. apply Qle_refl.
  - apply rhe_ge_int. rewrite H. apply Qle_refl.
Qed.

(** Below the middle of [m - 1] and [m] the result is below [m]. *)
Lemma rhe_below_half (x : Q) (m : Z) :
  (x < inject_Z m - (1 # 2))%Q -> Float.round_half_even x <= m - 1.
Proof.
  intros H.
  assert (H' : 2 * Qnum x < (2 * m - 1) * Z.pos (Qden x)).
  { unfold Qlt, Qminus, Qplus, Qopp in H. simpl in H. lia. }
  destruct (rhe_cases x) as (E & B & C). cbv zeta in *.
  set (d := Z.pos (Qden x)) in *. set (q := Qnum x / d) in *.
  set (r := Qnum x mod d) in *.
  destruct C as [[C ->]|[[C ->]|[C [->| ->]]]]; nia.
Qed.

Lemma rhe_above_half (x : Q) (m : Z) :
  (inject_Z m + (1 # 2) < x)%Q -> m + 1 <= Float.round_half_even x.
Proof.
  intros H.
  assert (H' : (2 * m + 1) * Z.pos (Qden x) < 2 * Qnum x).
  { unfold Qlt, Qplus in H. simpl in H. lia. }
  destruct (rhe_cases x) as (E & B & C). cbv zeta in *.
  set (d := Z.pos (Qden x)) in *. set (q := Qnum x / d) in *.
  set (r := Qnum x mod d) in *.
  destruct C as [[C ->]|[[C ->]|[C [->| ->]]]]; nia.
Qed.

Lemma rhe_error (x : Q) :
  (Qabs (inject_Z (Float.round_half_even x) - x) <= 1 # 2)%Q.
Proof.
  apply Qabs_Qle_condition.
  destruct (rhe_cases x) as (E & B & C). cbv zeta in *.
  set (d := Z.pos (Qden x)) in *. set (q := Qnum x / d) in *.
  set (r := Qnum x mod d) in *.
  assert (Hx : (x == Qnum x # Qden x)%Q) by (destruct x; reflexivity).
  split.
  - unfold Qle, Qminus, Qplus, Qopp. simpl. fold d.
    destruct C as [[C ->]|[[C ->]|[C [->| ->]]]]; nia.
  - unfold Qle, Qminus, Qplus, Qopp. simpl. fold d.
    destruct C as [[C ->]|[[C ->]|[C [->| ->]]]]; nia.
Qed.

Section Rounding.
Local Open Scope Q_scope.

Lemma two_neq_0 : ~ 2 == 0.
Proof. discriminate. Qed.

Lemma pow2_pos (k : Z) : 0 < 2 ^ k.
Proof. apply Qpower_0_lt. reflexivity. Qed.

Lemma pow2_plus (a b : Z) : 2 ^ (a + b) == 2 ^ a * 2 ^ b.
Proof. apply Qpower_plus, two_neq_0. Qed.

Lemma pow2_le (a b : Z) : (a <= b)%Z -> 2 ^ a <= 2 ^ b.
Proof. intros H. apply Qpower_le_compat_l; [exact H|discriminate]. Qed.

Lemma pow2_lt (a b : Z) : (a < b)%Z -> 2 ^ a < 2 ^ b.
Proof. intros H. apply Qpower_lt_compat_l; [exact H|reflexivity]. Qed.

Lemma pow2_nonneg (k : Z) : (0 <= k)%Z -> 2 ^ k == inject_Z (2 ^ k).
Proof. intros H. symmetry. apply (Zpower_Qpower 2 k H). Qed.

Lemma pow2_opp (k : Z) : 2 ^ (- k) * 2 ^ k == 1.
Proof.
  rewrite <- pow2_plus. replace (- k + k)%Z with 0%Z by lia. reflexivity.
Qed.

(** [n / d] against a power of two, from bounds on [n] and [d]. *)
Lemma frac_lt_pow2 (n : Z) (d : positive) (u v : Z) :
  (0 <= u)%Z -> (0 <= v)%Z ->
  (n < 2 ^ u)%Z -> (2 ^ v <= Z.pos d)%Z -> n # d < 2 ^ (u - v).
Proof.
  intros Hu Hv Hn Hd.
  apply Qmult_lt_r with (z := 2 ^ v); [apply pow2_pos|].
  rewrite <- pow2_plus. replace (u - v + v)%Z with u by lia.
  rewrite !pow2_nonneg by assumption.
  unfold Qlt, Qmult, inject_Z. simpl.
  pose proof (Z.pow_pos_nonneg 2 v ltac:(lia) Hv).
  rewrite Pos.mul_1_r. nia.
Qed.

Lemma pow2_lt_frac (n : Z) (d : positive) (u v : Z) :
  (0 <= u)%Z -> (0 <= v)%Z ->
  (2 ^ u <= n)%Z -> (Z.pos d < 2 ^ v)%Z -> 2 ^ (u - v) < n # d.
Proof.
  intros Hu Hv Hn Hd.
  apply Qmult_lt_r with (z := 2 ^ v); [apply pow2_pos|].
  rewrite <- pow2_plus. replace (u - v + v)%Z with u by lia.
  rewrite !pow2_nonneg by assumption.
  unfold Qlt, Qmult, inject_Z. simpl.
  pose proof (Z.pow_pos_nonneg 2 u ltac:(lia) Hu).
  rewrite Pos.mul_1_r. nia.
Qed.

Lemma Qabs_frac (x : Q) : Qabs x = Z.abs (Qnum x) # Qden x.
Proof. destruct x; reflexivity. Qed.

Lemma Qnum_zero (x : Q) : Qnum x = 0%Z <-> x == 0.
Proof. unfold Qeq. simpl. lia. Qed.

Lemma ilog2_spec (x : Q) :
  ~ x == 0 ->
  2 ^ Float.ilog2 x <= Qabs x /\ Qabs x < 2 ^ (Float.ilog2 x + 1).
Proof.
  intros Hx. rewrite <- Qnum_zero in Hx.
  assert (Hn : (0 < Z.abs (Qnum x))%Z) by lia.
  pose proof (Z.log2_spec _ Hn) as [Ln Un].
  pose proof (Z.log2_spec (Z.pos (Qden x)) ltac:(lia)) as [Ld Ud].
  pose proof (Z.log2_nonneg (Z.abs (Qnum x))) as Nn.
  pose proof (Z.log2_nonneg (Z.pos (Qden x))) as Nd.
  set (ln := Z.log2 (Z.abs (Qnum x))) in *.
  set (ld := Z.log2 (Z.pos (Qden x))) in *.
  assert (Lo : 2 ^ (ln - ld - 1) < Qabs x).
  { rewrite Qabs_frac. replace (ln - ld - 1)%Z with (ln - Z.succ ld)%Z by lia.
    apply pow2_lt_frac; try lia; assumption. }
  assert (Hi : Qabs x < 2 ^ (ln - ld + 1)).
  { rewrite Qabs_frac. replace (ln - ld + 1)%Z with (Z.succ ln - ld)%Z by lia.
    apply frac_lt_pow2; try lia; assumption. }
  unfold Float.ilog2. fold ln ld.
  destruct (Qle_bool (2 ^ (ln - ld)) (Qabs x)) eqn:E.
  - apply Qle_bool_iff in E. split; assumption.
  - assert (E' : Qabs x < 2 ^ (ln - ld)).
    { apply Qnot_le_lt. intros H. apply Qle_bool_iff in H. congruence. }
    split; [apply Qlt_le_weak, Lo|].
    replace (ln - ld - 1 + 1)%Z with (ln - ld)%Z by lia. exact E'.
Qed.

(** The shape of a rounded number: an integer of 53 bits times a power
    of two. *)
Lemma rn_spec (x : Q) :
  ~ x == 0 ->
  let e := (Float.ilog2 x - 52)%Z in
  let y := x * 2 ^ (- e) in
  Float.rn x == inject_Z (Float.round_half_even y) * 2 ^ e
  /\ x == y * 2 ^ e
  /\ 2 ^ 52 <= Qabs y /\ Qabs y < 2 ^ 53.
Proof.
  intros Hx. cbv zeta.
  set (e := (Float.ilog2 x - 52)%Z).
  destruct (ilog2_spec x Hx) as [Lo Hi].
  split; [|split; [|split]].
  - unfold Float.rn. fold e.
    destruct (Z.eqb_spec (Qnum x) 0) as [E|_]; [now apply Qnum_zero in E|].
    apply Qred_correct.
  - rewrite <- Qmult_assoc, pow2_opp. ring.
  - rewrite Qabs_Qmult, (Qabs_pos (2 ^ (- e)))
      by (apply Qlt_le_weak, pow2_pos).
    apply Qmult_le_r with (z := 2 ^ e); [apply pow2_pos|].
    rewrite <- Qmult_assoc, pow2_opp, Qmult_1_r, <- pow2_plus.
    replace (52 + e)%Z with (Float.ilog2 x) by (unfold e; lia). exact Lo.
  - rewrite Qabs_Qmult, (Qabs_pos (2 ^ (- e)))
      by (apply Qlt_le_weak, pow2_pos).
    apply Qmult_lt_r with (z := 2 ^ e); [apply pow2_pos|].
    rewrite <- Qmult_assoc, pow2_opp, Qmult_1_r, <- pow2_plus.
    replace (53 + e)%Z with (Float.ilog2 x + 1)%Z by (unfold e; lia). exact Hi.
Qed.

Lemma rn_zero (x : Q) : x == 0 -> Float.rn x = 0.
Proof.
  intros H. apply Qnum_zero in H. unfold Float.rn. now rewrite H.
Qed.

(** The relative error of one rounding is at most [2^-53]. *)
Lemma rn_error (x : Q) : Qabs (Float.rn x - x) <= Qabs x * 2 ^ (-53).
Proof.
  destruct (Qeq_dec x 0) as [Hx|Hx].
  - rewrite (rn_zero x Hx), Hx. discriminate.
  - destruct (rn_spec x Hx) as (E1 & E2 & Lo & _). cbv zeta in *.
    set (e := (Float.ilog2 x - 52)%Z) in *.
    set (y := x * 2 ^ (- e)) in *.
    assert (E : Float.rn x - x
                == (inject_Z (Float.round_half_even y) - y) * 2 ^ e).
    { rewrite E1.
      transitivity (inject_Z (Float.round_half_even y) * 2 ^ e - y * 2 ^ e);
        [|ring].
      apply Qplus_comp; [reflexivity|]. apply Qopp_comp. exact E2. }
    rewrite E, Qabs_Qmult, (Qabs_pos (2 ^ e)) by (apply Qlt_le_weak, pow2_pos).
    assert (A : Qabs x == Qabs y * 2 ^ e).
    { transitivity (Qabs (y * 2 ^ e)); [apply Qabs_wd, E2|].
      rewrite Qabs_Qmult.
      now rewrite (Qabs_pos (2 ^ e)) by (apply Qlt_le_weak, pow2_pos). }
    rewrite A.
    rewrite <- Qmult_assoc, (Qmult_comm (2 ^ e)), Qmult_assoc.
    apply Qmult_le_compat_r; [|apply Qlt_le_weak, pow2_pos].
    apply Qle_trans with (1 # 2); [apply rhe_error|].
    apply Qle_trans with (2 ^ 52 * 2 ^ (-53)); [discriminate|].
    apply Qmult_le_compat_r; [exact Lo|discriminate].
Qed.

Lemma ilog2_lt (x : Q) (k : Z) :
  ~ x == 0 -> Qabs x < 2 ^ k -> (Float.ilog2 x < k)%Z.
Proof.
  intros Hx H. destruct (ilog2_spec x Hx) as [Lo _].
  apply Qpower_lt_compat_l_inv with (q := 2); [|reflexivity].
  eapply Qle_lt_trans; eassumption.
Qed.

Lemma scale_frac (a : Z) (b : positive) (s : Z) :
  (0 <= s)%Z -> (a # b) * 2 ^ s == (a * 2 ^ s) # b.
Proof.
  intros Hs. rewrite pow2_nonneg by assumption.
  unfold Qeq, Qmult, inject_Z. simpl. rewrite Pos.mul_1_r. reflexivity.
Qed.

(** Integers below [2^53] are floats. *)
Lemma rn_int (k : Z) :
  (Z.abs k < 2 ^ 53)%Z -> Float.rn (inject_Z k) == inject_Z k.
Proof.
  intros Hk. destruct (Z.eq_dec k 0) as [->|Hk0]; [reflexivity|].
  assert (Hx : ~ inject_Z k == 0).
  { unfold Qeq, inject_Z. simpl. lia. }
  destruct (rn_spec _ Hx) as (E1 & E2 & _). cbv zeta in *.
  set (e := (Float.ilog2 (inject_Z k) - 52)%Z) in *.
  assert (He : (e <= 0)%Z).
  { assert (Float.ilog2 (inject_Z k) < 53)%Z; [|unfold e; lia].
    apply ilog2_lt; [exact Hx|].
    rewrite (pow2_nonneg 53) by lia.
    unfold Qlt, inject_Z. simpl. lia. }
  rewrite E1.
  assert (Ey : inject_Z k * 2 ^ (- e) == inject_Z (k * 2 ^ (- e))).
  { unfold inject_Z at 1. rewrite scale_frac by lia. reflexivity. }
  rewrite (rhe_int _ _ Ey), <- Ey, <- Qmult_assoc, pow2_opp. ring.
Qed.

(** [int(x)] of a float between two consecutive integers. *)
Lemma int_of_float_floor (z : Q) (k : Z) :
  (0 <= k)%Z -> inject_Z k <= z -> z < inject_Z (k + 1) ->
  Z.quot (Qnum z) (Z.pos (Qden z)) = k.
Proof.
  intros Hk Lo Hi. unfold Qle, Qlt, inject_Z in *. simpl in *.
  assert (0 <= Qnum z)%Z by nia.
  rewrite Z.quot_div_nonneg by lia.
  symmetry. apply Z.div_unique with (r := (Qnum z - k * Z.pos (Qden z))%Z);
    lia.
Qed.

Lemma int_of_float_ceil (z : Q) (k : Z) :
  (k <= 0)%Z -> inject_Z (k - 1) < z -> z <= inject_Z k ->
  Z.quot (Qnum z) (Z.pos (Qden z)) = k.
Proof.
  intros Hk Lo Hi. unfold Qle, Qlt, inject_Z in *. simpl in *.
  assert (Qnum z <= 0)%Z by nia.
  replace (Qnum z) with (- - Qnum z)%Z by lia.
  rewrite Z.quot_opp_l by lia. rewrite Z.quot_div_nonneg by lia.
  assert ((- Qnum z) / Z.pos (Qden z) = - k)%Z; [|lia].
  symmetry. apply Z.div_unique with (r := (- Qnum z + k * Z.pos (Qden z))%Z);
    lia.
Qed.

(** The quotient of an integer below [2^53] by a positive integer,
    rounded, lies in the same unit interval as the quotient. *)
Lemma rn_quotient_pos (a : Z) (b : positive) :
  (0 < a < 2 ^ 53)%Z ->
  inject_Z (a / Z.pos b) <= Float.rn (a # b)
  /\ Float.rn (a # b) < inject_Z (a / Z.pos b + 1).
Proof.
  intros Ha.
  pose proof (Z.div_mod a (Z.pos b) ltac:(lia)) as Ediv.
  pose proof (Z.mod_pos_bound a (Z.pos b) ltac:(lia)) as Bmod.
  set (k := (a / Z.pos b)%Z) in *. set (r := (a mod Z.pos b)%Z) in *.
  assert (Hx : ~ (a # b) == 0) by (unfold Qeq; simpl; lia).
  destruct (rn_spec _ Hx) as (E1 & E2 & Lo & _). cbv zeta in *.
  set (e := (Float.ilog2 (a # b) - 52)%Z) in *.
  assert (He : (e <= 0)%Z).
  { assert (Float.ilog2 (a # b) < 53)%Z; [|unfold e; lia].
    apply ilog2_lt; [exact Hx|].
    rewrite (pow2_nonneg 53) by lia.
    unfold Qlt, inject_Z, Qabs. simpl. rewrite Z.abs_eq by lia. nia. }
  assert (Ey : (a # b) * 2 ^ (- e) == (a * 2 ^ (- e)) # b)
    by (apply scale_frac; lia).
  set (S := (2 ^ (- e))%Z) in *.
  assert (HS : (0 < S)%Z) by (apply Z.pow_pos_nonneg; lia).
  assert (Hb : (Z.pos b < 2 * S)%Z).
  { rewrite Ey in Lo. rewrite (pow2_nonneg 52) in Lo by lia.
    unfold Qle, inject_Z, Qabs in Lo. simpl in Lo.
    rewrite Z.abs_eq in Lo by nia.
    change (2 ^ 52)%Z with 4503599627370496%Z in Lo.
    change (2 ^ 53)%Z with 9007199254740992%Z in Ha. nia. }
  assert (Es : inject_Z S * 2 ^ e == 1).
  { unfold S. rewrite <- pow2_nonneg by lia. apply pow2_opp. }
  split.
  - rewrite E1.
    assert (L : (k * S <= Float.round_half_even ((a # b) * 2 ^ (- e)))%Z).
    { apply rhe_ge_int. rewrite Ey. unfold Qle, inject_Z. simpl. nia. }
    apply Qle_trans with (inject_Z (k * S) * 2 ^ e).
    + rewrite inject_Z_mult, <- Qmult_assoc, Es. rewrite Qmult_1_r.
      apply Qle_refl.
    + apply Qmult_le_compat_r; [|apply Qlt_le_weak, pow2_pos].
      rewrite <- Zle_Qle. exact L.
  - rewrite E1.
    assert (U : (Float.round_half_even ((a # b) * 2 ^ (- e))
                 <= (k + 1) * S - 1)%Z).
    { apply rhe_below_half. rewrite Ey.
      unfold Qlt, Qminus, Qplus, Qopp, inject_Z. simpl. nia. }
    apply Qle_lt_trans with (inject_Z ((k + 1) * S - 1) * 2 ^ e).
    + apply Qmult_le_compat_r; [|apply Qlt_le_weak, pow2_pos].
      rewrite <- Zle_Qle. exact U.
    + unfold Zminus. rewrite inject_Z_plus, inject_Z_mult.
      rewrite Qmult_plus_distr_l, <- Qmult_assoc, Es, Qmult_1_r.
      pose proof (pow2_pos e) as P.
      cbn [Z.opp]. change (inject_Z (-1)) with (-1 # 1). lra.
Qed.

Lemma rn_quotient_neg (a : Z) (b : positive) :
  (- 2 ^ 53 < a < 0)%Z ->
  inject_Z (Z.quot a (Z.pos b) - 1) < Float.rn (a # b)
  /\ Float.rn (a # b) <= inject_Z (Z.quot a (Z.pos b)).
Proof.
  intros Ha.
  pose proof (Z.div_mod (- a) (Z.pos b) ltac:(lia)) as Ediv.
  pose proof (Z.mod_pos_bound (- a) (Z.pos b) ltac:(lia)) as Bmod.
  assert (Ek : Z.quot a (Z.pos b) = (- ((- a) / Z.pos b))%Z).
  { replace a with (- - a)%Z at 1 by lia.
    rewrite Z.quot_opp_l by lia. now rewrite Z.quot_div_nonneg by lia. }
  rewrite Ek.
  set (k := ((- a) / Z.pos b)%Z) in *. set (r := ((- a) mod Z.pos b)%Z) in *.
  assert (Hx : ~ (a # b) == 0) by (unfold Qeq; simpl; lia).
  destruct (rn_spec _ Hx) as (E1 & E2 & Lo & _). cbv zeta in *.
  set (e := (Float.ilog2 (a # b) - 52)%Z) in *.
  assert (He : (e <= 0)%Z).
  { assert (Float.ilog2 (a # b) < 53)%Z; [|unfold e; lia].
    apply ilog2_lt; [exact Hx|].
    rewrite (pow2_nonneg 53) by lia.
    unfold Qlt, inject_Z, Qabs. simpl. rewrite Z.abs_neq by lia. nia. }
  assert (Ey : (a # b) * 2 ^ (- e) == (a * 2 ^ (- e)) # b)
    by (apply scale_frac; lia).
  set (S := (2 ^ (- e))%Z) in *.
  assert (HS : (0 < S)%Z) by (apply Z.pow_pos_nonneg; lia).
  assert (Hb : (Z.pos b < 2 * S)%Z).
  { rewrite Ey in Lo. rewrite (pow2_nonneg 52) in Lo by lia.
    unfold Qle, inject_Z, Qabs in Lo. simpl in Lo.
    rewrite Z.abs_neq in Lo by nia.
    change (2 ^ 52)%Z with 4503599627370496%Z in Lo.
    change (2 ^ 53)%Z with 9007199254740992%Z in Ha. nia. }
  assert (Es : inject_Z S * 2 ^ e == 1).
  { unfold S. rewrite <- pow2_nonneg by lia. apply pow2_opp. }
  split.
  - rewrite E1.
    assert (L : ((- k - 1) * S + 1
                 <= Float.round_half_even ((a # b) * 2 ^ (- e)))%Z).
    { apply rhe_above_half. rewrite Ey.
      unfold Qlt, Qplus, inject_Z. simpl. nia. }
    apply Qlt_le_trans with (inject_Z ((- k - 1) * S + 1) * 2 ^ e).
    + rewrite inject_Z_plus, inject_Z_mult.
      rewrite Qmult_plus_distr_l, <- Qmult_assoc, Es, Qmult_1_r.
      pose proof (pow2_pos e) as P.
      change (inject_Z 1) with 1%Q. lra.
    + apply Qmult_le_compat_r; [|apply Qlt_le_weak, pow2_pos].
      rewrite <- Zle_Qle. exact L.
  - rewrite E1.
    assert (U : (Float.round_half_even ((a # b) * 2 ^ (- e)) <= - k * S)%Z).
    { apply rhe_le_int. rewrite Ey. unfold Qle, inject_Z. simpl. nia. }
    apply Qle_trans with (inject_Z (- k * S) * 2 ^ e).
    + apply Qmult_le_compat_r; [|apply Qlt_le_weak, pow2_pos].
      rewrite <- Zle_Qle. exact U.
    + rewrite inject_Z_mult, <- Qmult_assoc, Es. rewrite Qmult_1_r.
      apply Qle_refl.
Qed.

(** One rounding as a factor [1 + d] with [|d| <= 2^-53]. *)
Lemma rn_relative (x : Q) :
  exists d, Float.rn x == x * (1 + d) /\ Qabs d <= 2 ^ (-53).
Proof.
  destruct (Qeq_dec x 0) as [Hx|Hx].
  - exists 0. split; [|discriminate].
    rewrite (rn_zero x Hx), Hx. reflexivity.
  - exists ((Float.rn x - x) / x). split; [field; exact Hx|].
    unfold Qdiv. rewrite Qabs_Qmult, Qabs_Qinv.
    assert (Hp : 0 < Qabs x).
    { destruct (Qlt_le_dec 0 (Qabs x)) as [H|H]; [exact H|].
      exfalso. apply Hx.
      pose proof (Qabs_nonneg x) as N.
      assert (E : Qabs x == 0) by (apply Qle_antisym; assumption).
      apply Qabs_Qle_condition in H. destruct H as [H1 H2].
      apply Qle_antisym; [exact H2|]. exact H1. }
    apply Qmult_le_r with (z := Qabs x); [exact Hp|].
    rewrite <- Qmult_assoc, (Qmult_comm (/ Qabs x)), Qmult_inv_r, Qmult_1_r.
    + rewrite (Qmult_comm (2 ^ (-53))). apply rn_error.
    + intros E. rewrite E in Hp. discriminate Hp.
Qed.

Lemma Qabs_mul_le (x y X Y : Q) :
  Qabs x <= X -> Qabs y <= Y -> Qabs (x * y) <= X * Y.
Proof.
  intros Hx Hy. rewrite Qabs_Qmult.
  apply Qle_trans with (Qabs x * Y).
  - rewrite !(Qmult_comm (Qabs x)).
    apply Qmult_le_compat_r; [exact Hy|apply Qabs_nonneg].
  - apply Qmult_le_compat_r; [exact Hx|].
    apply Qle_trans with (Qabs y); [apply Qabs_nonneg|exact Hy].
Qed.

(** The product of two rounded numbers, rounded: three roundings, a
    relative error of at most [2^-51]. *)
Lemma fmul_error (a b : Q) :
  Qabs (Py.fmul (Float.rn a) (Float.rn b) - a * b)
  <= Qabs (a * b) * 2 ^ (-51).
Proof.
  unfold Py.fmul.
  destruct (rn_relative a) as (d1 & E1 & B1).
  destruct (rn_relative b) as (d2 & E2 & B2).
  destruct (rn_relative (Float.rn a * Float.rn b)) as (d3 & E3 & B3).
  assert (E : Float.rn (Float.rn a * Float.rn b) - a * b
              == a * b * (d1 + d2 + d1 * d2 + d3 * (1 + d1 + d2 + d1 * d2))).
  { rewrite E3, E1, E2. ring. }
  rewrite E, Qabs_Qmult.
  rewrite !(Qmult_comm (Qabs (a * b))).
  apply Qmult_le_compat_r; [|apply Qabs_nonneg].
  change (2 ^ (-53)) with (1 # 9007199254740992) in B1, B2, B3.
  change (2 ^ (-51)) with (1 # 2251799813685248).
  pose proof (Qabs_mul_le _ _ _ _ B1 B2) as B12.
  set (t := d1 * d2) in *.
  assert (B4 : Qabs (d3 * (1 + d1 + d2 + t))
               <= (1 # 9007199254740992) * (1 + (3 # 9007199254740992))).
  { apply Qabs_mul_le; [exact B3|].
    apply Qabs_Qle_condition in B1, B2, B12.
    apply Qabs_Qle_condition. lra. }
  set (s := d3 * (1 + d1 + d2 + t)) in *.
  apply Qabs_Qle_condition in B1, B2, B12, B4.
  apply Qabs_Qle_condition. lra.
Qed.

(** A rounded quotient of integers. *)
Lemma rn_quotient (a b : Z) :
  (Z.abs a < 2 ^ 53)%Z -> (0 < b)%Z ->
  Py.int_of_float (Float.rn (inject_Z a / inject_Z b)) = Z.quot a b.
Proof.
  intros Ha Hb. destruct b as [|b|b]; try lia.
  assert (E : inject_Z a / inject_Z (Z.pos b) = a # b).
  { unfold Qdiv, Qinv, Qmult, inject_Z. simpl. now rewrite Z.mul_1_r. }
  rewrite E. unfold Py.int_of_float.
  destruct (Z.lt_trichotomy a 0) as [Hn|[->|Hp]].
  - destruct (rn_quotient_neg a b ltac:(lia)) as [L U].
    apply int_of_float_ceil; [|exact L|exact U].
    apply Z.quot_le_upper_bound; lia.
  - reflexivity.
  - destruct (rn_quotient_pos a b ltac:(lia)) as [L U].
    rewrite (Z.quot_div_nonneg a (Z.pos b)) by lia.
    apply int_of_float_floor; [|exact L|exact U].
    apply Z.div_pos; lia.
Qed.

End Rounding.
(** ** Dictionaries *)

Lemma dict_get_set_eq {V} (d : Py.dict V) (k : string) (v : V) :
  Py.dict_get (Py.dict_set d k v) k = Some v.
Proof.
  induction d as [|[k' v'] d IH]; simpl.
  - now rewrite String.eqb_refl.
  - destruct (String.eqb k' k) eqn:E; simpl; rewrite E; auto.
Qed.

Lemma dict_get_set_neq {V} (d : Py.dict V) (k k' : string) (v : V) :
  k <> k' -> Py.dict_get (Py.dict_set d k v) k' = Py.dict_get d k'.
Proof.
  intros Hne. induction d as [|[k0 v0] d IH]; simpl.
  - destruct (String.eqb_spec k k'); congruence.
  - destruct (String.eqb_spec k0 k) as [->|Hk]; simpl.
    + destruct (String.eqb_spec k k'); congruence.
    + destruct (String.eqb_spec k0 k'); auto.
Qed.

Lemma get_default_incr (d : Py.dict Z) (k k' : string) :
  Py.get_default (Py.incr d k) k' 0
  = Py.get_default d k' 0 + (if String.eqb k k' then 1 else 0).
Proof.
  unfold Py.incr, Py.get_default at 1.
  destruct (String.eqb_spec k k') as [->|Hne].
  - rewrite dict_get_set_eq. reflexivity.
  - rewrite dict_get_set_neq by assumption.
    unfold Py.get_default. destruct (Py.dict_get d k'); lia.
Qed.

(** ** The counters of a player are nested *)

Lemma monthly_step_keeps_nesting (acc : Monthly.Acc) (row : Row) :
  Inv.monthly_nested acc -> Inv.monthly_nested (Monthly.step acc row).
Proof.
  intros H pid. specialize (H pid). unfold Monthly.step; simpl.
  destruct (Z.eqb_spec (position row) 0) as [E|E];
    destruct (Z.leb_spec (position row) 2);
    destruct (Z.leb_spec (position row) 9);
    rewrite ?get_default_incr;
    destruct (String.eqb (playfab_id row) pid); lia.
Qed.

Lemma weekly_step_keeps_nesting (acc : Weekly.Acc) (row : Row) :
  Inv.weekly_nested acc -> Inv.weekly_nested (Weekly.step acc row).
Proof.
  intros H pid. specialize (H pid). unfold Weekly.step; simpl.
  destruct (Z.eqb_spec (position row) 0) as [E|E];
    destruct (Z.leb_spec (position row) 2);
    rewrite ?get_default_incr;
    destruct (String.eqb (playfab_id row) pid); lia.
Qed.

Lemma monthly_fold_keeps_nesting (rows : list Row) (acc : Monthly.Acc) :
  Inv.monthly_nested acc -> Inv.monthly_nested (fold_left Monthly.step rows acc).
Proof.
  revert acc. induction rows as [|r rows IH]; simpl; intros acc H.
  - exact H.
  - apply IH, monthly_step_keeps_nesting, H.
Qed.

Lemma weekly_fold_keeps_nesting (rows : list Row) (acc : Weekly.Acc) :
  Inv.weekly_nested acc -> Inv.weekly_nested (fold_left Weekly.step rows acc).
Proof.
  revert acc. induction rows as [|r rows IH]; simpl; intros acc H.
  - exact H.
  - apply IH, weekly_step_keeps_nesting, H.
Qed.

(** C10.  After the aggregation loop over any sequence of rows, every
    player's counters (a player without an entry counting as 0) satisfy
    first_place_count <= podium_count <= top_10_count <= days_played in
    the monthly script and first_place_count <= podium_count <=
    days_played in the weekly script. *)
Theorem counters_nested (rows : list Row) (pid : string) :
  (let acc := Monthly.accumulate rows in
   Py.get_default (Monthly.first_place_counts acc) pid 0
     <= Py.get_default (Monthly.podium_counts acc) pid 0
   /\ Py.get_default (Monthly.podium_counts acc) pid 0
     <= Py.get_default (Monthly.top_10_counts acc) pid 0
   /\ Py.get_default (Monthly.top_10_counts acc) pid 0
     <= Py.get_default (Monthly.participation_counts acc) pid 0)
  /\
  (let acc := Weekly.accumulate rows in
   Py.get_default (Weekly.first_place_counts acc) pid 0
     <= Py.get_default (Weekly.podium_counts acc) pid 0
   /\ Py.get_default (Weekly.podium_counts acc) pid 0
     <= Py.get_default (Weekly.participation_counts acc) pid 0).
Proof.
  split; cbv zeta.
  - assert (H : Inv.monthly_nested (Monthly.accumulate rows)).
    { apply monthly_fold_keeps_nesting. intros p. cbn. lia. }
    specialize (H pid). lia.
  - assert (H : Inv.weekly_nested (Weekly.accumulate rows)).
    { apply weekly_fold_keeps_nesting. intros p. cbn. lia. }
    specialize (H pid). lia.
Qed.

(** ** First occurrences *)

Lemma in_first_occurrences (l : list string) (x : string) :
  In x (Spec.first_occurrences l) <-> In x l.
Proof.
  induction l as [|a l IH]; simpl; [tauto|].
  rewrite filter_In, IH.
  destruct (String.eqb_spec a x) as [->|Hne]; simpl; intuition congruence.
Qed.

Lemma NoDup_first_occurrences (l : list string) :
  NoDup (Spec.first_occurrences l).
Proof.
  induction l as [|a l IH]; simpl; constructor.
  - rewrite filter_In, String.eqb_refl. simpl. intros [_ H]; discriminate.
  - now apply NoDup_filter.
Qed.

Lemma existsb_eqb_In (x : string) (l : list string) :
  existsb (String.eqb x) l = true <-> In x l.
Proof.
  rewrite existsb_exists. split.
  - intros [y [Hy E]]. apply String.eqb_eq in E. now subst.
  - intros H. exists x. split; [assumption|apply String.eqb_refl].
Qed.

Lemma existsb_eqb_notIn (x : string) (l : list string) :
  existsb (String.eqb x) l = false <-> ~ In x l.
Proof.
  rewrite <- existsb_eqb_In. destruct (existsb (String.eqb x) l); intuition congruence.
Qed.

Lemma first_occurrences_snoc (l : list string) (x : string) :
  Spec.first_occurrences (l ++ [x])
  = if existsb (String.eqb x) l then Spec.first_occurrences l
    else Spec.first_occurrences l ++ [x].
Proof.
  induction l as [|a l IH]; simpl; [reflexivity|].
  rewrite IH. destruct (existsb (String.eqb x) l) eqn:E.
  - now rewrite orb_true_r.
  - rewrite orb_false_r, filter_app. simpl.
    rewrite (String.eqb_sym x a).
    destruct (String.eqb a x); simpl; [now rewrite app_nil_r|reflexivity].
Qed.

(** ** Dictionaries built from a list of keys *)

Section KeyedDict.
Context {V : Type}.
Implicit Types (f : string -> V) (ks : list string).

Lemma dict_get_tabulate f ks k :
  Py.dict_get (Table.tabulate f ks) k
  = if existsb (String.eqb k) ks then Some (f k) else None.
Proof.
  induction ks as [|a ks IH]; simpl; [reflexivity|].
  rewrite (String.eqb_sym k a).
  destruct (String.eqb_spec a k) as [->|Hne]; simpl; auto.
Qed.

Lemma dict_set_tabulate_in f ks k v :
  NoDup ks -> In k ks ->
  Py.dict_set (Table.tabulate f ks) k v
  = Table.tabulate (fun k' => if String.eqb k' k then v else f k') ks.
Proof.
  induction 1 as [|a ks Hna Hnd IH]; simpl; [tauto|].
  intros [->|Hin].
  - rewrite String.eqb_refl. f_equal.
    apply map_ext_in. intros b Hb.
    destruct (String.eqb_spec b k); congruence.
  - destruct (String.eqb_spec a k) as [->|Hne]; [tauto|].
    f_equal. now apply IH.
Qed.

Lemma dict_set_tabulate_new f ks k v :
  ~ In k ks ->
  Py.dict_set (Table.tabulate f ks) k v = Table.tabulate f ks ++ [(k, v)].
Proof.
  induction ks as [|a ks IH]; simpl; [reflexivity|].
  intros Hn. destruct (String.eqb_spec a k) as [->|Hne]; [tauto|].
  f_equal. apply IH. tauto.
Qed.
End KeyedDict.

(** ** Grouping the rows by a key

    The loops update a dictionary entry from its former value and the
    current row.  When the update computes a summary [S] of the rows seen
    so far for the key, the dictionary in the end maps each key, in the
    order of first occurrence, to the summary of its rows. *)

Section Grouping.
Context {R V : Type}.
Variable kf : R -> string.
Variable upd : option V -> R -> V.
Variable S : list R -> V.
Hypothesis S_one : forall r, S [r] = upd None r.
Hypothesis S_snoc :
  forall l r, l <> [] -> S (l ++ [r]) = upd (Some (S l)) r.

Lemma group_of_nonempty k rows : In k (map kf rows) -> Table.group_of kf k rows <> [].
Proof.
  intros Hin. apply in_map_iff in Hin. destruct Hin as [r [<- Hr]].
  intros E. assert (Hin : In r (Table.group_of kf (kf r) rows)).
  { apply filter_In. split; [assumption|apply String.eqb_refl]. }
  rewrite E in Hin. contradiction.
Qed.

Lemma group_of_empty k rows : ~ In k (map kf rows) -> Table.group_of kf k rows = [].
Proof.
  intros Hn. unfold Table.group_of.
  induction rows as [|r rows IH]; simpl in *; [reflexivity|].
  destruct (String.eqb_spec (kf r) k) as [E|E]; [tauto|].
  apply IH. tauto.
Qed.

Lemma fold_grouped (rows : list R) :
  fold_left (fun d r => Py.dict_set d (kf r) (upd (Py.dict_get d (kf r)) r))
    rows []
  = Table.grouped kf S rows.
Proof.
  induction rows as [|r rows IH] using rev_ind; [reflexivity|].
  rewrite fold_left_app. simpl. rewrite IH. clear IH.
  unfold Table.grouped. rewrite map_app. simpl.
  rewrite first_occurrences_snoc, dict_get_tabulate.
  destruct (existsb (String.eqb (kf r)) (Spec.first_occurrences (map kf rows)))
    eqn:E.
  - assert (Hin : In (kf r) (map kf rows)).
    { apply in_first_occurrences, existsb_eqb_In, E. }
    assert (E' : existsb (String.eqb (kf r)) (map kf rows) = true)
      by now apply existsb_eqb_In.
    rewrite E'.
    rewrite dict_set_tabulate_in;
      [|apply NoDup_first_occurrences|now apply in_first_occurrences].
    apply map_ext. intros k. f_equal.
    unfold Table.group_of. rewrite filter_app. simpl.
    destruct (String.eqb_spec k (kf r)) as [->|Hne].
    + rewrite String.eqb_refl. symmetry. apply S_snoc.
      now apply group_of_nonempty.
    + destruct (String.eqb_spec (kf r) k); [congruence|].
      now rewrite app_nil_r.
  - assert (Hn : ~ In (kf r) (map kf rows)).
    { rewrite <- in_first_occurrences. now apply existsb_eqb_notIn. }
    assert (E' : existsb (String.eqb (kf r)) (map kf rows) = false)
      by now apply existsb_eqb_notIn.
    rewrite E'.
    rewrite dict_set_tabulate_new
      by (rewrite in_first_occurrences; exact Hn).
    unfold Table.tabulate. rewrite map_app. simpl. f_equal.
    + apply map_ext_in. intros k Hk. f_equal.
      unfold Table.group_of. rewrite filter_app. simpl.
      destruct (String.eqb_spec (kf r) k) as [<-|Hne].
      * exfalso. apply Hn, in_first_occurrences, Hk.
      * now rewrite app_nil_r.
    + do 2 f_equal. unfold Table.group_of. rewrite filter_app. simpl.
      rewrite String.eqb_refl.
      fold (Table.group_of kf (kf r) rows). rewrite group_of_empty by assumption.
      simpl. symmetry. apply S_one.
Qed.
End Grouping.

Lemma fold_left_filter {A B} (f : A -> B -> A) (p : B -> bool)
  (l : list B) (a : A) :
  fold_left (fun a b => if p b then f a b else a) l a
  = fold_left f (filter p l) a.
Proof.
  revert a. induction l as [|b l IH]; simpl; intros a; [reflexivity|].
  destruct (p b); simpl; apply IH.
Qed.

(** ** What the loops accumulate *)

Lemma len_app {A} (l l' : list A) : Py.len (l ++ l') = Py.len l + Py.len l'.
Proof. unfold Py.len. rewrite length_app. lia. Qed.

Lemma counter_fold (p : Row -> bool) (rows : list Row) :
  fold_left (fun d r => if p r then Py.incr d (playfab_id r) else d) rows []
  = Spec.tally p rows.
Proof.
  rewrite (fold_left_filter (fun d r => Py.incr d (playfab_id r))).
  exact (fold_grouped playfab_id
           (fun o _ => match o with Some v => v | None => 0 end + 1)
           (fun l => Py.len l)
           (fun r => eq_refl)
           (fun l r _ => len_app l [r])
           (filter p rows)).
Qed.

Lemma participation_fold (rows : list Row) :
  fold_left (fun d r => Py.incr d (playfab_id r)) rows []
  = Table.tabulate (fun pid => Spec.days_played pid rows) (Spec.players rows).
Proof.
  exact (fold_grouped playfab_id
           (fun o _ => match o with Some v => v | None => 0 end + 1)
           (fun l => Py.len l)
           (fun r => eq_refl)
           (fun l r _ => len_app l [r])
           rows).
Qed.

Lemma scores_fold (rows : list Row) :
  fold_left (fun d r => Py.append_to d (playfab_id r) (score r)) rows []
  = Table.tabulate (fun pid => Spec.scores_of pid rows) (Spec.players rows).
Proof.
  exact (fold_grouped playfab_id
           (fun o r => match o with Some v => v | None => [] end ++ [score r])
           (fun l => map score l)
           (fun r => eq_refl)
           (fun l r _ => map_app score l [r])
           rows).
Qed.

(** The fields of the accumulator evolve independently of each other. *)

Lemma monthly_fold_fields (rows : list Row) (acc : Monthly.Acc) :
  let acc' := fold_left Monthly.step rows acc in
  Monthly.first_place_counts acc'
  = fold_left (fun d r => if Spec.is_first r then Py.incr d (playfab_id r) else d)
      rows (Monthly.first_place_counts acc)
  /\ Monthly.podium_counts acc'
  = fold_left (fun d r => if Spec.is_podium r then Py.incr d (playfab_id r) else d)
      rows (Monthly.podium_counts acc)
  /\ Monthly.top_10_counts acc'
  = fold_left (fun d r => if Spec.is_top10 r then Py.incr d (playfab_id r) else d)
      rows (Monthly.top_10_counts acc)
  /\ Monthly.participation_counts acc'
  = fold_left (fun d r => Py.incr d (playfab_id r))
      rows (Monthly.participation_counts acc)
  /\ Monthly.total_scores acc'
  = fold_left (fun d r => Py.append_to d (playfab_id r) (score r))
      rows (Monthly.total_scores acc).
Proof.
  revert acc. induction rows as [|r rows IH]; intros acc; simpl.
  - repeat split.
  - apply IH.
Qed.

Lemma weekly_fold_fields (rows : list Row) (acc : Weekly.Acc) :
  let acc' := fold_left Weekly.step rows acc in
  Weekly.first_place_counts acc'
  = fold_left (fun d r => if Spec.is_first r then Py.incr d (playfab_id r) else d)
      rows (Weekly.first_place_counts acc)
  /\ Weekly.podium_counts acc'
  = fold_left (fun d r => if Spec.is_podium r then Py.incr d (playfab_id r) else d)
      rows (Weekly.podium_counts acc)
  /\ Weekly.participation_counts acc'
  = fold_left (fun d r => Py.incr d (playfab_id r))
      rows (Weekly.participation_counts acc)
  /\ Weekly.total_scores acc'
  = fold_left (fun d r => Py.append_to d (playfab_id r) (score r))
      rows (Weekly.total_scores acc).
Proof.
  revert acc. induction rows as [|r rows IH]; intros acc; simpl.
  - repeat split.
  - apply IH.
Qed.

Lemma monthly_accumulate_eq (rows : list Row) :
  let acc := Monthly.accumulate rows in
  Monthly.first_place_counts acc = Spec.tally Spec.is_first rows
  /\ Monthly.podium_counts acc = Spec.tally Spec.is_podium rows
  /\ Monthly.top_10_counts acc = Spec.tally Spec.is_top10 rows
  /\ Monthly.participation_counts acc
     = Table.tabulate (fun pid => Spec.days_played pid rows) (Spec.players rows)
  /\ Monthly.total_scores acc
     = Table.tabulate (fun pid => Spec.scores_of pid rows) (Spec.players rows).
Proof.
  cbv zeta. unfold Monthly.accumulate.
  destruct (monthly_fold_fields rows Monthly.empty_acc)
    as (H1 & H2 & H3 & H4 & H5).
  rewrite H1, H2, H3, H4, H5. simpl.
  rewrite !counter_fold, participation_fold, scores_fold. repeat split.
Qed.

Lemma weekly_accumulate_eq (rows : list Row) :
  let acc := Weekly.accumulate rows in
  Weekly.first_place_counts acc = Spec.tally Spec.is_first rows
  /\ Weekly.podium_counts acc = Spec.tally Spec.is_podium rows
  /\ Weekly.participation_counts acc
     = Table.tabulate (fun pid => Spec.days_played pid rows) (Spec.players rows)
  /\ Weekly.total_scores acc
     = Table.tabulate (fun pid => Spec.scores_of pid rows) (Spec.players rows).
Proof.
  cbv zeta. unfold Weekly.accumulate.
  destruct (weekly_fold_fields rows Weekly.empty_acc)
    as (H1 & H2 & H3 & H4).
  rewrite H1, H2, H3, H4. simpl.
  rewrite !counter_fold, participation_fold, scores_fold. repeat split.
Qed.

(** ** The monthly report in closed form *)

Lemma mapM_ok {A B} (f : A -> Py.result B) (g : A -> B) (l : list A) :
  (forall x, In x l -> f x = Py.Ok (g x)) -> Py.mapM f l = Py.Ok (map g l).
Proof.
  induction l as [|x l IH]; simpl; intros H; [reflexivity|].
  rewrite (H x) by now left. simpl.
  rewrite IH by (intros y Hy; apply H; now right). reflexivity.
Qed.

Lemma truediv_ok (a b : Z) :
  b <> 0 ->
  Py.truediv a b = Py.Ok (Float.rn (Qdiv (inject_Z a) (inject_Z b))).
Proof.
  intros Hb. unfold Py.truediv.
  destruct (Z.eqb_spec b 0); [contradiction|reflexivity].
Qed.

Lemma max_ok (l : list Z) : l <> [] -> Py.max l = Py.Ok (Spec.list_max l).
Proof. destruct l; [contradiction|reflexivity]. Qed.

Lemma min_ok (l : list Z) : l <> [] -> Py.min l = Py.Ok (Spec.list_min l).
Proof. destruct l; [contradiction|reflexivity]. Qed.

Lemma len_nonzero {A} (l : list A) : l <> [] -> Py.len l <> 0.
Proof. destruct l; [contradiction|]. unfold Py.len. simpl. lia. Qed.

Lemma mean_ok (l : list Z) :
  l <> [] ->
  Py.truediv (Py.sum l) (Py.len l) = Py.Ok (Float.rn (Spec.mean l)).
Proof. intros H. apply truediv_ok, len_nonzero, H. Qed.

Lemma percentage_ok (count total_days : Z) :
  Monthly.percentage count total_days
  = Py.Ok (MonthlySpec.percentage count total_days).
Proof.
  unfold Monthly.percentage, MonthlySpec.percentage.
  destruct (Z.gtb_spec total_days 0); [|reflexivity].
  rewrite truediv_ok by lia. reflexivity.
Qed.

Lemma champion_entry_ok names total_days item :
  Monthly.champion_entry names total_days item
  = Py.Ok (MonthlySpec.champion_of names total_days item).
Proof. unfold Monthly.champion_entry. now rewrite percentage_ok. Qed.

Lemma podium_entry_ok names total_days item :
  Monthly.podium_entry names total_days item
  = Py.Ok (MonthlySpec.podium_of names total_days item).
Proof. unfold Monthly.podium_entry. now rewrite percentage_ok. Qed.

Lemma insert_desc_nonempty {A K} (key : A -> K) (lt : K -> K -> bool)
  (x : A) (l : list A) : Py.insert_desc key lt x l <> [].
Proof. destruct l; simpl; [|destruct (lt _ _)]; discriminate. Qed.

Lemma sorted_desc_nil_iff {A K} (key : A -> K) (lt : K -> K -> bool)
  (l : list A) : Py.sorted_desc key lt l = [] <-> l = [].
Proof.
  destruct l; simpl; [tauto|]. split; [|discriminate].
  intros H. now apply insert_desc_nonempty in H.
Qed.

Lemma rows_of_nonempty (pid : string) (rows : list Row) :
  In pid (Spec.players rows) -> Spec.rows_of pid rows <> [].
Proof.
  intros H. apply (group_of_nonempty playfab_id).
  now apply in_first_occurrences.
Qed.

Lemma scores_of_nonempty (pid : string) (rows : list Row) :
  In pid (Spec.players rows) -> Spec.scores_of pid rows <> [].
Proof.
  intros H E. apply (rows_of_nonempty pid rows H).
  unfold Spec.scores_of in E. now apply map_eq_nil in E.
Qed.

Lemma players_nil_iff (rows : list Row) : Spec.players rows = [] <-> rows = [].
Proof. unfold Spec.players. destruct rows; simpl; split; congruence. Qed.

Lemma values_tabulate {V} (f : string -> V) (ks : list string) :
  Py.values (Table.tabulate f ks) = map f ks.
Proof.
  unfold Py.values, Table.tabulate. rewrite map_map. reflexivity.
Qed.

Lemma len_tabulate {V} (f : string -> V) (ks : list string) :
  Py.len (Table.tabulate f ks) = Py.len ks.
Proof. unfold Py.len, Table.tabulate. now rewrite length_map. Qed.

Lemma get_default_tabulate {V} (f : string -> V) (ks : list string)
  (k : string) (d : V) :
  In k ks -> Py.get_default (Table.tabulate f ks) k d = f k.
Proof.
  intros H. unfold Py.get_default. rewrite dict_get_tabulate.
  apply existsb_eqb_In in H. now rewrite H.
Qed.

Lemma dict_mem_tabulate {V} (f : string -> V) (ks : list string) (k : string) :
  In k ks -> Py.dict_mem (Table.tabulate f ks) k = true.
Proof.
  intros H. unfold Py.dict_mem. rewrite dict_get_tabulate.
  apply existsb_eqb_In in H. now rewrite H.
Qed.

Lemma concat_option_filter {A B} (p : A -> bool) (g : A -> B) (l : list A) :
  List.concat
    (map (fun x => match (if p x then Some (g x) else None) with
                   | Some e => [e]
                   | None => []
                   end) l)
  = map g (filter p l).
Proof.
  induction l as [|x l IH]; simpl; [reflexivity|].
  destruct (p x); simpl; now rewrite IH.
Qed.

Lemma monthly_consistent_entries_ok names (rows : list Row) :
  Monthly.consistent_entries names
    (Table.tabulate (fun pid => Spec.scores_of pid rows) (Spec.players rows))
    (Table.tabulate (fun pid => Spec.days_played pid rows) (Spec.players rows))
  = Py.Ok (MonthlySpec.consistent names rows).
Proof.
  unfold Monthly.consistent_entries, Py.items, Table.tabulate at 2.
  rewrite (mapM_ok _
             (fun item =>
                if Spec.days_played (fst item) rows >=? 5
                then Some (MonthlySpec.consistent_of names rows (fst item))
                else None)).
  - cbn [Py.bind]. rewrite !map_map. cbn [fst]. f_equal.
    exact (concat_option_filter
             (fun pid => Spec.days_played pid rows >=? 5)
             (MonthlySpec.consistent_of names rows) (Spec.players rows)).
  - intros item Hin. apply in_map_iff in Hin. destruct Hin as [pid [<- Hin]].
    unfold Monthly.consistent_entry. simpl.
    rewrite dict_mem_tabulate, get_default_tabulate by assumption.
    rewrite andb_true_r.
    destruct (Spec.days_played pid rows >=? 5); [|reflexivity].
    pose proof (scores_of_nonempty pid rows Hin) as Hne.
    rewrite mean_ok, max_ok, min_ok by assumption. reflexivity.
Qed.

Lemma is_empty_tabulate {V} (f : string -> V) (ks : list string) :
  Monthly.is_empty (Table.tabulate f ks) = Monthly.is_empty ks.
Proof. destruct ks; reflexivity. Qed.

Lemma concat_scores_nonempty (rows : list Row) :
  rows <> [] ->
  List.concat (map (fun pid => Spec.scores_of pid rows) (Spec.players rows))
  <> [].
Proof.
  intros Hne. destruct (Spec.players rows) as [|pid ps] eqn:E.
  - apply players_nil_iff in E. contradiction.
  - simpl. intros H. apply app_eq_nil in H. destruct H as [H _].
    apply (scores_of_nonempty pid rows); [|exact H].
    rewrite E. now left.
Qed.

Lemma monthly_build_report_ok (scores : list Row)
  (players : list (string * string)) (total_days : Z)
  (start_date end_date : string) :
  Monthly.build_report scores players total_days start_date end_date
  = Py.Ok (MonthlySpec.report scores players total_days start_date end_date).
Proof.
  unfold Monthly.build_report. cbv zeta.
  destruct (monthly_accumulate_eq scores) as (H1 & H2 & H3 & H4 & H5).
  cbv zeta in H1, H2, H3, H4, H5. rewrite H1, H2, H3, H4, H5.
  rewrite truediv_ok by lia. cbn [Py.bind].
  unfold Monthly.by_count_desc, Py.items, Py.take.
  (* champions *)
  set (champions :=
         Py.sorted_desc (@snd string Z) Z.ltb (Spec.tally Spec.is_first scores)).
  assert (Hch :
    (if Monthly.is_empty (Spec.tally Spec.is_first scores)
     then Py.Ok (None, [])
     else
       match champions with
       | [] => Py.Raise Py.IndexError
       | first :: _ =>
           c <- Monthly.champion_entry (build_player_names players) total_days
                  first ;;
           l <- Py.mapM
                  (Monthly.champion_entry (build_player_names players)
                     total_days) (firstn 10 champions) ;;
           Py.Ok (Some c, l)
       end)
    = Py.Ok
        (match champions with
         | [] => None
         | first :: _ =>
             Some (MonthlySpec.champion_of (build_player_names players)
                     total_days first)
         end,
         map (MonthlySpec.champion_of (build_player_names players) total_days)
           (firstn 10 champions))).
  { destruct (Spec.tally Spec.is_first scores) as [|it its] eqn:E.
    - subst champions. simpl. reflexivity.
    - assert (Hne : champions <> []).
      { subst champions. rewrite sorted_desc_nil_iff. discriminate. }
      simpl. destruct champions as [|first rest]; [contradiction|].
      rewrite champion_entry_ok. cbn [Py.bind].
      rewrite (mapM_ok _ (MonthlySpec.champion_of (build_player_names players)
                            total_days))
        by (intros; apply champion_entry_ok).
      reflexivity. }
  rewrite Hch. clear Hch. cbn [Py.bind fst snd].
  (* podium *)
  assert (Hpo :
    (if Monthly.is_empty (Spec.tally Spec.is_podium scores) then Py.Ok []
     else Py.mapM
            (Monthly.podium_entry (build_player_names players) total_days)
            (firstn 10
               (Py.sorted_desc (@snd string Z) Z.ltb
                  (Spec.tally Spec.is_podium scores))))
    = Py.Ok
        (map (MonthlySpec.podium_of (build_player_names players) total_days)
           (firstn 10
              (Py.sorted_desc (@snd string Z) Z.ltb
                 (Spec.tally Spec.is_podium scores))))).
  { destruct (Spec.tally Spec.is_podium scores) as [|it its] eqn:E.
    - reflexivity.
    - cbn [Monthly.is_empty].
      apply mapM_ok. intros; apply podium_entry_ok. }
  rewrite Hpo. clear Hpo. cbn [Py.bind].
  (* most consistent *)
  rewrite is_empty_tabulate, monthly_consistent_entries_ok. cbn [Py.bind].
  assert (Hco :
    (if Monthly.is_empty (Spec.players scores) then Py.Ok []
     else Py.Ok (firstn 15 (Monthly.sort_consistent
                              (MonthlySpec.consistent
                                 (build_player_names players) scores))))
    = Py.Ok (firstn 15 (Monthly.sort_consistent
                          (MonthlySpec.consistent
                             (build_player_names players) scores)))).
  { unfold MonthlySpec.consistent, MonthlySpec.eligible.
    destruct (Spec.players scores); reflexivity. }
  rewrite Hco. clear Hco. cbn [Py.bind].
  (* score statistics *)
  rewrite is_empty_tabulate, values_tabulate.
  assert (Hss :
    (if Monthly.is_empty (Spec.players scores) then Py.Ok None
     else
       let all_scores :=
         List.concat (map (fun pid => Spec.scores_of pid scores)
                        (Spec.players scores)) in
       a <- Py.truediv (Py.sum all_scores) (Py.len all_scores) ;;
       hi <- Py.max all_scores ;;
       lo <- Py.min all_scores ;;
       Py.Ok (Some {| Monthly.total_scores_recorded := Py.len all_scores;
                      Monthly.ss_average_score := Py.int_of_float a;
                      Monthly.highest_score := hi;
                      Monthly.lowest_score := lo |}))
    = Py.Ok (MonthlySpec.score_stats scores)).
  { destruct scores as [|r rows]; [reflexivity|].
    assert (Hne : r :: rows <> []) by discriminate.
    apply concat_scores_nonempty in Hne.
    change (Monthly.is_empty (Spec.players (r :: rows))) with false.
    cbv zeta. rewrite mean_ok, max_ok, min_ok by assumption. reflexivity. }
  cbv zeta in Hss. rewrite Hss. clear Hss. cbn [Py.bind].
  unfold MonthlySpec.report. cbv zeta. fold champions.
  rewrite len_tabulate.
  destruct (Spec.tally Spec.is_top10 scores) eqn:E; reflexivity.
Qed.

(** ** The weekly report in closed form *)

Lemma weekly_consistent_entries_ok names (rows : list Row) :
  Weekly.consistent_entries names
    (Table.tabulate (fun pid => Spec.scores_of pid rows) (Spec.players rows))
    (Table.tabulate (fun pid => Spec.days_played pid rows) (Spec.players rows))
  = Py.Ok (WeeklySpec.consistent names rows).
Proof.
  unfold Weekly.consistent_entries, Py.items, Table.tabulate at 2.
  rewrite (mapM_ok _
             (fun item =>
                if Spec.days_played (fst item) rows >=? 3
                then Some (WeeklySpec.consistent_of names rows (fst item))
                else None)).
  - cbn [Py.bind]. rewrite !map_map. cbn [fst]. f_equal.
    exact (concat_option_filter
             (fun pid => Spec.days_played pid rows >=? 3)
             (WeeklySpec.consistent_of names rows) (Spec.players rows)).
  - intros item Hin. apply in_map_iff in Hin. destruct Hin as [pid [<- Hin]].
    unfold Weekly.consistent_entry. simpl.
    rewrite dict_mem_tabulate, get_default_tabulate by assumption.
    rewrite andb_true_r.
    destruct (Spec.days_played pid rows >=? 3); [|reflexivity].
    rewrite mean_ok by now apply scores_of_nonempty. reflexivity.
Qed.

Lemma weekly_build_report_ok (scores : list Row)
  (players : list (string * string)) (start_date end_date : string) :
  Weekly.build_report scores players start_date end_date
  = Py.Ok (WeeklySpec.report scores players start_date end_date).
Proof.
  unfold Weekly.build_report. cbv zeta.
  destruct (weekly_accumulate_eq scores) as (H1 & H2 & H3 & H4).
  cbv zeta in H1, H2, H3, H4. rewrite H1, H2, H3, H4.
  unfold Weekly.by_count_desc, Py.items, Py.take.
  rewrite weekly_consistent_entries_ok. cbn [Py.bind].
  unfold WeeklySpec.report. cbv zeta.
  rewrite len_tabulate.
  set (firsts :=
         Py.sorted_desc (@snd string Z) Z.ltb (Spec.tally Spec.is_first scores)).
  assert (Hf : Spec.tally Spec.is_first scores = [] -> firsts = []).
  { intros E. subst firsts. now rewrite E. }
  assert (Hf' : Spec.tally Spec.is_first scores <> [] -> firsts <> []).
  { intros E. subst firsts. now rewrite sorted_desc_nil_iff. }
  assert (Hco :
    (if Weekly.is_empty
          (Table.tabulate (fun pid => Spec.days_played pid scores)
             (Spec.players scores))
     then Py.Ok []
     else Py.Ok (firstn 10 (Weekly.sort_consistent
                              (WeeklySpec.consistent
                                 (build_player_names players) scores))))
    = Py.Ok (firstn 10 (Weekly.sort_consistent
                          (WeeklySpec.consistent
                             (build_player_names players) scores)))).
  { unfold WeeklySpec.consistent, WeeklySpec.eligible.
    destruct (Spec.players scores); reflexivity. }
  destruct (Spec.tally Spec.is_first scores) as [|it its] eqn:E.
  - rewrite Hf by reflexivity. cbn [Weekly.is_empty Py.bind fst snd].
    rewrite Hco. cbn [Py.bind].
    destruct (Spec.tally Spec.is_podium scores); reflexivity.
  - assert (Hne : firsts <> []) by (apply Hf'; discriminate).
    destruct firsts as [|first rest]; [contradiction|].
    cbn [Weekly.is_empty Py.bind fst snd].
    rewrite Hco. cbn [Py.bind].
    destruct (Spec.tally Spec.is_podium scores); reflexivity.
Qed.

(** ** Sorting *)

Section SortFacts.
Context {A K : Type}.
Variable key : A -> K.
Variable lt : K -> K -> bool.

Lemma insert_desc_perm (x : A) (l : list A) :
  Permutation (x :: l) (Py.insert_desc key lt x l).
Proof.
  induction l as [|y l IH]; simpl; [reflexivity|].
  destruct (lt (key x) (key y)); [|reflexivity].
  rewrite perm_swap. now constructor.
Qed.

Lemma sorted_desc_perm (l : list A) :
  Permutation l (Py.sorted_desc key lt l).
Proof.
  induction l as [|x l IH]; simpl; [constructor|].
  rewrite <- insert_desc_perm. now constructor.
Qed.

Lemma filter_insert_desc (q : A -> bool) (x : A) (l : list A) :
  (forall y, In y l -> lt (key x) (key y) = true -> q x = true ->
             q y = false) ->
  filter q (Py.insert_desc key lt x l) = filter q (x :: l).
Proof.
  induction l as [|y l IH]; intros H; [reflexivity|].
  simpl. destruct (lt (key x) (key y)) eqn:E; [|reflexivity].
  simpl. rewrite IH by (intros z Hz; apply H; now right).
  simpl. destruct (q x) eqn:Qx; [|reflexivity].
  rewrite (H y) by (auto; now left). reflexivity.
Qed.

Hypothesis lt_asym : forall a b, lt a b = true -> lt b a = false.
Hypothesis ge_trans :
  forall a b c, lt a b = false -> lt b c = false -> lt a c = false.

Lemma insert_desc_descending (x : A) (l : list A) :
  Spec.descending key lt l ->
  Spec.descending key lt (Py.insert_desc key lt x l).
Proof.
  unfold Spec.descending.
  induction 1 as [|y l Hs IH Hy]; simpl.
  - repeat constructor.
  - destruct (lt (key x) (key y)) eqn:E.
    + constructor; [assumption|].
      apply (Permutation_Forall (insert_desc_perm x l)).
      constructor; [now apply lt_asym|assumption].
    + constructor; [now constructor|].
      constructor; [assumption|].
      eapply Forall_impl; [|exact Hy].
      intros z Hz. now apply (ge_trans _ (key y)).
Qed.

Lemma sorted_desc_descending (l : list A) :
  Spec.descending key lt (Py.sorted_desc key lt l).
Proof.
  induction l as [|x l IH]; simpl.
  - constructor.
  - now apply insert_desc_descending.
Qed.
End SortFacts.

Lemma sorted_desc_keeps_order {A} (key : A -> Z) (l : list A) :
  Spec.keeps_order_of_equals key l (Py.sorted_desc key Z.ltb l).
Proof.
  intros c. induction l as [|x l IH]; [reflexivity|].
  simpl Py.sorted_desc. rewrite filter_insert_desc.
  - simpl. now rewrite IH.
  - intros y _ Hlt Hx. apply Z.ltb_lt in Hlt. apply Z.eqb_eq in Hx.
    apply Z.eqb_neq. lia.
Qed.

(** [sorted(l, key=key, reverse=True)] on integer keys is the stable
    descending sort of [l]. *)
Lemma sorted_desc_stable_sort {A} (key : A -> Z) (l : list A) :
  Spec.stable_sort_desc key l (Py.sorted_desc key Z.ltb l).
Proof.
  split; [apply sorted_desc_perm|].
  split; [|apply sorted_desc_keeps_order].
  apply sorted_desc_descending.
  - intros a b H. apply Z.ltb_lt in H. apply Z.ltb_ge. lia.
  - intros a b c H1 H2. apply Z.ltb_ge in H1, H2. apply Z.ltb_ge. lia.
Qed.

Lemma Qltb_lt (x y : Q) : Py.Qltb x y = true <-> (x < y)%Q.
Proof.
  unfold Py.Qltb. rewrite Qlt_alt.
  destruct (x ?= y)%Q; split; congruence.
Qed.

Lemma Qltb_ge (x y : Q) : Py.Qltb x y = false <-> (y <= x)%Q.
Proof.
  split.
  - intros H. apply Qnot_lt_le. rewrite <- Qltb_lt. congruence.
  - intros H. destruct (Py.Qltb x y) eqn:E; [|reflexivity].
    apply Qltb_lt in E. now apply Qle_not_lt in H.
Qed.

Lemma pair_ltb_ge (x y : Z * Z) :
  Py.pair_ltb x y = false
  <-> fst y < fst x \/ (fst y = fst x /\ snd y <= snd x).
Proof.
  unfold Py.pair_ltb.
  destruct (Z.eqb_spec (fst x) (fst y)) as [E|E].
  - rewrite Z.ltb_ge. lia.
  - rewrite Z.ltb_ge. lia.
Qed.

(** ** The reports *)

(** C3.  On the empty sequence of rows both aggregators return a report
    (no error, in particular no division by zero): the champion is absent,
    every ranking list is empty and there are 0 unique players; the
    monthly report, which has the field, gives 0 average daily
    participants. *)
Theorem empty_input_report (players : list (string * string))
  (total_days : Z) (start_date end_date : string) :
  (exists r,
      Monthly.build_report [] players total_days start_date end_date = Py.Ok r
      /\ Monthly.monthly_champion r = None
      /\ Monthly.top_champions r = []
      /\ Monthly.top_podium_finishes r = []
      /\ Monthly.top_10_finishes r = []
      /\ Monthly.most_consistent r = []
      /\ Monthly.total_unique_players (Monthly.participation_stats r) = 0
      /\ Monthly.avg_daily_participants (Monthly.participation_stats r) = 0%Q)
  /\
  (exists r,
      Weekly.build_report [] players start_date end_date = Py.Ok r
      /\ Weekly.weekly_champion r = None
      /\ Weekly.top_first_places r = []
      /\ Weekly.top_podium_finishes r = []
      /\ Weekly.most_consistent r = []
      /\ Weekly.total_unique_players r = 0).
Proof.
  split; eexists; (split; [reflexivity|]); cbn; repeat split.
Qed.

Lemma In_firstn {A} (n : nat) (l : list A) (x : A) :
  In x (firstn n l) -> In x l.
Proof.
  revert l. induction n as [|n IH]; intros [|y l]; simpl; try tauto.
  intros [H|H]; auto.
Qed.

Lemma In_sorted_desc {A K} (key : A -> K) (lt : K -> K -> bool)
  (l : list A) (x : A) : In x (Py.sorted_desc key lt l) <-> In x l.
Proof.
  split; apply Permutation_in;
    [symmetry|]; apply sorted_desc_perm.
Qed.

Lemma percentage_nonneg_days (count total_days : Z) :
  0 <= total_days ->
  MonthlySpec.percentage count total_days
  = (if total_days =? 0 then 0%Q
     else Py.fmul
            (Float.rn (inject_Z count / inject_Z total_days))
            (Py.float_of_int 100))
  /\ Spec.percentage count total_days
     = (if total_days =? 0 then 0%Q
        else (inject_Z count / inject_Z total_days * inject_Z 100)%Q).
Proof.
  intros H. unfold MonthlySpec.percentage, Spec.percentage.
  destruct (Z.gtb_spec total_days 0); destruct (Z.eqb_spec total_days 0);
    try lia; split; reflexivity.
Qed.

(** The float [count / total_days * 100] against the rational number. *)
Lemma percentage_error (count total_days : Z) :
  (Qabs (MonthlySpec.percentage count total_days
         - Spec.percentage count total_days)
   <= Qabs (Spec.percentage count total_days) * 2 ^ (-51))%Q.
Proof.
  unfold MonthlySpec.percentage, Spec.percentage.
  destruct (total_days >? 0); [|discriminate].
  apply fmul_error.
Qed.

(** C6.  In every monthly report the win percentage of the champion and
    of each entry of the top champions is the float that
    first_place_count / total_days_tracked * 100 yields, the quotient and
    the product each rounded to binary64, and 0 when no day is tracked;
    it differs from the rational number first_place_count /
    total_days_tracked * 100 by a relative error of at most 2^-51. *)
Theorem win_percentage_formula (scores : list Row)
  (players : list (string * string)) (total_days : Z)
  (start_date end_date : string) :
  0 <= total_days ->
  exists r,
    Monthly.build_report scores players total_days start_date end_date
    = Py.Ok r
    /\ Monthly.total_days_tracked (Monthly.participation_stats r) = total_days
    /\ forall c,
        Monthly.monthly_champion r = Some c \/ In c (Monthly.top_champions r) ->
        let exact :=
          if total_days =? 0 then 0%Q
          else (inject_Z (Monthly.ch_first_place_count c)
                / inject_Z total_days * inject_Z 100)%Q in
        Monthly.ch_win_percentage c
        = (if total_days =? 0 then 0%Q
           else Py.fmul
                  (Float.rn (inject_Z (Monthly.ch_first_place_count c)
                             / inject_Z total_days))
                  (Py.float_of_int 100))
        /\ (Qabs (Monthly.ch_win_percentage c - exact)
            <= Qabs exact * 2 ^ (-51))%Q.
Proof.
  intros Hd. rewrite monthly_build_report_ok. eexists.
  split; [reflexivity|]. split; [reflexivity|].
  intros c H. cbn in H.
  assert (Hc : exists item,
             c = MonthlySpec.champion_of (build_player_names players)
                   total_days item).
  { destruct H as [H|H].
    - destruct (Py.sorted_desc _ _ _) as [|first rest]; [discriminate|].
      injection H as <-. now exists first.
    - apply in_map_iff in H. destruct H as [item [<- _]]. now exists item. }
  destruct Hc as [item ->].
  cbn [MonthlySpec.champion_of Monthly.ch_win_percentage
       Monthly.ch_first_place_count].
  destruct (percentage_nonneg_days (snd item) total_days Hd) as [E1 E2].
  cbv zeta. split; [exact E1|].
  rewrite <- E2. apply percentage_error.
Qed.

Lemma win_percentage_formula_witness :
  0 <= 1
  /\ exists r,
      Monthly.build_report Sample.one_day Sample.names 1
        "2024-01-01" "2024-01-31" = Py.Ok r
      /\ Monthly.total_days_tracked (Monthly.participation_stats r) = 1
      /\ forall c,
          Monthly.monthly_champion r = Some c
          \/ In c (Monthly.top_champions r) ->
          let exact :=
            if 1 =? 0 then 0%Q
            else (inject_Z (Monthly.ch_first_place_count c)
                  / inject_Z 1 * inject_Z 100)%Q in
          Monthly.ch_win_percentage c
          = (if 1 =? 0 then 0%Q
             else Py.fmul
                    (Float.rn (inject_Z (Monthly.ch_first_place_count c)
                               / inject_Z 1))
                    (Py.float_of_int 100))
          /\ (Qabs (Monthly.ch_win_percentage c - exact)
              <= Qabs exact * 2 ^ (-51))%Q.
Proof.
  split; [lia|].
  apply (win_percentage_formula Sample.one_day Sample.names 1
           "2024-01-01" "2024-01-31").
  lia.
Defined.

(** The scenario of two days and three players: A and B have one first
    place each and A, met first, is the champion; there are 3 players,
    2 days and 3 participants a day on average. *)
Example two_days_report :
  exists r champion,
    Monthly.build_report Sample.two_days Sample.names 2
      "2024-01-01" "2024-01-02" = Py.Ok r
    /\ Monthly.monthly_champion r = Some champion
    /\ Monthly.ch_playfab_id champion = "A"
    /\ Monthly.ch_first_place_count champion = 1
    /\ (Monthly.ch_win_percentage champion == 50)%Q
    /\ map Monthly.ch_playfab_id (Monthly.top_champions r) = ["A"; "B"]
    /\ map Monthly.po_playfab_id (Monthly.top_podium_finishes r)
       = ["A"; "B"; "C"]
    /\ Monthly.most_consistent r = []
    /\ Monthly.total_unique_players (Monthly.participation_stats r) = 3
    /\ Monthly.total_days_tracked (Monthly.participation_stats r) = 2
    /\ (Monthly.avg_daily_participants (Monthly.participation_stats r)
        == 3)%Q.
Proof.
  eexists. eexists. split; [reflexivity|].
  repeat (split; [reflexivity|]). reflexivity.
Qed.

(** ** The rankings *)

Lemma in_players_count (p : Row -> bool) (rows : list Row) (pid : string) :
  In pid (Spec.players (filter p rows)) <-> 1 <= Spec.count p pid rows.
Proof.
  unfold Spec.players, Spec.count. rewrite in_first_occurrences. split.
  - intros H. apply (group_of_nonempty playfab_id) in H.
    apply len_nonzero in H. unfold Py.len in *.
    change (Table.group_of playfab_id pid (filter p rows))
      with (Spec.rows_of pid (filter p rows)) in H. lia.
  - intros H.
    destruct (in_dec string_dec pid (map playfab_id (filter p rows)))
      as [Hin|Hn]; [assumption|].
    apply (group_of_empty playfab_id) in Hn.
    change (Table.group_of playfab_id pid (filter p rows))
      with (Spec.rows_of pid (filter p rows)) in Hn.
    rewrite Hn in H. cbn in H. lia.
Qed.

(** The tally of [p] lists exactly the players with at least one row that
    satisfies [p], each once, with the number of such rows. *)
Lemma tally_spec (p : Row -> bool) (rows : list Row) (pid : string) (c : Z) :
  In (pid, c) (Spec.tally p rows) <-> c = Spec.count p pid rows /\ 1 <= c.
Proof.
  unfold Spec.tally. rewrite in_map_iff. split.
  - intros [k [E Hin]]. injection E as -> <-.
    split; [reflexivity|]. now apply in_players_count.
  - intros [-> H]. exists pid. split; [reflexivity|].
    now apply in_players_count.
Qed.

Lemma tally_keys_NoDup (p : Row -> bool) (rows : list Row) :
  NoDup (map fst (Spec.tally p rows)).
Proof.
  unfold Spec.tally. rewrite map_map. simpl. rewrite map_id.
  apply NoDup_first_occurrences.
Qed.

Lemma map_pair_id {A B} (l : list (A * B)) :
  map (fun x => (fst x, snd x)) l = l.
Proof.
  induction l as [|[a b] l IH]; simpl; [reflexivity|]. now rewrite IH.
Qed.

(** C5, as the code has it.  Each top-N list is made of the players whose
    counter is at least 1 (first places, podiums, top-10 finishes), in the
    order in which they first scored for it, sorted in descending order of
    the counter by a stable sort and cut to 10 entries (champions and
    podium, monthly and weekly) or 20 entries (monthly top-10 finishers). *)
Theorem top_n_rankings (rows : list Row) (players : list (string * string))
  (total_days : Z) (start_date end_date : string) :
  (exists r,
      Monthly.build_report rows players total_days start_date end_date
      = Py.Ok r
      /\ (exists full,
             Spec.stable_sort_desc snd (Spec.tally Spec.is_first rows) full
             /\ map (fun c => (Monthly.ch_playfab_id c,
                               Monthly.ch_first_place_count c))
                  (Monthly.top_champions r)
                = firstn 10 full)
      /\ (exists full,
             Spec.stable_sort_desc snd (Spec.tally Spec.is_podium rows) full
             /\ map (fun c => (Monthly.po_playfab_id c,
                               Monthly.po_podium_count c))
                  (Monthly.top_podium_finishes r)
                = firstn 10 full)
      /\ (exists full,
             Spec.stable_sort_desc snd (Spec.tally Spec.is_top10 rows) full
             /\ map (fun c => (Monthly.tt_playfab_id c,
                               Monthly.tt_top_10_count c))
                  (Monthly.top_10_finishes r)
                = firstn 20 full))
  /\
  (exists r,
      Weekly.build_report rows players start_date end_date = Py.Ok r
      /\ (exists full,
             Spec.stable_sort_desc snd (Spec.tally Spec.is_first rows) full
             /\ map (fun c => (Weekly.cn_playfab_id c, Weekly.cn_count c))
                  (Weekly.top_first_places r)
                = firstn 10 full)
      /\ (exists full,
             Spec.stable_sort_desc snd (Spec.tally Spec.is_podium rows) full
             /\ map (fun c => (Weekly.cn_playfab_id c, Weekly.cn_count c))
                  (Weekly.top_podium_finishes r)
                = firstn 10 full)).
Proof.
  split.
  - rewrite monthly_build_report_ok. eexists. split; [reflexivity|].
    repeat split; eexists;
      (split; [apply sorted_desc_stable_sort|]);
      cbn; rewrite map_map; cbn; apply map_pair_id.
  - rewrite weekly_build_report_ok. eexists. split; [reflexivity|].
    repeat split; eexists;
      (split; [apply sorted_desc_stable_sort|]);
      cbn; rewrite map_map; cbn; apply map_pair_id.
Qed.

(** C5, as stated, fails: with A first and B second on the only day, the
    top champions are A alone, whereas the player aggregates sorted by
    first-place count and cut to 10 are A and B. *)
Lemma top_champions_leave_out_zero_counts :
  exists r,
    Monthly.build_report Sample.one_day Sample.names 1
      "2024-01-01" "2024-01-31" = Py.Ok r
    /\ map Monthly.ch_playfab_id (Monthly.top_champions r) = ["A"]
    /\ map Spec.player_id
         (firstn 10
            (Py.sorted_desc Spec.first_place_count Z.ltb
               (Spec.player_aggregates Sample.one_day)))
       = ["A"; "B"]
    /\ map Monthly.ch_playfab_id (Monthly.top_champions r)
       <> map Spec.player_id
            (firstn 10
               (Py.sorted_desc Spec.first_place_count Z.ltb
                  (Spec.player_aggregates Sample.one_day))).
Proof.
  eexists. split; [reflexivity|].
  split; [reflexivity|]. split; [reflexivity|]. discriminate.
Qed.

Lemma StronglySorted_weaken {A} (R R' : A -> A -> Prop) (l : list A) :
  (forall a b, R a b -> R' a b) -> StronglySorted R l -> StronglySorted R' l.
Proof.
  intros H. induction 1 as [|a l Hs IH Ha]; constructor; [assumption|].
  eapply Forall_impl; [|exact Ha]. auto.
Qed.

Lemma monthly_sort_consistent_sorted (l : list Monthly.ConsistentEntry) :
  StronglySorted
    (fun a b => (Monthly.co_consistency_rating b
                 <= Monthly.co_consistency_rating a)%Q)
    (Monthly.sort_consistent l).
Proof.
  apply (StronglySorted_weaken
           (fun a b => Py.Qltb (Monthly.co_consistency_rating a)
                         (Monthly.co_consistency_rating b) = false)).
  - intros a b. apply Qltb_ge.
  - apply sorted_desc_descending.
    + intros a b H. apply Qltb_lt in H. apply Qltb_ge.
      now apply Qlt_le_weak.
    + intros a b c H1 H2. apply Qltb_ge in H1, H2. apply Qltb_ge.
      now apply (Qle_trans _ b).
Qed.

Lemma weekly_sort_consistent_sorted (l : list Weekly.ConsistentEntry) :
  StronglySorted
    (fun a b =>
       Weekly.co_days_played b < Weekly.co_days_played a
       \/ (Weekly.co_days_played b = Weekly.co_days_played a
           /\ Weekly.co_average_score b <= Weekly.co_average_score a))
    (Weekly.sort_consistent l).
Proof.
  apply (StronglySorted_weaken
           (fun a b => Py.pair_ltb (Weekly.consistency_key a)
                         (Weekly.consistency_key b) = false)).
  - intros a b H. apply pair_ltb_ge in H. exact H.
  - apply sorted_desc_descending.
    + intros a b H. apply pair_ltb_ge.
      unfold Py.pair_ltb in H.
      destruct (Z.eqb_spec (fst a) (fst b)); apply Z.ltb_lt in H; lia.
    + intros a b c H1 H2. apply pair_ltb_ge in H1, H2. apply pair_ltb_ge. lia.
Qed.

Lemma in_monthly_eligible (rows : list Row) (pid : string) :
  In pid (MonthlySpec.eligible rows)
  <-> In pid (Spec.players rows) /\ 5 <= Spec.days_played pid rows.
Proof.
  unfold MonthlySpec.eligible. rewrite filter_In, Z.geb_le. tauto.
Qed.

Lemma in_weekly_eligible (rows : list Row) (pid : string) :
  In pid (WeeklySpec.eligible rows)
  <-> In pid (Spec.players rows) /\ 3 <= Spec.days_played pid rows.
Proof.
  unfold WeeklySpec.eligible. rewrite filter_In, Z.geb_le. tauto.
Qed.

Lemma monthly_consistent_ids names (rows : list Row) :
  Permutation
    (map Monthly.co_playfab_id
       (Monthly.sort_consistent (MonthlySpec.consistent names rows)))
    (MonthlySpec.eligible rows).
Proof.
  unfold Monthly.sort_consistent.
  rewrite <- sorted_desc_perm. unfold MonthlySpec.consistent.
  rewrite map_map. cbn. now rewrite map_id.
Qed.

Lemma weekly_consistent_ids names (rows : list Row) :
  Permutation
    (map Weekly.co_playfab_id
       (Weekly.sort_consistent (WeeklySpec.consistent names rows)))
    (WeeklySpec.eligible rows).
Proof.
  unfold Weekly.sort_consistent.
  rewrite <- sorted_desc_perm. unfold WeeklySpec.consistent.
  rewrite map_map. cbn. now rewrite map_id.
Qed.

Lemma eligible_NoDup (p : string -> bool) (rows : list Row) :
  NoDup (filter p (Spec.players rows)).
Proof. apply NoDup_filter, NoDup_first_occurrences. Qed.

Lemma in_monthly_consistent names (rows : list Row) c :
  In c (Monthly.sort_consistent (MonthlySpec.consistent names rows)) ->
  exists pid, In pid (MonthlySpec.eligible rows)
              /\ c = MonthlySpec.consistent_of names rows pid.
Proof.
  unfold Monthly.sort_consistent. rewrite In_sorted_desc.
  unfold MonthlySpec.consistent. rewrite in_map_iff.
  intros [pid [<- H]]. now exists pid.
Qed.

Lemma in_weekly_consistent names (rows : list Row) c :
  In c (Weekly.sort_consistent (WeeklySpec.consistent names rows)) ->
  exists pid, In pid (WeeklySpec.eligible rows)
              /\ c = WeeklySpec.consistent_of names rows pid.
Proof.
  unfold Weekly.sort_consistent. rewrite In_sorted_desc.
  unfold WeeklySpec.consistent. rewrite in_map_iff.
  intros [pid [<- H]]. now exists pid.
Qed.

(** C4, as the code has it.  The consistency ranking is the first 15
    (monthly) or 10 (weekly) entries of a list that holds exactly the
    players with days_played >= 5 (monthly) or >= 3 (weekly), each once.
    Every entry has as [average_score] the player's mean score, a float,
    truncated to an integer.  The monthly list is in descending order of
    the rating, the float product of days_played and the untruncated float
    mean; the weekly list is in descending lexicographic order of
    (days_played, average_score), with the truncated [average_score]. *)
Theorem consistency_ranking (rows : list Row)
  (players : list (string * string)) (total_days : Z)
  (start_date end_date : string) :
  (exists r full,
      Monthly.build_report rows players total_days start_date end_date
      = Py.Ok r
      /\ Monthly.most_consistent r = firstn 15 full
      /\ NoDup (map Monthly.co_playfab_id full)
      /\ (forall pid,
             In pid (map Monthly.co_playfab_id full)
             <-> In pid (Spec.players rows)
                 /\ 5 <= Spec.days_played pid rows)
      /\ (forall c, In c full ->
             let float_mean :=
               Float.rn
                 (Spec.mean (Spec.scores_of (Monthly.co_playfab_id c) rows)) in
             Monthly.co_days_played c
             = Spec.days_played (Monthly.co_playfab_id c) rows
             /\ Monthly.co_average_score c = Py.int_of_float float_mean
             /\ Monthly.co_consistency_rating c
                = Py.fmul (Py.float_of_int (Monthly.co_days_played c))
                    float_mean)
      /\ StronglySorted
           (fun a b => (Monthly.co_consistency_rating b
                        <= Monthly.co_consistency_rating a)%Q) full)
  /\
  (exists r full,
      Weekly.build_report rows players start_date end_date = Py.Ok r
      /\ Weekly.most_consistent r = firstn 10 full
      /\ NoDup (map Weekly.co_playfab_id full)
      /\ (forall pid,
             In pid (map Weekly.co_playfab_id full)
             <-> In pid (Spec.players rows)
                 /\ 3 <= Spec.days_played pid rows)
      /\ (forall c, In c full ->
             Weekly.co_days_played c
             = Spec.days_played (Weekly.co_playfab_id c) rows
             /\ Weekly.co_average_score c
                = Py.int_of_float
                    (Float.rn
                       (Spec.mean
                          (Spec.scores_of (Weekly.co_playfab_id c) rows))))
      /\ StronglySorted
           (fun a b =>
              Weekly.co_days_played b < Weekly.co_days_played a
              \/ (Weekly.co_days_played b = Weekly.co_days_played a
                  /\ Weekly.co_average_score b <= Weekly.co_average_score a))
           full).
Proof.
  split.
  - rewrite monthly_build_report_ok.
    exists (MonthlySpec.report rows players total_days start_date end_date).
    exists (Monthly.sort_consistent
              (MonthlySpec.consistent (build_player_names players) rows)).
    split; [reflexivity|]. split; [reflexivity|].
    pose proof (monthly_consistent_ids (build_player_names players) rows) as HP.
    split; [|split; [|split]].
    + apply (Permutation_NoDup (Permutation_sym HP)), eligible_NoDup.
    + intros pid. rewrite <- in_monthly_eligible.
      split; apply Permutation_in; [|symmetry]; exact HP.
    + intros c Hc. apply in_monthly_consistent in Hc.
      destruct Hc as [pid [_ ->]]. repeat split; reflexivity.
    + apply monthly_sort_consistent_sorted.
  - rewrite weekly_build_report_ok.
    exists (WeeklySpec.report rows players start_date end_date).
    exists (Weekly.sort_consistent
              (WeeklySpec.consistent (build_player_names players) rows)).
    split; [reflexivity|]. split; [reflexivity|].
    pose proof (weekly_consistent_ids (build_player_names players) rows) as HP.
    split; [|split; [|split]].
    + apply (Permutation_NoDup (Permutation_sym HP)), eligible_NoDup.
    + intros pid. rewrite <- in_weekly_eligible.
      split; apply Permutation_in; [|symmetry]; exact HP.
    + intros c Hc. apply in_weekly_consistent in Hc.
      destruct Hc as [pid [_ ->]]. split; reflexivity.
    + apply weekly_sort_consistent_sorted.
Qed.

(** C4, as stated, fails whatever [average_score] stands for.  If it is
    the field of the entries, the monthly list is not in the order of
    days_played * average_score: A (5 days, average_score 11) comes before
    B (7 days, average_score 8) because the rating uses the untruncated
    mean, 5 * 11.8 > 7 * 8, though 5 * 11 < 7 * 8.  If it is the mean, the
    weekly list is not in the order of (days_played, average_score): A
    comes before B with as many days and a smaller mean, 31/3 < 32/3,
    because the weekly key is the truncated average, 10 for both. *)
Lemma consistency_orders_use_two_averages :
  exists monthly weekly,
    Monthly.build_report Sample.long_month Sample.names 7
      "2024-01-01" "2024-01-31" = Py.Ok monthly
    /\ map (fun c => (Monthly.co_playfab_id c, Monthly.co_days_played c,
                      Monthly.co_average_score c))
         (Monthly.most_consistent monthly)
       = [("A", 5, 11); ("B", 7, 8)]
    /\ 5 * 11 < 7 * 8
    /\ Weekly.build_report Sample.short_week Sample.names
         "2024-01-01" "2024-01-07" = Py.Ok weekly
    /\ map (fun c => (Weekly.co_playfab_id c, Weekly.co_days_played c,
                      Weekly.co_average_score c))
         (Weekly.most_consistent weekly)
       = [("A", 3, 10); ("B", 3, 10)]
    /\ (Spec.mean (Spec.scores_of "A" Sample.short_week)
        < Spec.mean (Spec.scores_of "B" Sample.short_week))%Q.
Proof.
  eexists. eexists. split; [vm_compute; reflexivity|].
  split; [vm_compute; reflexivity|]. split; [lia|].
  split; [vm_compute; reflexivity|].
  split; [vm_compute; reflexivity|]. reflexivity.
Qed.

(** Two players with the same total, 29, and hence the same rational
    rating: the float ratings differ, 7 * (29 / 7) is
    29.000000000000004 and 5 * (29 / 5) is 29.0, and A comes first
    although B is met first. *)
Example rounding_orders_equal_totals :
  exists r a b,
    Monthly.build_report Sample.equal_totals Sample.names 7
      "2024-01-01" "2024-01-31" = Py.Ok r
    /\ Monthly.most_consistent r = [a; b]
    /\ Monthly.co_playfab_id a = "A" /\ Monthly.co_playfab_id b = "B"
    /\ Spec.players Sample.equal_totals = ["B"; "A"]
    /\ (Monthly.co_consistency_rating a == 29 + 2 ^ (-48))%Q
    /\ (Monthly.co_consistency_rating b == 29)%Q.
Proof.
  eexists. eexists. eexists. split; [vm_compute; reflexivity|].
  repeat (split; [reflexivity|]). reflexivity.
Qed.
(** ** The two representations of the average score *)

(** C7, as stated, fails: for a player with the five scores 10, 10, 10, 10
    and 12 the mean is 10.4; the [average_score] of the monthly report is
    10, not the mean rounded to two decimals. *)
Lemma monthly_average_score_is_not_rounded :
  exists r c,
    Monthly.build_report Sample.five_days Sample.names 5
      "2024-01-01" "2024-01-31" = Py.Ok r
    /\ Monthly.most_consistent r = [c]
    /\ Monthly.co_average_score c = 10
    /\ (Py.round2 (Float.rn (Spec.mean (Spec.scores_of "A" Sample.five_days)))
        == Float.rn (1040 # 100))%Q
    /\ ~ (inject_Z (Monthly.co_average_score c)
          == Py.round2
               (Float.rn (Spec.mean (Spec.scores_of "A" Sample.five_days))))%Q.
Proof.
  eexists. eexists. split; [vm_compute; reflexivity|].
  split; [reflexivity|]. split; [reflexivity|].
  split; [vm_compute; reflexivity|]. vm_compute. discriminate.
Qed.

(** [round(x, 2)] works on the float: the quotient 107 / 40 is 2.675 as a
    rational number, the float is slightly below it and is rounded to
    2.67, where the rational number would go to 2.68. *)
Example round2_of_a_float :
  (Py.round2 (Float.rn (107 # 40)) == Float.rn (267 # 100))%Q
  /\ Float.round_half_even ((107 # 40) * inject_Z 100) = 268.
Proof. split; vm_compute; reflexivity. Qed.

(** The decimal that [round(x, 2)] goes through. *)
Lemma round2_hundredths (a : Q) :
  exists hundredths : Z,
    Py.round2 a = Float.rn (hundredths # 100)
    /\ (Qabs ((hundredths # 100) - a) <= 1 # 200)%Q.
Proof.
  exists (Float.round_half_even (a * inject_Z 100)). split; [reflexivity|].
  pose proof (rhe_error (a * inject_Z 100)) as H.
  set (d := Float.round_half_even (a * inject_Z 100)) in *.
  assert (E : ((d # 100) - a == (inject_Z d - a * inject_Z 100) * (1 # 100))%Q).
  { change (inject_Z 100) with (100 # 1)%Q.
    assert (E' : (d # 100 == inject_Z d * (1 # 100))%Q).
    { unfold Qeq, Qmult, inject_Z. simpl. lia. }
    rewrite E'. ring. }
  rewrite E, Qabs_Qmult.
  change (Qabs (1 # 100)) with (1 # 100)%Q.
  apply Qle_trans with ((1 # 2) * (1 # 100))%Q; [|discriminate].
  apply Qmult_le_compat_r; [exact H|discriminate].
Qed.

(** C7, as the code has it.  In the monthly report the [average_score] of
    every consistency entry is the player's float mean truncated to an
    integer, and the untruncated float mean enters [consistency_rating],
    the float product of days_played and the mean.  The rounding to two
    decimals is made by the export of the player summaries: the record
    of each row that the summary query returns has as [average_score] the
    int 0 when the average of the row is NULL or zero, and otherwise the
    float nearest to a decimal with two places that is within 0.005 of
    the average. *)
Theorem average_score_representations (rows : list Row)
  (players : list (string * string)) (total_days : Z)
  (start_date end_date : string) :
  (exists r,
      Monthly.build_report rows players total_days start_date end_date
      = Py.Ok r
      /\ forall c, In c (Monthly.most_consistent r) ->
           let float_mean :=
             Float.rn
               (Spec.mean (Spec.scores_of (Monthly.co_playfab_id c) rows)) in
           Monthly.co_average_score c = Py.int_of_float float_mean
           /\ Monthly.co_consistency_rating c
              = Py.fmul (Py.float_of_int (Monthly.co_days_played c))
                  float_mean)
  /\ forall fetched : list PlayerSummary.SummaryRow,
      List.length (PlayerSummary.export_player_summary fetched)
      = List.length fetched
      /\ forall i row,
          nth_error fetched i = Some row ->
          exists record,
            nth_error (PlayerSummary.export_player_summary fetched) i
            = Some record
            /\ PlayerSummary.s_playfab_id record
               = PlayerSummary.playfab_id row
            /\ match PlayerSummary.average_score row with
               | None =>
                   PlayerSummary.s_average_score record
                   = PlayerSummary.Int 0
               | Some a =>
                   if Qeq_bool a 0
                   then PlayerSummary.s_average_score record
                        = PlayerSummary.Int 0
                   else
                     exists hundredths : Z,
                       PlayerSummary.s_average_score record
                       = PlayerSummary.Flt (Float.rn (hundredths # 100))
                       /\ (Qabs ((hundredths # 100) - a) <= 1 # 200)%Q
               end.
Proof.
  split.
  - rewrite monthly_build_report_ok. eexists. split; [reflexivity|].
    intros c Hc. unfold MonthlySpec.report in Hc.
    cbn [Monthly.most_consistent] in Hc.
    apply In_firstn, in_monthly_consistent in Hc.
    destruct Hc as [pid [_ ->]]. split; reflexivity.
  - intros fetched. unfold PlayerSummary.export_player_summary.
    split; [apply length_map|].
    intros i row Hrow. exists (PlayerSummary.to_record row).
    split; [now apply map_nth_error|]. split; [reflexivity|].
    cbn [PlayerSummary.to_record PlayerSummary.s_average_score].
    unfold PlayerSummary.rounded_average.
    destruct (PlayerSummary.average_score row) as [a|]; [|reflexivity].
    destruct (Qeq_bool a 0); [reflexivity|].
    destruct (round2_hundredths a) as (h & E & B).
    exists h. now rewrite E.
Qed.

(** ** Decimal numerals *)

Lemma dec_digits_fuel (f1 f2 : nat) (n : Z) :
  0 <= n -> n < 2 ^ (Z.of_nat f1 + 1) -> n < 2 ^ (Z.of_nat f2 + 1) ->
  Text.dec_digits (S f1) n = Text.dec_digits (S f2) n.
Proof.
  revert f2 n. induction f1 as [|f1 IH]; intros f2 n Hn H1 H2.
  - simpl in H1. assert (E : (n <? 10) = true) by (apply Z.ltb_lt; lia).
    simpl. now rewrite E.
  - cbn [Text.dec_digits]. destruct (Z.ltb_spec n 10) as [Hlt|Hge];
      [reflexivity|].
    destruct f2 as [|f2].
    + simpl in H2. lia.
    + f_equal. apply IH.
      * apply Z.div_pos; lia.
      * rewrite Nat2Z.inj_succ, <- Z.add_1_r in H1.
        rewrite Z.pow_add_r in H1 by lia.
        apply Z.div_lt_upper_bound; lia.
      * rewrite Nat2Z.inj_succ, <- Z.add_1_r in H2.
        rewrite Z.pow_add_r in H2 by lia.
        apply Z.div_lt_upper_bound; lia.
Qed.

Lemma lt_pow2_log2 (n : Z) : 0 <= n -> n < 2 ^ (Z.of_nat (Z.to_nat (Z.log2 n)) + 1).
Proof.
  intros Hn. rewrite Z2Nat.id by apply Z.log2_nonneg.
  destruct (Z.eq_dec n 0) as [->|Hz]; [reflexivity|].
  rewrite Z.add_1_r. apply Z.log2_spec. lia.
Qed.

(** The numeral of [n] is that of [n / 10] followed by the last digit. *)
Lemma str_nat_unfold (n : Z) :
  0 <= n ->
  Text.str_nat n
  = if n <? 10 then String (Text.digit_char n) ""
    else String.append (Text.str_nat (n / 10))
           (String (Text.digit_char (n mod 10)) "").
Proof.
  intros Hn. unfold Text.str_nat at 1. cbn [Text.dec_digits].
  destruct (Z.ltb_spec n 10) as [Hlt|Hge]; [reflexivity|].
  f_equal.
  assert (H10 : 0 <= n / 10) by (apply Z.div_pos; lia).
  destruct (Z.to_nat (Z.log2 n)) as [|f] eqn:E.
  - pose proof (lt_pow2_log2 n Hn) as H. rewrite E in H. simpl in H. lia.
  - unfold Text.str_nat. apply dec_digits_fuel; [assumption| |].
    + pose proof (lt_pow2_log2 n Hn) as H. rewrite E in H.
      rewrite Nat2Z.inj_succ, <- Z.add_1_r in H.
      rewrite Z.pow_add_r in H by lia.
      apply Z.div_lt_upper_bound; lia.
    + now apply lt_pow2_log2.
Qed.

Lemma forallb_range (P : Z -> bool) (lo : Z) (n : nat) :
  forallb P (Numeral.range lo n) = true ->
  forall z, lo <= z < lo + Z.of_nat n -> P z = true.
Proof.
  intros H z Hz. rewrite forallb_forall in H. apply H.
  unfold Numeral.range. apply in_map_iff.
  exists (Z.to_nat (z - lo)). split; [lia|].
  apply in_seq. lia.
Qed.

Lemma is_digit_digit_char (d : Z) :
  0 <= d <= 9 -> Text.is_digit (Text.digit_char d) = true.
Proof.
  intros H.
  assert (E : d = 0 \/ d = 1 \/ d = 2 \/ d = 3 \/ d = 4 \/ d = 5 \/ d = 6
              \/ d = 7 \/ d = 8 \/ d = 9) by lia.
  repeat (destruct E as [->|E]; [reflexivity|]). now subst.
Qed.

Lemma all_digits_app (s t : string) :
  Numeral.all_digits (String.append s t)
  = Numeral.all_digits s && Numeral.all_digits t.
Proof.
  induction s as [|c s IH]; simpl; [reflexivity|].
  now rewrite IH, andb_assoc.
Qed.

Lemma all_digits_dec_digits (f : nat) (n : Z) :
  0 <= n -> Numeral.all_digits (Text.dec_digits f n) = true.
Proof.
  revert n. induction f as [|f IH]; intros n Hn; [reflexivity|].
  cbn [Text.dec_digits]. destruct (Z.ltb_spec n 10).
  - simpl. rewrite is_digit_digit_char by lia. reflexivity.
  - rewrite all_digits_app, IH by (apply Z.div_pos; lia).
    simpl. rewrite is_digit_digit_char; [reflexivity|].
    pose proof (Z.mod_pos_bound n 10). lia.
Qed.

Lemma all_digits_str_nat (n : Z) :
  0 <= n -> Numeral.all_digits (Text.str_nat n) = true.
Proof. apply all_digits_dec_digits. Qed.

Lemma length_append (s t : string) :
  String.length (String.append s t) = (String.length s + String.length t)%nat.
Proof. induction s as [|c s IH]; simpl; [reflexivity|]. now rewrite IH. Qed.

Lemma length_str_nat_pos (n : Z) :
  0 <= n -> (1 <= String.length (Text.str_nat n))%nat.
Proof.
  intros Hn. rewrite str_nat_unfold by assumption.
  destruct (n <? 10); [simpl; lia|].
  rewrite length_append. simpl. lia.
Qed.

Lemma length_str_nat_100 (n : Z) :
  100 <= n -> (3 <= String.length (Text.str_nat n))%nat.
Proof.
  intros Hn. rewrite str_nat_unfold by lia.
  destruct (Z.ltb_spec n 10); [lia|].
  assert (H10 : 10 <= n / 10) by (apply Z.div_le_lower_bound; lia).
  rewrite (str_nat_unfold (n / 10)) by lia.
  destruct (Z.ltb_spec (n / 10) 10); [lia|].
  rewrite !length_append. simpl.
  assert (Hq : 0 <= n / 10 / 10) by (apply Z.div_pos; lia).
  pose proof (length_str_nat_pos (n / 10 / 10) Hq). lia.
Qed.

Lemma str_nat_100 (n : Z) :
  100 <= n ->
  exists c1 c2 c3 r,
    Text.str_nat n = String c1 (String c2 (String c3 r))
    /\ Text.is_digit c1 = true /\ Text.is_digit c2 = true
    /\ Text.is_digit c3 = true.
Proof.
  intros Hn. pose proof (length_str_nat_100 n Hn) as HL.
  pose proof (all_digits_str_nat n ltac:(lia)) as HD.
  destruct (Text.str_nat n) as [|c1 [|c2 [|c3 r]]]; simpl in HL; try lia.
  simpl in HD. apply andb_prop in HD. destruct HD as [H1 HD].
  apply andb_prop in HD. destruct HD as [H2 HD].
  apply andb_prop in HD. destruct HD as [H3 _].
  now exists c1, c2, c3, r.
Qed.

(** ** The month window *)

Lemma isleap_spec (y : Z) : Calendar.isleap y = Spec.is_leap_yearb y.
Proof.
  unfold Calendar.isleap, Spec.is_leap_yearb.
  destruct (Z.eqb_spec (y mod 4) 0) as [H4|H4];
    destruct (Z.eqb_spec (y mod 100) 0) as [H100|H100];
    destruct (Z.eqb_spec (y mod 400) 0) as [H400|H400];
    try reflexivity; exfalso; Z.div_mod_to_equations; lia.
Qed.

Lemma days_in_month_spec (y m : Z) :
  1 <= m <= 12 -> Calendar.days_in_month y m = Spec.last_day_of_month y m.
Proof.
  intros H.
  assert (E : m = 1 \/ m = 2 \/ m = 3 \/ m = 4 \/ m = 5 \/ m = 6 \/ m = 7
              \/ m = 8 \/ m = 9 \/ m = 10 \/ m = 11 \/ m = 12) by lia.
  unfold Calendar.days_in_month, Spec.last_day_of_month.
  rewrite isleap_spec.
  repeat (destruct E as [->|E];
          [cbn; try destruct (Spec.is_leap_yearb y); reflexivity|]).
  subst. reflexivity.
Qed.

Lemma append_assoc (s t u : string) :
  String.append (String.append s t) u = String.append s (String.append t u).
Proof. induction s as [|c s IH]; simpl; [reflexivity|]. now rewrite IH. Qed.

(** C9.  For a month in 1..12 the month window starts on the first day of
    the month and ends on its last day: the 30th for April, June,
    September and November, the 28th for February and the 29th in a leap
    year, the 31st otherwise. *)
Theorem month_window (year month : Z) :
  1 <= month <= 12 ->
  get_month_date_range year month
  = Py.Ok (Spec.date_text year month 1,
           Spec.date_text year month (Spec.last_day_of_month year month)).
Proof.
  intros H. unfold get_month_date_range, Calendar.monthrange_ndays.
  assert (E : (1 <=? month) && (month <=? 12) = true).
  { apply andb_true_intro. split; apply Z.leb_le; lia. }
  rewrite E. cbn [Py.bind]. rewrite days_in_month_spec by assumption.
  unfold Spec.date_text.
  rewrite !append_assoc. cbn [String.append]. rewrite !append_assoc.
  reflexivity.
Qed.

Lemma month_window_witness :
  1 <= 2 <= 12
  /\ get_month_date_range 2024 2
     = Py.Ok (Spec.date_text 2024 2 1,
              Spec.date_text 2024 2 (Spec.last_day_of_month 2024 2)).
Proof.
  split; [lia|]. apply (month_window 2024 2). lia.
Defined.

Example february_of_a_leap_year :
  get_month_date_range 2024 2 = Py.Ok ("2024-02-01", "2024-02-29").
Proof. reflexivity. Qed.

Example february_of_a_common_year :
  get_month_date_range 2023 2 = Py.Ok ("2023-02-01", "2023-02-28").
Proof. reflexivity. Qed.

Lemma length_str_nat_four (y : Z) :
  1000 <= y <= 9999 -> String.length (Text.str_nat y) = 4%nat.
Proof.
  intros H.
  assert (H1 : 100 <= y / 10 <= 999)
    by (Z.div_mod_to_equations; lia).
  assert (H2 : 10 <= y / 10 / 10 <= 99)
    by (Z.div_mod_to_equations; lia).
  assert (H3 : 1 <= y / 10 / 10 / 10 <= 9)
    by (Z.div_mod_to_equations; lia).
  rewrite (str_nat_unfold y) by lia.
  destruct (Z.ltb_spec y 10); [lia|].
  rewrite (str_nat_unfold (y / 10)) by lia.
  destruct (Z.ltb_spec (y / 10) 10); [lia|].
  rewrite (str_nat_unfold (y / 10 / 10)) by lia.
  destruct (Z.ltb_spec (y / 10 / 10) 10); [lia|].
  rewrite (str_nat_unfold (y / 10 / 10 / 10)) by lia.
  destruct (Z.ltb_spec (y / 10 / 10 / 10) 10); [|lia].
  reflexivity.
Qed.

(** For a year of four digits the texts of the month window are the ISO
    texts [YYYY-MM-DD]. *)
Lemma date_text_iso (y m d : Z) :
  1000 <= y <= 9999 -> Spec.date_text y m d = Spec.iso_text y m d.
Proof.
  intros H. unfold Spec.date_text, Spec.iso_text. f_equal.
  unfold Text.str_int, Text.format_04d, Text.zfill.
  destruct (Z.ltb_spec y 0); [lia|].
  now rewrite length_str_nat_four.
Qed.

Lemma is_leap_yearb_spec (y : Z) :
  Spec.is_leap_yearb y = true <-> Spec.is_leap_year y.
Proof.
  unfold Spec.is_leap_yearb, Spec.is_leap_year.
  rewrite orb_true_iff, andb_true_iff, negb_true_iff.
  rewrite !Z.eqb_eq, Z.eqb_neq. tauto.
Qed.

(** ** The week window *)

(** C1 fails on the code.  [get_week_date_range] reads the week number
    with [%W] (weeks counted from the first Monday of the year), not as an
    ISO 8601 week: for week 1 of 2025 it returns the week of Monday
    2025-01-06, whereas ISO week 1 of 2025 starts on Monday 2024-12-30. *)
Theorem week_window_is_not_the_iso_week :
  get_week_date_range 2025 1 = Py.Ok ("2025-01-06", "2025-01-12")
  /\ Calendar.ord2ymd (Spec.iso_week_monday 2025 1)
     = {| Calendar.year := 2024; Calendar.month := 12; Calendar.day := 30 |}.
Proof. split; reflexivity. Qed.

Example first_week_of_2026 :
  get_week_date_range 2026 1 = Py.Ok ("2026-01-05", "2026-01-11")
  /\ Calendar.ord2ymd (Spec.iso_week_monday 2026 1)
     = {| Calendar.year := 2025; Calendar.month := 12; Calendar.day := 29 |}.
Proof. split; reflexivity. Qed.

(** In a year that starts on a Monday the two week numberings agree. *)
Example first_week_of_2024 :
  get_week_date_range 2024 1 = Py.Ok ("2024-01-01", "2024-01-07")
  /\ Calendar.ord2ymd (Spec.iso_week_monday 2024 1)
     = {| Calendar.year := 2024; Calendar.month := 1; Calendar.day := 1 |}.
Proof. split; reflexivity. Qed.

(** The day that [strptime] computes for Monday of [%W] week [w >= 1] is
    the Monday of ISO week [w] when the year starts on a Monday, Friday,
    Saturday or Sunday, and one week later when it starts on a Tuesday,
    Wednesday or Thursday. *)
Lemma W_week_monday_vs_iso (y w : Z) :
  1 <= w ->
  let jan1 := Calendar.ymd2ord y 1 1 in
  let first_weekday := (jan1 + 6) mod 7 in
  (Calendar.calc_julian_from_W first_weekday w 0 - 1) + jan1
  = Spec.iso_week_monday y w
    + (if (1 <=? first_weekday) && (first_weekday <=? 3) then 7 else 0).
Proof.
  intros Hw. cbv zeta.
  unfold Spec.iso_week_monday, Calendar.calc_julian_from_W.
  assert (E : Calendar.ymd2ord y 1 4 = Calendar.ymd2ord y 1 1 + 3).
  { unfold Calendar.ymd2ord, Calendar.days_before_month. cbn. lia. }
  rewrite E. set (j := Calendar.ymd2ord y 1 1).
  destruct (Z.eqb_spec w 0); [lia|].
  destruct (Z.leb_spec 1 ((j + 6) mod 7));
    destruct (Z.leb_spec ((j + 6) mod 7) 3); cbn [andb];
    Z.div_mod_to_equations; lia.
Qed.

(** ** Periods that do not resolve *)

Lemma digit_is_not_dash (a : ascii) :
  Text.is_digit a = true -> Ascii.eqb a "-" = false.
Proof.
  intros H. destruct (Ascii.eqb_spec a "-") as [->|]; [|reflexivity].
  discriminate H.
Qed.

Lemma re_digit_digit (a : ascii) (r : string) :
  Text.is_digit a = true ->
  Calendar.re_digit (String a r) = Some (Text.digit_val a, r).
Proof.
  intros H. unfold Calendar.re_digit, Calendar.re_range.
  unfold Text.is_digit in H. now rewrite H.
Qed.

Lemma re_lit_dash_digit (a : ascii) (r : string) :
  Text.is_digit a = true -> Calendar.re_lit "-" (String a r) = None.
Proof.
  intros H. unfold Calendar.re_lit. now rewrite digit_is_not_dash.
Qed.

(** After a numeral of other than four digits the year does not match;
    after one of four digits the match continues with the week. *)
Lemma match_after_year (t rest : string) :
  Numeral.all_digits t = true ->
  Calendar.match_Y_W_w
    (String.append t (String "-" (String "W" rest)))
  = Py.Raise Py.ValueError
  \/ exists Y,
      Calendar.match_Y_W_w
        (String.append t (String "-" (String "W" rest)))
      = match Calendar.first_match (Calendar.re_W rest) with
        | Some (W, w, EmptyString) => Py.Ok (Y, W, w)
        | _ => Py.Raise Py.ValueError
        end.
Proof.
  intros H. unfold Calendar.match_Y_W_w, Calendar.re_Y.
  destruct t as [|a t]; [left; reflexivity|].
  simpl in H. apply andb_prop in H. destruct H as [Ha H].
  cbn [String.append]. rewrite (re_digit_digit a) by assumption.
  destruct t as [|b t]; [left; reflexivity|].
  simpl in H. apply andb_prop in H. destruct H as [Hb H].
  cbn [String.append]. rewrite (re_digit_digit b) by assumption.
  destruct t as [|c t]; [left; reflexivity|].
  simpl in H. apply andb_prop in H. destruct H as [Hc H].
  cbn [String.append]. rewrite (re_digit_digit c) by assumption.
  destruct t as [|d t]; [left; reflexivity|].
  simpl in H. apply andb_prop in H. destruct H as [Hd H].
  cbn [String.append]. rewrite (re_digit_digit d) by assumption.
  destruct t as [|e t].
  - right. eexists. reflexivity.
  - simpl in H. apply andb_prop in H. destruct H as [He H].
    left. cbn [String.append]. now rewrite re_lit_dash_digit.
Qed.

Lemma week_negative_no_match (w : Z) :
  w < 0 ->
  Calendar.first_match
    (Calendar.re_W (String.append (Text.format_02d w) "-1")) = None.
Proof.
  intros H. unfold Text.format_02d.
  destruct (Z.ltb_spec w 0); [|lia]. reflexivity.
Qed.

Lemma week_54_to_99_no_match (w : Z) :
  54 <= w <= 99 ->
  Calendar.first_match
    (Calendar.re_W (String.append (Text.format_02d w) "-1")) = None.
Proof.
  intros H.
  assert (E : Numeral.is_none
                (Calendar.first_match
                   (Calendar.re_W (String.append (Text.format_02d w) "-1")))
              = true).
  { apply (forallb_range
             (fun w => Numeral.is_none
                         (Calendar.first_match
                            (Calendar.re_W
                               (String.append (Text.format_02d w) "-1"))))
             54 46); [vm_compute; reflexivity|lia]. }
  destruct (Calendar.first_match _); [discriminate|reflexivity].
Qed.

Lemma first_match_none (alts : list (Z * string)) :
  (forall W s, In (W, s) alts -> Calendar.re_lit "-" s = None) ->
  Calendar.first_match alts = None.
Proof.
  induction alts as [|[W s] alts IH]; intros H; [reflexivity|].
  simpl. rewrite (H W s) by now left.
  apply IH. intros W' s' Hin. apply (H W' s'). now right.
Qed.

(** Whatever the group [W] matches at the start of three digits, a digit
    follows. *)
Lemma re_W_three_digits (c1 c2 c3 : ascii) (r : string) (W : Z) (s : string) :
  Text.is_digit c2 = true -> Text.is_digit c3 = true ->
  In (W, s) (Calendar.re_W (String c1 (String c2 (String c3 r)))) ->
  exists c r', s = String c r' /\ Text.is_digit c = true.
Proof.
  intros H2 H3 Hin. unfold Calendar.re_W in Hin.
  apply in_app_or in Hin. destruct Hin as [Hin|Hin];
    [|apply in_app_or in Hin; destruct Hin as [Hin|Hin]].
  - cbn [Calendar.re_lit] in Hin.
    destruct (Ascii.eqb c1 "5"); [|contradiction].
    cbn [Calendar.re_range] in Hin.
    destruct ((48 <=? Text.code c2) && (Text.code c2 <=? 51));
      [|contradiction].
    destruct Hin as [Hin|[]]. injection Hin as <- <-. eauto.
  - cbn [Calendar.re_range] in Hin.
    destruct ((48 <=? Text.code c1) && (Text.code c1 <=? 52));
      [|contradiction].
    unfold Calendar.re_digit in Hin. cbn [Calendar.re_range] in Hin.
    destruct ((48 <=? Text.code c2) && (Text.code c2 <=? 57));
      [|contradiction].
    destruct Hin as [Hin|[]]. injection Hin as <- <-. eauto.
  - unfold Calendar.re_digit in Hin. cbn [Calendar.re_range] in Hin.
    destruct ((48 <=? Text.code c1) && (Text.code c1 <=? 57));
      [|contradiction].
    destruct Hin as [Hin|[]]. injection Hin as <- <-. eauto.
Qed.

Lemma week_100_no_match (w : Z) :
  100 <= w ->
  Calendar.first_match
    (Calendar.re_W (String.append (Text.format_02d w) "-1")) = None.
Proof.
  intros H. unfold Text.format_02d.
  destruct (Z.ltb_spec w 0); [lia|].
  destruct (str_nat_100 w H) as (c1 & c2 & c3 & r & E & H1 & H2 & H3).
  rewrite E. unfold Text.zfill. cbn [String.length Nat.sub repeat
    string_of_list_ascii String.append].
  apply first_match_none. intros W s Hin.
  apply re_W_three_digits in Hin; [|assumption|assumption].
  destruct Hin as (c & r' & -> & Hc). now apply re_lit_dash_digit.
Qed.

Lemma week_out_of_range_no_match (w : Z) :
  w < 0 \/ 53 < w ->
  Calendar.first_match
    (Calendar.re_W (String.append (Text.format_02d w) "-1")) = None.
Proof.
  intros [H|H].
  - now apply week_negative_no_match.
  - destruct (Z_lt_le_dec w 100).
    + apply week_54_to_99_no_match. lia.
    + now apply week_100_no_match.
Qed.

Lemma week_out_of_range_fails (year week : Z) :
  week < 0 \/ 53 < week ->
  get_week_date_range year week = Py.Raise Py.ValueError.
Proof.
  intros H. unfold get_week_date_range, Calendar.strptime_Y_W_w.
  assert (E : Calendar.match_Y_W_w
                (String.append (Text.str_int year)
                   (String.append "-W"
                      (String.append (Text.format_02d week) "-1")))
              = Py.Raise Py.ValueError).
  { cbn [String.append]. unfold Text.str_int.
    destruct (Z.ltb_spec year 0).
    - reflexivity.
    - destruct (match_after_year (Text.str_nat year)
                  (String.append (Text.format_02d week) "-1")
                  (all_digits_str_nat year ltac:(assumption)))
        as [E|[Y E]]; [exact E|].
      rewrite E, week_out_of_range_no_match by assumption. reflexivity. }
  rewrite E. reflexivity.
Qed.

Lemma month_out_of_range_fails (year month : Z) :
  month < 1 \/ 12 < month ->
  get_month_date_range year month = Py.Raise Py.IllegalMonthError.
Proof.
  intros H. unfold get_month_date_range, Calendar.monthrange_ndays.
  assert (E : (1 <=? month) && (month <=? 12) = false).
  { destruct (Z.leb_spec 1 month); destruct (Z.leb_spec month 12);
      try reflexivity; lia. }
  rewrite E. reflexivity.
Qed.

(** C2, as the code has it.  A month outside 1..12 and a week outside
    0..53 make the run fail before anything is asked of the store: no
    event is logged. *)
Theorem invalid_period_fails_before_any_query
  (db_found : bool) (db : Store) (year : Z) :
  (forall month, month < 1 \/ 12 < month ->
     monthly_main db_found db year month
     = ([], Py.Raise Py.IllegalMonthError))
  /\ (forall week, week < 0 \/ 53 < week ->
        weekly_main db_found db year week = ([], Py.Raise Py.ValueError)).
Proof.
  split.
  - intros month H. unfold monthly_main.
    now rewrite month_out_of_range_fails.
  - intros week H. unfold weekly_main.
    now rewrite week_out_of_range_fails.
Qed.

Lemma invalid_period_fails_before_any_query_witness :
  (13 < 1 \/ 12 < 13)
  /\ monthly_main true SampleStore.empty 2025 13
     = ([], Py.Raise Py.IllegalMonthError)
  /\ (54 < 0 \/ 53 < 54)
  /\ weekly_main true SampleStore.empty 2025 54
     = ([], Py.Raise Py.ValueError).
Proof.
  destruct (invalid_period_fails_before_any_query true SampleStore.empty 2025)
    as [Hm Hw].
  split; [right; lia|]. split; [apply Hm; right; lia|].
  split; [right; lia|]. apply Hw; right; lia.
Defined.

(** C2, as stated, fails: week 0 is outside 1..53 and resolves; the run
    goes on to query the store and comes to display the report. *)
Lemma week_zero_is_accepted :
  get_week_date_range 2025 0 = Py.Ok ("2024-12-30", "2025-01-05")
  /\ exists report,
      weekly_main true SampleStore.empty 2025 0
      = ([EvPathExists; EvConnect;
          EvExecute (QScores "2024-12-30" "2025-01-05");
          EvExecute QPlayers; EvClose],
         Py.Ok (Display report)).
Proof. split; [reflexivity|]. eexists. reflexivity. Qed.

(** ** The exports *)

Lemma dict_set_set {V} (d : Py.dict V) (k : string) (v v' : V) :
  Py.dict_set (Py.dict_set d k v) k v' = Py.dict_set d k v'.
Proof.
  induction d as [|[k0 v0] d IH]; simpl.
  - now rewrite String.eqb_refl.
  - destruct (String.eqb k0 k) eqn:E; simpl; rewrite E; [reflexivity|].
    now rewrite IH.
Qed.

Lemma fwrite_set_file (w : Exporter.World) (path text more : string) :
  Exporter.fwrite (ExporterSpec.set_file w path text) path more
  = ExporterSpec.set_file w path (String.append text more).
Proof.
  unfold Exporter.fwrite, ExporterSpec.set_file. simpl.
  unfold Py.get_default. rewrite dict_get_set_eq, dict_set_set. reflexivity.
Qed.

Lemma dict_to_list_ok (fieldnames : list string) (r : Exporter.record) :
  (forall k, In k (Py.keys r) -> In k fieldnames) ->
  Exporter.dict_to_list fieldnames r
  = Py.Ok (ExporterSpec.row_of fieldnames r).
Proof.
  intros H. unfold Exporter.dict_to_list.
  assert (E : existsb (fun k => negb (existsb (String.eqb k) fieldnames))
                (Py.keys r) = false).
  { induction (Py.keys r) as [|k ks IH]; [reflexivity|].
    simpl. assert (Hk : existsb (String.eqb k) fieldnames = true).
    { apply existsb_eqb_In, H. now left. }
    rewrite Hk. simpl. apply IH. intros k' Hk'. apply H. now right. }
  rewrite E. reflexivity.
Qed.

Lemma append_empty (s : string) : String.append s "" = s.
Proof. induction s as [|c s IH]; simpl; [reflexivity|]. now rewrite IH. Qed.

Lemma writerows_ok (fieldnames : list string) (rows : list Exporter.record)
  (path text : string) (w : Exporter.World) :
  (forall r k, In r rows -> In k (Py.keys r) -> In k fieldnames) ->
  Exporter.writerows fieldnames rows path (ExporterSpec.set_file w path text)
  = (ExporterSpec.set_file w path
       (String.append text (ExporterSpec.csv_rows fieldnames rows)),
     Py.Ok tt).
Proof.
  revert text. induction rows as [|r rows IH]; intros text H; simpl.
  - now rewrite append_empty.
  - rewrite dict_to_list_ok by (intros k; apply H; now left).
    rewrite fwrite_set_file, IH by (intros r' k Hr; apply H; now right).
    now rewrite append_assoc.
Qed.

(** C8, as the code has it.  The CSV export of no records writes no file,
    says so on the console and returns; the JSON export of no records
    writes the two characters of an empty array; the CSV export of
    records whose keys all occur among the keys of the first one writes
    the header made of these keys and then one line per record. *)
Theorem export_of_records (path : string) (w : Exporter.World) :
  (exists w',
      Exporter.write_csv [] path w = (w', Py.Ok tt)
      /\ Exporter.files w' = Exporter.files w
      /\ Exporter.stdout w' = Exporter.stdout w ++ ["No records to export"])
  /\ Exporter.write_json [] path w
     = (ExporterSpec.set_file w path "[]", Py.Ok tt)
  /\ forall first rest,
      (forall r k, In r rest -> In k (Py.keys r) -> In k (Py.keys first)) ->
      Exporter.write_csv (first :: rest) path w
      = (ExporterSpec.set_file w path (ExporterSpec.csv_file first rest),
         Py.Ok tt).
Proof.
  split; [|split].
  - eexists. split; [reflexivity|]. split; reflexivity.
  - unfold Exporter.write_json.
    change (Exporter.open_w w path) with (ExporterSpec.set_file w path "").
    now rewrite fwrite_set_file.
  - intros first rest H. unfold Exporter.write_csv.
    change (Exporter.open_w w path) with (ExporterSpec.set_file w path "").
    rewrite fwrite_set_file. cbn [String.append].
    rewrite writerows_ok; [reflexivity|].
    intros r k [<-|Hr] Hk; [assumption|]. now apply (H r).
Qed.

Lemma export_of_records_witness :
  (forall r k,
      In r (tl ExporterSpec.uniform_records) -> In k (Py.keys r) ->
      In k (Py.keys (hd [] ExporterSpec.uniform_records)))
  /\ Exporter.write_csv ExporterSpec.uniform_records "out.csv"
       ExporterSpec.no_files
     = (ExporterSpec.set_file ExporterSpec.no_files "out.csv"
          (ExporterSpec.csv_file (hd [] ExporterSpec.uniform_records)
             (tl ExporterSpec.uniform_records)),
        Py.Ok tt).
Proof.
  assert (H : forall r k,
             In r (tl ExporterSpec.uniform_records) -> In k (Py.keys r) ->
             In k (Py.keys (hd [] ExporterSpec.uniform_records))).
  { simpl. intros r k [<-|[]] Hk. exact Hk. }
  split; [exact H|].
  destruct (export_of_records "out.csv" ExporterSpec.no_files)
    as (_ & _ & Hcsv).
  exact (Hcsv _ _ H).
Defined.

(** C8, as stated, fails for a later record with a key that the first
    record lacks: the header and the first line are written, then the
    export raises and the second record has no line. *)
Lemma csv_export_rejects_new_keys :
  exists w',
    Exporter.write_csv ExporterSpec.mixed_records "out.csv"
      ExporterSpec.no_files
    = (w', Py.Raise Py.ValueError)
    /\ Py.dict_get (Exporter.files w') "out.csv"
       = Some (String "a" (String Exporter.CR (String Exporter.LF
                 (String "1" (String Exporter.CR (String Exporter.LF ""))))))
    /\ Py.dict_get (Exporter.files w') "out.csv"
       <> Some (ExporterSpec.csv_file (hd [] ExporterSpec.mixed_records)
                  (tl ExporterSpec.mixed_records)).
Proof.
  eexists. split; [reflexivity|]. split; [reflexivity|]. discriminate.
Qed.

(** ** Ordinals and dates *)

(** The days before the first year of a cycle position: [q400] cycles of
    400 years, then [q100] centuries, [q4] groups of four years and [q1]
    years. *)
Lemma days_before_year_cycles (q400 q100 q4 q1 : Z) :
  0 <= q100 <= 3 -> 0 <= q4 <= 24 -> 0 <= q1 <= 3 ->
  Calendar.days_before_year (400 * q400 + 100 * q100 + 4 * q4 + q1 + 1)
  = 146097 * q400 + 36524 * q100 + 1461 * q4 + 365 * q1.
Proof.
  intros H100 H4 H1. unfold Calendar.days_before_year. cbv zeta.
  replace (400 * q400 + 100 * q100 + 4 * q4 + q1 + 1 - 1)
    with (400 * q400 + 100 * q100 + 4 * q4 + q1) by lia.
  Z.div_mod_to_equations. lia.
Qed.

Lemma isleap_cycles (q400 q100 q4 q1 : Z) :
  0 <= q100 <= 3 -> 0 <= q4 <= 24 -> 0 <= q1 <= 3 ->
  Calendar.isleap (400 * q400 + 100 * q100 + 4 * q4 + q1 + 1)
  = (q1 =? 3) && (negb (q4 =? 24) || (q100 =? 3)).
Proof.
  intros H100 H4 H1. unfold Calendar.isleap.
  set (y := 400 * q400 + 100 * q100 + 4 * q4 + q1 + 1).
  destruct (Z.eqb_spec (y mod 4) 0); destruct (Z.eqb_spec (y mod 100) 0);
    destruct (Z.eqb_spec (y mod 400) 0); destruct (Z.eqb_spec q1 3);
    destruct (Z.eqb_spec q4 24); destruct (Z.eqb_spec q100 3);
    try reflexivity; exfalso; subst y; Z.div_mod_to_equations; lia.
Qed.

Ltac eval_closed t :=
  let v := eval vm_compute in t in change t with v.

(** Evaluates the table look-ups and the tests on numerals. *)
Ltac look_up :=
  repeat match goal with
    | |- context [Z.sub (Z.pos ?a) (Z.pos ?b)] =>
        eval_closed (Z.sub (Z.pos a) (Z.pos b))
    | |- context [Calendar.index ?l (Z.pos ?p)] =>
        eval_closed (Calendar.index l (Z.pos p))
    | |- context [Z.gtb (Z.pos ?a) (Z.pos ?b)] =>
        eval_closed (Z.gtb (Z.pos a) (Z.pos b))
    | |- context [Z.eqb (Z.pos ?a) (Z.pos ?b)] =>
        eval_closed (Z.eqb (Z.pos a) (Z.pos b))
    end;
  cbn [andb orb negb Calendar.year Calendar.month Calendar.day].

Ltac date_ordinal Hdby Hleap :=
  unfold Calendar.toordinal, Calendar.ymd2ord, Calendar.days_before_month;
  look_up; rewrite Hdby, Hleap; look_up; lia.

(** The date of an ordinal has this ordinal: [date.fromordinal] and
    [date.toordinal] are inverse of one another. *)
Lemma toordinal_ord2ymd (n : Z) :
  Calendar.toordinal (Calendar.ord2ymd n) = n.
Proof.
  unfold Calendar.ord2ymd. cbv zeta.
  pose proof (Z.div_mod (n - 1) 146097 ltac:(lia)) as E400.
  pose proof (Z.mod_pos_bound (n - 1) 146097 ltac:(lia)) as B400.
  remember ((n - 1) mod 146097) as r400 eqn:Er400.
  remember ((n - 1) / 146097) as q400 eqn:Eq400.
  pose proof (Z.div_mod r400 36524 ltac:(lia)) as E100.
  pose proof (Z.mod_pos_bound r400 36524 ltac:(lia)) as B100.
  remember (r400 mod 36524) as r100 eqn:Er100.
  remember (r400 / 36524) as q100 eqn:Eq100.
  pose proof (Z.div_mod r100 1461 ltac:(lia)) as E4.
  pose proof (Z.mod_pos_bound r100 1461 ltac:(lia)) as B4.
  remember (r100 mod 1461) as r4 eqn:Er4.
  remember (r100 / 1461) as q4 eqn:Eq4.
  pose proof (Z.div_mod r4 365 ltac:(lia)) as E1.
  pose proof (Z.mod_pos_bound r4 365 ltac:(lia)) as B1.
  remember (r4 mod 365) as r1 eqn:Er1.
  remember (r4 / 365) as q1 eqn:Eq1.
  clear Er400 Eq400 Er100 Eq100 Er4 Eq4 Er1 Eq1.
  assert (H100 : 0 <= q100 <= 4) by lia.
  assert (H4 : 0 <= q4 <= 24) by lia.
  assert (H1 : 0 <= q1 <= 4) by lia.
  destruct (Z.eqb_spec q1 4) as [Q1|Q1];
    [|destruct (Z.eqb_spec q100 4) as [Q100|Q100]]; cbn [orb].
  - (* the last day of a leap year *)
    assert (Hq4 : q4 <= 23) by lia.
    assert (Hq100 : 0 <= q100 <= 3) by lia.
    replace (q400 * 400 + 1 + q100 * 100 + q4 * 4 + q1 - 1)
      with (400 * q400 + 100 * q100 + 4 * q4 + 3 + 1) by lia.
    set (y := 400 * q400 + 100 * q100 + 4 * q4 + 3 + 1).
    assert (Hleap : Calendar.isleap y = true).
    { unfold y. rewrite isleap_cycles by lia.
      destruct (Z.eqb_spec q4 24); [lia|reflexivity]. }
    assert (Hdby : Calendar.days_before_year y = n - 1 - 365).
    { unfold y. rewrite days_before_year_cycles by lia. lia. }
    clearbody y. date_ordinal Hdby Hleap.
  - (* the last day of a cycle of 400 years *)
    replace (q400 * 400 + 1 + q100 * 100 + q4 * 4 + q1 - 1)
      with (400 * q400 + 100 * 3 + 4 * 24 + 3 + 1) by lia.
    set (y := 400 * q400 + 100 * 3 + 4 * 24 + 3 + 1).
    assert (Hleap : Calendar.isleap y = true).
    { unfold y. rewrite isleap_cycles by lia. reflexivity. }
    assert (Hdby : Calendar.days_before_year y = n - 1 - 365).
    { unfold y. rewrite days_before_year_cycles by lia. lia. }
    clearbody y. date_ordinal Hdby Hleap.
  - replace (q400 * 400 + 1 + q100 * 100 + q4 * 4 + q1)
      with (400 * q400 + 100 * q100 + 4 * q4 + q1 + 1) by lia.
    set (y := 400 * q400 + 100 * q100 + 4 * q4 + q1 + 1).
    set (leap := (q1 =? 3) && (negb (q4 =? 24) || (q100 =? 3))).
    assert (Hleap : Calendar.isleap y = leap)
      by (apply isleap_cycles; lia).
    assert (Hdby : Calendar.days_before_year y = n - 1 - r1).
    { unfold y. rewrite days_before_year_cycles by lia. lia. }
    rewrite Z.shiftr_div_pow2 by lia.
    change (2 ^ 5) with 32.
    assert (Hm : 1 <= (r1 + 50) / 32 <= 12)
      by (Z.div_mod_to_equations; lia).
    remember ((r1 + 50) / 32) as m eqn:Em. clear Em.
    assert (Cm : m = 1 \/ m = 2 \/ m = 3 \/ m = 4 \/ m = 5 \/ m = 6
                 \/ m = 7 \/ m = 8 \/ m = 9 \/ m = 10 \/ m = 11 \/ m = 12)
      by lia.
    clearbody y leap.
    repeat (destruct Cm as [->|Cm];
            [look_up; destruct leap; look_up;
             match goal with
             | |- context [?a >? ?b] => destruct (Z.gtb_spec a b)
             end;
             date_ordinal Hdby Hleap|]).
    subst m. look_up. destruct leap; look_up;
      match goal with
      | |- context [?a >? ?b] => destruct (Z.gtb_spec a b)
      end;
      date_ordinal Hdby Hleap.
Qed.

(** ** The week window in general *)

Lemma digit_val_digit_char (d : Z) :
  0 <= d <= 9 -> Text.digit_val (Text.digit_char d) = d.
Proof.
  intros H.
  assert (E : d = 0 \/ d = 1 \/ d = 2 \/ d = 3 \/ d = 4 \/ d = 5 \/ d = 6
              \/ d = 7 \/ d = 8 \/ d = 9) by lia.
  repeat (destruct E as [->|E]; [reflexivity|]). now subst.
Qed.

Lemma re_digit_digit_char (d : Z) (r : string) :
  0 <= d <= 9 ->
  Calendar.re_digit (String (Text.digit_char d) r) = Some (d, r).
Proof.
  intros H. rewrite re_digit_digit by now apply is_digit_digit_char.
  now rewrite digit_val_digit_char.
Qed.

(** The numeral of a number of four digits. *)
Lemma str_nat_four (y : Z) :
  1000 <= y <= 9999 ->
  Text.str_nat y
  = String (Text.digit_char (y / 1000))
      (String (Text.digit_char (y / 100 mod 10))
         (String (Text.digit_char (y / 10 mod 10))
            (String (Text.digit_char (y mod 10)) ""))).
Proof.
  intros H.
  assert (H1 : 100 <= y / 10 <= 999) by (Z.div_mod_to_equations; lia).
  assert (H2 : 10 <= y / 10 / 10 <= 99) by (Z.div_mod_to_equations; lia).
  assert (H3 : 1 <= y / 10 / 10 / 10 <= 9) by (Z.div_mod_to_equations; lia).
  rewrite (str_nat_unfold y) by lia.
  destruct (Z.ltb_spec y 10); [lia|].
  rewrite (str_nat_unfold (y / 10)) by lia.
  destruct (Z.ltb_spec (y / 10) 10); [lia|].
  rewrite (str_nat_unfold (y / 10 / 10)) by lia.
  destruct (Z.ltb_spec (y / 10 / 10) 10); [lia|].
  rewrite (str_nat_unfold (y / 10 / 10 / 10)) by lia.
  destruct (Z.ltb_spec (y / 10 / 10 / 10) 10); [|lia].
  cbn [String.append].
  replace (y / 10 / 10 / 10) with (y / 1000)
    by (rewrite !Z.div_div by lia; reflexivity).
  replace (y / 10 / 10) with (y / 100)
    by (rewrite !Z.div_div by lia; reflexivity).
  reflexivity.
Qed.

Lemma week_text_is_read (w : Z) :
  0 <= w <= 53 -> Numeral.week_is_read w = true.
Proof.
  intros H. apply (forallb_range Numeral.week_is_read 0 54);
    [vm_compute; reflexivity|lia].
Qed.

(** The text that [get_week_date_range] builds is read back as the year,
    the week and day 1. *)
Lemma match_week_text (y w : Z) :
  1000 <= y <= 9999 -> 0 <= w <= 53 ->
  Calendar.match_Y_W_w
    (String.append (Text.str_int y)
       (String.append "-W" (String.append (Text.format_02d w) "-1")))
  = Py.Ok (y, w, 1).
Proof.
  intros Hy Hw. unfold Text.str_int.
  destruct (Z.ltb_spec y 0); [lia|].
  rewrite str_nat_four by assumption. cbn [String.append].
  unfold Calendar.match_Y_W_w, Calendar.re_Y.
  rewrite !re_digit_digit_char by (Z.div_mod_to_equations; lia).
  cbn [Calendar.re_lit Calendar.re_letter_W Ascii.eqb Bool.eqb orb].
  pose proof (week_text_is_read w Hw) as R. unfold Numeral.week_is_read in R.
  destruct (Calendar.first_match _) as [[[W d] [|c s]]|]; try discriminate.
  apply andb_prop in R. destruct R as [R1 R2].
  apply Z.eqb_eq in R1, R2. subst. f_equal. f_equal. f_equal.
  Z.div_mod_to_equations. lia.
Qed.

Lemma make_date_jan1 (y : Z) :
  1 <= y <= 9999 ->
  Calendar.make_date y 1 1
  = Py.Ok {| Calendar.year := y; Calendar.month := 1; Calendar.day := 1 |}.
Proof.
  intros H. unfold Calendar.make_date, Calendar.MINYEAR, Calendar.MAXYEAR.
  destruct (Z.leb_spec 1 y); [|lia]. destruct (Z.leb_spec y 9999); [|lia].
  reflexivity.
Qed.

Lemma days_before_year_bounds (y : Z) :
  1000 <= y <= 9998 -> 364877 <= Calendar.days_before_year y <= 3651329.
Proof.
  intros H. unfold Calendar.days_before_year. cbv zeta.
  Z.div_mod_to_equations. lia.
Qed.

Lemma ymd2ord_jan1 (y : Z) :
  Calendar.ymd2ord y 1 1 = Calendar.days_before_year y + 1.
Proof.
  unfold Calendar.ymd2ord, Calendar.days_before_month. look_up. lia.
Qed.

(** For a year of four digits and a week in 1..53 the week window is the
    week of seven days that starts on the Monday of [%W] week [week]:
    the Monday of the ISO week of that number when the year starts on a
    Monday, Friday, Saturday or Sunday, the Monday after it when the year
    starts on a Tuesday, Wednesday or Thursday. *)
Lemma week_window_in_general (year week : Z) :
  1000 <= year <= 9998 -> 1 <= week <= 53 ->
  let first_weekday := (Calendar.ymd2ord year 1 1 + 6) mod 7 in
  let monday :=
    Spec.iso_week_monday year week
    + (if (1 <=? first_weekday) && (first_weekday <=? 3) then 7 else 0) in
  get_week_date_range year week
  = Py.Ok (Calendar.strftime_Ymd (Calendar.ord2ymd monday),
           Calendar.strftime_Ymd (Calendar.ord2ymd (monday + 6))).
Proof.
  intros Hy Hw. cbv zeta.
  rewrite <- (W_week_monday_vs_iso year week) by lia. cbv zeta.
  set (fw := (Calendar.ymd2ord year 1 1 + 6) mod 7).
  set (julian := Calendar.calc_julian_from_W fw week 0).
  assert (Hfw : 0 <= fw < 7) by (apply Z.mod_pos_bound; lia).
  assert (Hj : 1 <= julian <= 371).
  { unfold julian, Calendar.calc_julian_from_W.
    destruct (Z.eqb_spec week 0); [lia|].
    pose proof (Z.mod_pos_bound (7 - fw) 7 ltac:(lia)). lia. }
  unfold get_week_date_range, Calendar.strptime_Y_W_w.
  rewrite match_week_text by lia. cbn [Py.bind].
  change (1 =? 0) with false. cbv iota. change (1 - 1) with 0.
  rewrite make_date_jan1 by lia. cbn [Py.bind].
  unfold Calendar.weekday, Calendar.toordinal.
  cbn [Calendar.year Calendar.month Calendar.day].
  fold fw. fold julian.
  destruct (Z.leb_spec julian 0); [lia|].
  rewrite make_date_jan1 by lia. cbn [Py.bind].
  cbn [Calendar.year Calendar.month Calendar.day].
  pose proof (days_before_year_bounds year Hy) as Hb.
  pose proof (ymd2ord_jan1 year) as Hj1.
  unfold Calendar.fromordinal, Calendar.MAXORDINAL.
  destruct (Z.leb_spec 1 (julian - 1 + Calendar.ymd2ord year 1 1)); [|lia].
  destruct (Z.leb_spec (julian - 1 + Calendar.ymd2ord year 1 1) 3652059);
    [|lia].
  cbn [andb Py.bind]. unfold Calendar.add_days, Calendar.MAXORDINAL.
  rewrite toordinal_ord2ymd.
  destruct (Z.ltb_spec 0 (julian - 1 + Calendar.ymd2ord year 1 1 + 6)); [|lia].
  destruct (Z.leb_spec (julian - 1 + Calendar.ymd2ord year 1 1 + 6) 3652059);
    [|lia].
  reflexivity.
Qed.

(** * Further properties of the aggregation *)

(** ** The players of a window *)

Lemma in_players (rows : list Row) (pid : string) :
  In pid (Spec.players rows) <-> exists r, In r rows /\ playfab_id r = pid.
Proof.
  unfold Spec.players. rewrite in_first_occurrences, in_map_iff.
  split; intros [r [H1 H2]]; exists r; tauto.
Qed.

(** X1.  The number of unique players of the monthly and of the weekly
    report is the number of distinct player ids among the rows. *)
Theorem unique_players_are_the_distinct_ids (rows : list Row)
  (players : list (string * string)) (total_days : Z)
  (start_date end_date : string) :
  exists monthly weekly ids,
    Monthly.build_report rows players total_days start_date end_date
    = Py.Ok monthly
    /\ Weekly.build_report rows players start_date end_date = Py.Ok weekly
    /\ NoDup ids
    /\ (forall pid, In pid ids <-> exists r, In r rows /\ playfab_id r = pid)
    /\ Monthly.total_unique_players (Monthly.participation_stats monthly)
       = Py.len ids
    /\ Weekly.total_unique_players weekly = Py.len ids.
Proof.
  rewrite monthly_build_report_ok, weekly_build_report_ok.
  eexists. eexists. exists (Spec.players rows).
  split; [reflexivity|]. split; [reflexivity|].
  split; [apply NoDup_first_occurrences|].
  split; [apply in_players|]. split; reflexivity.
Qed.

(** ** The head of a sorted list *)

Lemma filter_head_split {A} (q : A -> bool) (l : list A) (x : A) (t : list A) :
  filter q l = x :: t ->
  exists before after,
    l = before ++ x :: after /\ forall y, In y before -> q y = false.
Proof.
  induction l as [|a l IH]; simpl; [discriminate|].
  destruct (q a) eqn:E.
  - intros H. injection H as -> _. exists [], l. split; [reflexivity|].
    intros y [].
  - intros H. destruct (IH H) as (before & after & -> & Hb).
    exists (a :: before), after. split; [reflexivity|].
    intros y [<-|Hy]; auto.
Qed.

(** The first element of [sorted(l, key, reverse=True)] has the greatest
    key and is, among the elements with this key, the first one of [l]. *)
Lemma sorted_desc_head {A} (key : A -> Z) (l : list A) (x : A)
  (rest : list A) :
  Py.sorted_desc key Z.ltb l = x :: rest ->
  (forall y, In y l -> key y <= key x)
  /\ exists before after,
      l = before ++ x :: after /\ forall y, In y before -> key y < key x.
Proof.
  intros E. destruct (sorted_desc_stable_sort key l) as (HP & HS & HK).
  rewrite E in HP, HS, HK.
  assert (Hmax : forall y, In y l -> key y <= key x).
  { intros y Hy. apply (Permutation_in _ HP) in Hy.
    destruct Hy as [<-|Hy]; [lia|].
    apply StronglySorted_inv in HS. destruct HS as [_ HF].
    rewrite Forall_forall in HF. specialize (HF y Hy).
    apply Z.ltb_ge in HF. exact HF. }
  split; [exact Hmax|].
  specialize (HK (key x)). simpl in HK. rewrite Z.eqb_refl in HK.
  symmetry in HK.
  destruct (filter_head_split _ _ _ _ HK) as (before & after & -> & Hb).
  exists before, after. split; [reflexivity|].
  intros y Hy. specialize (Hb y Hy). apply Z.eqb_neq in Hb.
  assert (key y <= key x) by (apply Hmax, in_or_app; now left). lia.
Qed.

Lemma count_nonneg (p : Row -> bool) (pid : string) (rows : list Row) :
  0 <= Spec.count p pid rows.
Proof. unfold Spec.count, Py.len. lia. Qed.

Lemma tally_nil_iff (p : Row -> bool) (rows : list Row) :
  Spec.tally p rows = [] <-> forall r, In r rows -> p r = false.
Proof.
  unfold Spec.tally. split.
  - intros H r Hr. destruct (p r) eqn:E; [|reflexivity].
    apply map_eq_nil in H.
    assert (Hin : In (playfab_id r) (Spec.players (filter p rows))).
    { apply in_players. exists r. split; [|reflexivity].
      apply filter_In. now split. }
    rewrite H in Hin. contradiction.
  - intros H. replace (filter p rows) with (@nil Row); [reflexivity|].
    symmetry. induction rows as [|r rows IH]; [reflexivity|].
    simpl. rewrite (H r) by now left. apply IH.
    intros r' Hr'. apply H. now right.
Qed.

(** The head of the tally of [p] sorted by count: its player has the
    greatest count, and every player who scored for [p] earlier has a
    strictly smaller one. *)
Lemma best_of_tally (p : Row -> bool) (rows : list Row) (first : string * Z)
  (rest : list (string * Z)) :
  Py.sorted_desc (@snd string Z) Z.ltb (Spec.tally p rows) = first :: rest ->
  snd first = Spec.count p (fst first) rows
  /\ 1 <= snd first
  /\ (forall pid, Spec.count p pid rows <= snd first)
  /\ exists before after,
      Spec.players (filter p rows) = before ++ fst first :: after
      /\ forall pid, In pid before -> Spec.count p pid rows < snd first.
Proof.
  intros E. destruct (sorted_desc_head _ _ _ _ E) as (Hmax & before & after & Hl & Hb).
  assert (Hin : In first (Spec.tally p rows)).
  { rewrite Hl. apply in_or_app. right. now left. }
  destruct first as [pid c]. apply tally_spec in Hin. destruct Hin as [-> Hc].
  cbn [fst snd] in *.
  split; [reflexivity|]. split; [exact Hc|]. split.
  - intros pid'. destruct (Z_lt_le_dec (Spec.count p pid' rows) 1) as [Hlt|Hge].
    + lia.
    + assert (Hin' : In (pid', Spec.count p pid' rows) (Spec.tally p rows))
        by (apply tally_spec; split; [reflexivity|assumption]).
      apply (Hmax _ Hin').
  - unfold Spec.tally in Hl.
    apply map_eq_app in Hl. destruct Hl as (ps1 & ps2 & Hps & H1 & H2).
    destruct ps2 as [|q ps2]; [discriminate|].
    simpl in H2. injection H2 as Hq _ _. subst q.
    exists ps1, ps2. split; [exact Hps|].
    intros pid' Hpid'. apply (Hb (pid', Spec.count p pid' rows)).
    rewrite <- H1. apply in_map_iff. now exists pid'.
Qed.

(** X2.  The champion exists exactly when some row has position 0.  It is
    the first entry of the top champions; its count is its player's
    number of first places, which no player exceeds, and every player
    whose first first place came earlier in the rows has strictly fewer:
    among the players with the most first places the champion is the one
    who got there first. *)
Theorem champion_has_most_first_places (rows : list Row)
  (players : list (string * string)) (total_days : Z)
  (start_date end_date : string) :
  exists r,
    Monthly.build_report rows players total_days start_date end_date
    = Py.Ok r
    /\ (Monthly.monthly_champion r = None
        <-> forall row, In row rows -> position row <> 0)
    /\ forall c,
        Monthly.monthly_champion r = Some c ->
        hd_error (Monthly.top_champions r) = Some c
        /\ Monthly.ch_first_place_count c
           = Spec.count Spec.is_first (Monthly.ch_playfab_id c) rows
        /\ 1 <= Monthly.ch_first_place_count c
        /\ (forall pid,
               Spec.count Spec.is_first pid rows
               <= Monthly.ch_first_place_count c)
        /\ exists before after,
            Spec.players (filter Spec.is_first rows)
            = before ++ Monthly.ch_playfab_id c :: after
            /\ forall pid, In pid before ->
                 Spec.count Spec.is_first pid rows
                 < Monthly.ch_first_place_count c.
Proof.
  rewrite monthly_build_report_ok. eexists. split; [reflexivity|].
  unfold MonthlySpec.report.
  cbn [Monthly.monthly_champion Monthly.top_champions].
  destruct (Py.sorted_desc (@snd string Z) Z.ltb
              (Spec.tally Spec.is_first rows)) as [|first rest] eqn:E.
  - split; [|discriminate]. split; [|reflexivity]. intros _.
    apply sorted_desc_nil_iff in E.
    pose proof (proj1 (tally_nil_iff _ _) E) as H.
    intros row Hrow Hp. specialize (H row Hrow).
    unfold Spec.is_first in H. apply Z.eqb_neq in H. contradiction.
  - split.
    + split; [discriminate|]. intros H. exfalso.
      assert (Hn : Spec.tally Spec.is_first rows = []).
      { apply tally_nil_iff. intros r Hr. apply Z.eqb_neq. now apply H. }
      rewrite Hn in E. discriminate.
    + intros c Hc. injection Hc as <-.
      split; [reflexivity|]. cbn [Monthly.ch_first_place_count
        Monthly.ch_playfab_id MonthlySpec.champion_of].
      exact (best_of_tally _ _ _ _ E).
Qed.

(** X3.  The weekly champion likewise: present exactly when some row has
    position 0, first entry of the top first places, with the greatest
    number of first places and, among equals, the earliest first place. *)
Theorem weekly_champion_has_most_first_places (rows : list Row)
  (players : list (string * string)) (start_date end_date : string) :
  exists r,
    Weekly.build_report rows players start_date end_date = Py.Ok r
    /\ (Weekly.weekly_champion r = None
        <-> forall row, In row rows -> position row <> 0)
    /\ forall c,
        Weekly.weekly_champion r = Some c ->
        option_map Weekly.cn_playfab_id (hd_error (Weekly.top_first_places r))
        = Some (Weekly.ch_playfab_id c)
        /\ Weekly.ch_first_place_count c
           = Spec.count Spec.is_first (Weekly.ch_playfab_id c) rows
        /\ (forall pid,
               Spec.count Spec.is_first pid rows
               <= Weekly.ch_first_place_count c)
        /\ exists before after,
            Spec.players (filter Spec.is_first rows)
            = before ++ Weekly.ch_playfab_id c :: after
            /\ forall pid, In pid before ->
                 Spec.count Spec.is_first pid rows
                 < Weekly.ch_first_place_count c.
Proof.
  rewrite weekly_build_report_ok. eexists. split; [reflexivity|].
  unfold WeeklySpec.report.
  cbn [Weekly.weekly_champion Weekly.top_first_places].
  destruct (Py.sorted_desc (@snd string Z) Z.ltb
              (Spec.tally Spec.is_first rows)) as [|first rest] eqn:E.
  - split; [|discriminate]. split; [|reflexivity]. intros _.
    apply sorted_desc_nil_iff in E.
    pose proof (proj1 (tally_nil_iff _ _) E) as H.
    intros row Hrow Hp. specialize (H row Hrow).
    unfold Spec.is_first in H. apply Z.eqb_neq in H. contradiction.
  - split.
    + split; [discriminate|]. intros H. exfalso.
      assert (Hn : Spec.tally Spec.is_first rows = []).
      { apply tally_nil_iff. intros r Hr. apply Z.eqb_neq. now apply H. }
      rewrite Hn in E. discriminate.
    + intros c Hc. injection Hc as <-.
      split; [reflexivity|].
      cbn [Weekly.ch_first_place_count Weekly.ch_playfab_id].
      destruct (best_of_tally _ _ _ _ E) as (H1 & _ & H3 & H4).
      split; [exact H1|]. split; [exact H3|exact H4].
Qed.

(** ** The winners of the days *)

Lemma weekly_fold_winners (rows : list Row) (acc : Weekly.Acc) :
  Weekly.daily_winners (fold_left Weekly.step rows acc)
  = fold_left
      (fun d r =>
         if Spec.is_first r
         then Py.dict_set d (stat_date r) (Daily.winner_of r) else d)
      rows (Weekly.daily_winners acc).
Proof.
  revert acc. induction rows as [|r rows IH]; intros acc; simpl;
    [reflexivity|apply IH].
Qed.

Lemma last_opt_snoc {A} (l : list A) (x : A) :
  Daily.last_opt (l ++ [x]) = Some x.
Proof.
  induction l as [|a l IH]; [reflexivity|].
  simpl. destruct (l ++ [x]) eqn:E; [|exact IH].
  destruct l; discriminate.
Qed.

Lemma last_opt_none {A} (l : list A) : Daily.last_opt l = None <-> l = [].
Proof.
  split; [|now intros ->].
  induction l as [|a l IH]; [reflexivity|].
  simpl. destruct l; [discriminate|]. intros H. apply IH in H. discriminate.
Qed.

Lemma filter_filter {A} (p q : A -> bool) (l : list A) :
  filter q (filter p l) = filter (fun x => p x && q x) l.
Proof.
  induction l as [|x l IH]; simpl; [reflexivity|].
  destruct (p x); simpl; [destruct (q x)|]; now rewrite IH.
Qed.

Lemma daily_winners_eq (rows : list Row) :
  Weekly.daily_winners (Weekly.accumulate rows)
  = Table.grouped stat_date Daily.last_winner (filter Spec.is_first rows).
Proof.
  unfold Weekly.accumulate. rewrite weekly_fold_winners. simpl.
  rewrite (fold_left_filter
             (fun d r => Py.dict_set d (stat_date r) (Daily.winner_of r))).
  apply (fold_grouped stat_date (fun _ r => Daily.winner_of r)
           Daily.last_winner).
  - reflexivity.
  - intros l r _. unfold Daily.last_winner. now rewrite last_opt_snoc.
Qed.

(** X4.  The daily winner that the weekly report gives for a date is
    taken from the last row, in the order of the input, that has position
    0 on that date; a date without such a row has no entry. *)
Theorem daily_winner_is_the_last_first_place (rows : list Row)
  (players : list (string * string)) (start_date end_date : string) :
  exists r,
    Weekly.build_report rows players start_date end_date = Py.Ok r
    /\ forall d,
        Py.dict_get (Weekly.report_daily_winners r) d
        = option_map Daily.winner_of
            (Daily.last_opt (Daily.first_places_on d rows)).
Proof.
  rewrite weekly_build_report_ok. eexists. split; [reflexivity|].
  intros d. unfold WeeklySpec.report. cbn [Weekly.report_daily_winners].
  rewrite daily_winners_eq. unfold Table.grouped.
  rewrite dict_get_tabulate.
  assert (G : Table.group_of stat_date d (filter Spec.is_first rows)
              = Daily.first_places_on d rows).
  { unfold Table.group_of, Daily.first_places_on. apply filter_filter. }
  destruct (existsb (String.eqb d) _) eqn:E.
  - apply existsb_eqb_In in E. rewrite in_first_occurrences in E.
    apply (group_of_nonempty stat_date) in E. rewrite G in *.
    unfold Daily.last_winner.
    destruct (Daily.last_opt (Daily.first_places_on d rows)) eqn:L;
      [reflexivity|].
    apply last_opt_none in L. contradiction.
  - apply existsb_eqb_notIn in E. rewrite in_first_occurrences in E.
    apply (group_of_empty stat_date) in E. rewrite G in E. now rewrite E.
Qed.

(** ** The participants of the days *)

Lemma existsb_first_occurrences (x : string) (l : list string) :
  existsb (String.eqb x) (Spec.first_occurrences l)
  = existsb (String.eqb x) l.
Proof.
  destruct (existsb (String.eqb x) l) eqn:E.
  - apply existsb_eqb_In, in_first_occurrences, existsb_eqb_In. exact E.
  - apply existsb_eqb_notIn. rewrite in_first_occurrences.
    now apply existsb_eqb_notIn.
Qed.

Lemma set_add_first_occurrences (l : list string) (x : string) :
  Py.set_add (Spec.first_occurrences l) x = Spec.first_occurrences (l ++ [x]).
Proof.
  unfold Py.set_add.
  now rewrite first_occurrences_snoc, existsb_first_occurrences.
Qed.

Lemma monthly_fold_participants (rows : list Row) (acc : Monthly.Acc) :
  Monthly.daily_participants (fold_left Monthly.step rows acc)
  = fold_left
      (fun d r => Py.add_to d (stat_date r) (playfab_id r))
      rows (Monthly.daily_participants acc).
Proof.
  revert acc. induction rows as [|r rows IH]; intros acc; simpl;
    [reflexivity|apply IH].
Qed.

Lemma daily_participants_eq (rows : list Row) :
  Monthly.daily_participants (Monthly.accumulate rows)
  = Table.tabulate (fun d => Daily.players_on d rows) (Daily.dates rows).
Proof.
  unfold Monthly.accumulate. rewrite monthly_fold_participants. simpl.
  apply (fold_grouped stat_date
           (fun o r =>
              Py.set_add (match o with Some v => v | None => [] end)
                (playfab_id r))
           (fun l => Spec.first_occurrences (map playfab_id l))).
  - reflexivity.
  - intros l r _. rewrite map_app. simpl.
    symmetry. apply set_add_first_occurrences.
Qed.

(** X5.  The average daily participants of the monthly report is the
    float nearest to the sum, over the distinct dates of the rows, of the
    number of distinct players of the date, divided by the number of
    distinct dates; it is 0 without rows, and within a relative error of
    2^-53 of the quotient otherwise.  The divisor does not depend on
    [total_days_tracked]. *)
Theorem avg_daily_participants_is_the_mean (rows : list Row)
  (players : list (string * string)) (total_days : Z)
  (start_date end_date : string) :
  exists r,
    Monthly.build_report rows players total_days start_date end_date
    = Py.Ok r
    /\ let mean :=
         match rows with
         | [] => 0%Q
         | _ =>
             (inject_Z
                (Py.sum (map (fun d => Py.len (Daily.players_on d rows))
                           (Daily.dates rows)))
              / inject_Z (Py.len (Daily.dates rows)))%Q
         end in
       Monthly.avg_daily_participants (Monthly.participation_stats r)
       = Float.rn mean
       /\ (Qabs (Monthly.avg_daily_participants (Monthly.participation_stats r)
                 - mean)
           <= Qabs mean * 2 ^ (-53))%Q.
Proof.
  rewrite monthly_build_report_ok. eexists. split; [reflexivity|].
  unfold MonthlySpec.report.
  cbn [Monthly.participation_stats Monthly.avg_daily_participants].
  unfold MonthlySpec.avg_daily. rewrite daily_participants_eq.
  rewrite values_tabulate, len_tabulate, map_map. cbv zeta.
  assert (E :
    Float.rn
      (inject_Z
         (Py.sum (map (fun d => Py.len (Daily.players_on d rows))
                    (Daily.dates rows)))
       / inject_Z (Z.max (Py.len (Daily.dates rows)) 1))
    = Float.rn
        match rows with
        | [] => 0%Q
        | _ =>
            (inject_Z
               (Py.sum (map (fun d => Py.len (Daily.players_on d rows))
                          (Daily.dates rows)))
             / inject_Z (Py.len (Daily.dates rows)))%Q
        end).
  { destruct rows as [|r rows]; [reflexivity|].
    assert (H : 1 <= Py.len (Daily.dates (r :: rows))).
    { unfold Daily.dates, Py.len. simpl. lia. }
    now rewrite Z.max_l by lia. }
  rewrite E. split; [reflexivity|]. apply rn_error.
Qed.

(** ** The groups of the rows partition them *)

Section Partition.
Context {R : Type}.
Variable kf : R -> string.

Lemma group_of_cons_same (r : R) (rows : list R) :
  Table.group_of kf (kf r) (r :: rows) = r :: Table.group_of kf (kf r) rows.
Proof. unfold Table.group_of. simpl. now rewrite String.eqb_refl. Qed.

Lemma group_of_cons_other (r : R) (rows : list R) (k : string) :
  kf r <> k -> Table.group_of kf k (r :: rows) = Table.group_of kf k rows.
Proof.
  intros H. unfold Table.group_of. simpl.
  destruct (String.eqb_spec (kf r) k); [contradiction|reflexivity].
Qed.

Lemma concat_groups_skip (g g' : string -> list R) (k : string)
  (ks : list string) :
  (forall k', k' <> k -> g' k' = g k') ->
  List.concat (map g' (filter (fun y => negb (String.eqb k y)) ks))
  = List.concat (map g (filter (fun y => negb (String.eqb k y)) ks)).
Proof.
  intros H. induction ks as [|a ks IH]; [reflexivity|].
  simpl. destruct (String.eqb_spec k a); simpl; [exact IH|].
  rewrite IH, H by congruence. reflexivity.
Qed.

Lemma concat_groups_extract (g : string -> list R) (k : string)
  (ks : list string) :
  NoDup ks -> In k ks ->
  Permutation (List.concat (map g ks))
    (g k ++ List.concat (map g (filter (fun y => negb (String.eqb k y)) ks))).
Proof.
  induction 1 as [|a ks Hna Hnd IH]; [contradiction|].
  intros [->|Hin]; simpl.
  - rewrite String.eqb_refl. simpl.
    replace (filter (fun y => negb (String.eqb k y)) ks) with ks;
      [reflexivity|].
    symmetry. apply forallb_filter_id. apply forallb_forall.
    intros y Hy. destruct (String.eqb_spec k y); [subst; contradiction|].
    reflexivity.
  - destruct (String.eqb_spec k a) as [->|Hne]; [contradiction|].
    simpl. rewrite (IH Hin).
    rewrite !app_assoc. apply Permutation_app_tail, Permutation_app_comm.
Qed.

Lemma forallb_filter_all (k : string) (ks : list string) :
  ~ In k ks -> filter (fun y => negb (String.eqb k y)) ks = ks.
Proof.
  intros H. apply forallb_filter_id. apply forallb_forall.
  intros y Hy. destruct (String.eqb_spec k y); [subst; contradiction|].
  reflexivity.
Qed.

(** The groups of the keys, one after the other in the order of first
    occurrence, are a rearrangement of the rows. *)
Lemma groups_permutation (rows : list R) :
  Permutation
    (List.concat
       (map (fun k => Table.group_of kf k rows)
          (Spec.first_occurrences (map kf rows))))
    rows.
Proof.
  induction rows as [|r rows IH]; [constructor|].
  cbn [map Spec.first_occurrences List.concat].
  rewrite group_of_cons_same. cbn [app]. constructor.
  rewrite (concat_groups_skip (fun k => Table.group_of kf k rows)
             (fun k => Table.group_of kf k (r :: rows)) (kf r))
    by (intros k' Hk'; apply group_of_cons_other; congruence).
  destruct (in_dec string_dec (kf r) (map kf rows)) as [Hin|Hn].
  - apply Permutation_trans with (2 := IH). symmetry.
    apply (concat_groups_extract
             (fun k => Table.group_of kf k rows) (kf r)).
    + apply NoDup_first_occurrences.
    + now apply in_first_occurrences.
  - rewrite group_of_empty by assumption. simpl.
    rewrite forallb_filter_all by (now rewrite in_first_occurrences).
    exact IH.
Qed.
End Partition.

(** ** Sums, maxima and minima *)

Lemma fold_left_add (l : list Z) (a : Z) :
  fold_left Z.add l a = a + Py.sum l.
Proof.
  unfold Py.sum. revert a. induction l as [|x l IH]; intros a; simpl; [lia|].
  rewrite (IH (a + x)), (IH x). lia.
Qed.

Lemma sum_cons (x : Z) (l : list Z) : Py.sum (x :: l) = x + Py.sum l.
Proof. unfold Py.sum at 1. simpl. apply fold_left_add. Qed.

Lemma sum_app (l l' : list Z) : Py.sum (l ++ l') = Py.sum l + Py.sum l'.
Proof.
  induction l as [|x l IH]; [reflexivity|].
  simpl. rewrite !sum_cons, IH. lia.
Qed.

Lemma sum_permutation (l l' : list Z) :
  Permutation l l' -> Py.sum l = Py.sum l'.
Proof.
  induction 1; rewrite ?sum_cons; lia.
Qed.

Lemma len_permutation {A} (l l' : list A) :
  Permutation l l' -> Py.len l = Py.len l'.
Proof. intros H. unfold Py.len. now rewrite (Permutation_length H). Qed.

Lemma len_cons {A} (x : A) (l : list A) : Py.len (x :: l) = 1 + Py.len l.
Proof. unfold Py.len. cbn [List.length]. lia. Qed.

Lemma fold_left_max_spec (l : list Z) (a : Z) :
  (fold_left Z.max l a = a \/ In (fold_left Z.max l a) l)
  /\ a <= fold_left Z.max l a
  /\ forall x, In x l -> x <= fold_left Z.max l a.
Proof.
  revert a. induction l as [|y l IH]; intros a; simpl.
  - repeat split; [now left|lia|tauto].
  - destruct (IH (Z.max a y)) as (H1 & H2 & H3). repeat split.
    + destruct H1 as [H1|H1]; [|right; now right].
      rewrite H1. destruct (Z.max_spec a y) as [[_ E]|[_ E]]; rewrite E;
        [right; now left|now left].
    + lia.
    + intros x [<-|Hx]; [lia|auto].
Qed.

Lemma fold_left_min_spec (l : list Z) (a : Z) :
  (fold_left Z.min l a = a \/ In (fold_left Z.min l a) l)
  /\ fold_left Z.min l a <= a
  /\ forall x, In x l -> fold_left Z.min l a <= x.
Proof.
  revert a. induction l as [|y l IH]; intros a; simpl.
  - repeat split; [now left|lia|tauto].
  - destruct (IH (Z.min a y)) as (H1 & H2 & H3). repeat split.
    + destruct H1 as [H1|H1]; [|right; now right].
      rewrite H1. destruct (Z.min_spec a y) as [[_ E]|[_ E]]; rewrite E;
        [now left|right; now left].
    + lia.
    + intros x [<-|Hx]; [lia|auto].
Qed.

(** The greatest element of a non-empty list is one of its elements and
    bounds them all. *)
Lemma list_max_spec (l : list Z) :
  l <> [] ->
  In (Spec.list_max l) l /\ forall x, In x l -> x <= Spec.list_max l.
Proof.
  destruct l as [|a l]; [contradiction|]. intros _. simpl.
  destruct (fold_left_max_spec l a) as (H1 & H2 & H3). split.
  - destruct H1 as [->|H1]; [now left|now right].
  - intros x [<-|Hx]; auto.
Qed.

Lemma list_min_spec (l : list Z) :
  l <> [] ->
  In (Spec.list_min l) l /\ forall x, In x l -> Spec.list_min l <= x.
Proof.
  destruct l as [|a l]; [contradiction|]. intros _. simpl.
  destruct (fold_left_min_spec l a) as (H1 & H2 & H3). split.
  - destruct H1 as [->|H1]; [now left|now right].
  - intros x [<-|Hx]; auto.
Qed.

Lemma sum_bounds (l : list Z) (lo hi : Z) :
  (forall x, In x l -> lo <= x <= hi) ->
  Py.len l * lo <= Py.sum l <= Py.len l * hi.
Proof.
  induction l as [|x l IH]; intros H.
  - cbn. lia.
  - rewrite sum_cons, len_cons.
    assert (lo <= x <= hi) by (apply H; now left).
    assert (Py.len l * lo <= Py.sum l <= Py.len l * hi)
      by (apply IH; intros y Hy; apply H; now right).
    lia.
Qed.

Lemma quot_between (s n lo hi : Z) :
  0 < n -> n * lo <= s <= n * hi -> lo <= Z.quot s n <= hi.
Proof.
  intros Hn H. pose proof (Z.quot_rem' s n) as E.
  destruct (Z_lt_le_dec s 0) as [Hs|Hs].
  - pose proof (Z.rem_bound_pos_neg s n Hn ltac:(lia)). nia.
  - pose proof (Z.rem_bound_pos s n Hs Hn). nia.
Qed.

(** ** The score statistics *)

Lemma all_scores_permutation (rows : list Row) :
  Permutation
    (List.concat (map (fun pid => Spec.scores_of pid rows) (Spec.players rows)))
    (map score rows).
Proof.
  unfold Spec.scores_of.
  rewrite <- (map_map (fun pid => Spec.rows_of pid rows) (map score)).
  rewrite <- concat_map. apply Permutation_map.
  apply (groups_permutation playfab_id).
Qed.

(** X6.  The score statistics of the monthly report are absent without
    rows; otherwise they give the number of rows, the greatest and the
    smallest score, and as average the float quotient of the sum of all
    scores by their number, truncated; when the sum is below 2^53 in
    magnitude the rounding of the quotient does not show and the average
    is the integer quotient rounded towards zero. *)
Theorem score_statistics_of_the_rows (rows : list Row)
  (players : list (string * string)) (total_days : Z)
  (start_date end_date : string) :
  exists r,
    Monthly.build_report rows players total_days start_date end_date
    = Py.Ok r
    /\ match rows with
       | [] => Monthly.score_statistics r = None
       | _ =>
           exists st,
             Monthly.score_statistics r = Some st
             /\ Monthly.total_scores_recorded st = Py.len rows
             /\ Monthly.ss_average_score st
                = Py.int_of_float
                    (Float.rn
                       (inject_Z (Py.sum (map score rows))
                        / inject_Z (Py.len rows)))
             /\ (Z.abs (Py.sum (map score rows)) < 2 ^ 53 ->
                 Monthly.ss_average_score st
                 = Z.quot (Py.sum (map score rows)) (Py.len rows))
             /\ In (Monthly.highest_score st) (map score rows)
             /\ In (Monthly.lowest_score st) (map score rows)
             /\ forall x, In x (map score rows) ->
                  Monthly.lowest_score st <= x <= Monthly.highest_score st
       end.
Proof.
  rewrite monthly_build_report_ok. eexists. split; [reflexivity|].
  unfold MonthlySpec.report. cbn [Monthly.score_statistics].
  destruct rows as [|r0 rows0]; [reflexivity|].
  set (rows := r0 :: rows0).
  assert (Hne : rows <> []) by discriminate.
  pose proof (all_scores_permutation rows) as HP.
  pose proof (concat_scores_nonempty rows Hne) as Hall.
  unfold MonthlySpec.score_stats. fold rows.
  set (all := List.concat
                (map (fun pid => Spec.scores_of pid rows) (Spec.players rows)))
    in *.
  change (match rows with [] => None | _ :: _ => ?x end) with x.
  eexists. split; [reflexivity|].
  cbn [Monthly.total_scores_recorded Monthly.ss_average_score
         Monthly.highest_score Monthly.lowest_score].
  destruct (list_max_spec all Hall) as [Hmax1 Hmax2].
  destruct (list_min_spec all Hall) as [Hmin1 Hmin2].
  assert (Hlen : Py.len all = Py.len rows).
  { rewrite (len_permutation _ _ HP). unfold Py.len. now rewrite length_map. }
  assert (Hpos : 0 < Py.len rows) by (unfold Py.len, rows; simpl; lia).
  split; [exact Hlen|]. unfold Spec.mean.
  rewrite (sum_permutation _ _ HP), Hlen.
  split; [reflexivity|]. split.
  - intros Hs. now apply rn_quotient.
  - split; [apply (Permutation_in _ HP), Hmax1|].
    split; [apply (Permutation_in _ HP), Hmin1|].
    intros x Hx. apply (Permutation_in _ (Permutation_sym HP)) in Hx.
    split; auto.
Qed.

(** ** The entries of the consistency ranking *)

Lemma days_played_is_len_scores (pid : string) (rows : list Row) :
  Spec.days_played pid rows = Py.len (Spec.scores_of pid rows).
Proof.
  unfold Spec.days_played, Spec.scores_of, Py.len. now rewrite length_map.
Qed.

Lemma monthly_most_consistent_entry (rows : list Row)
  (players : list (string * string)) (total_days : Z)
  (start_date end_date : string) (c : Monthly.ConsistentEntry) :
  In c (Monthly.most_consistent
          (MonthlySpec.report rows players total_days start_date end_date)) ->
  exists pid,
    In pid (Spec.players rows) /\ 5 <= Spec.days_played pid rows
    /\ c = MonthlySpec.consistent_of (build_player_names players) rows pid.
Proof.
  unfold MonthlySpec.report. cbn [Monthly.most_consistent]. intros H.
  apply In_firstn, in_monthly_consistent in H.
  destruct H as (pid & Hin & ->). apply in_monthly_eligible in Hin.
  exists pid. tauto.
Qed.

(** X7.  Every entry of the monthly consistency ranking counts as days
    played the number of scores of its player, at least five; its maximum
    and minimum are scores of the player that bound all the others; when
    the sum of the scores is below 2^53 in magnitude, its average score
    is the sum divided by their number, rounded towards zero, and lies
    between the two. *)
Theorem consistent_entry_summarises_the_scores (rows : list Row)
  (players : list (string * string)) (total_days : Z)
  (start_date end_date : string) :
  exists r,
    Monthly.build_report rows players total_days start_date end_date
    = Py.Ok r
    /\ forall c, In c (Monthly.most_consistent r) ->
         let l := Spec.scores_of (Monthly.co_playfab_id c) rows in
         Monthly.co_days_played c = Py.len l
         /\ 5 <= Py.len l
         /\ In (Monthly.co_min_score c) l
         /\ In (Monthly.co_max_score c) l
         /\ (forall x, In x l ->
               Monthly.co_min_score c <= x <= Monthly.co_max_score c)
         /\ (Z.abs (Py.sum l) < 2 ^ 53 ->
             Monthly.co_average_score c = Z.quot (Py.sum l) (Py.len l)
             /\ Monthly.co_min_score c <= Monthly.co_average_score c
                <= Monthly.co_max_score c).
Proof.
  rewrite monthly_build_report_ok. eexists. split; [reflexivity|].
  intros c Hc. apply monthly_most_consistent_entry in Hc.
  destruct Hc as (pid & Hin & Hdays & ->). cbv zeta.
  cbn [MonthlySpec.consistent_of Monthly.co_playfab_id Monthly.co_days_played
         Monthly.co_min_score Monthly.co_max_score Monthly.co_average_score].
  set (l := Spec.scores_of pid rows).
  assert (Hne : l <> []) by now apply scores_of_nonempty.
  destruct (list_max_spec l Hne) as [Hmax1 Hmax2].
  destruct (list_min_spec l Hne) as [Hmin1 Hmin2].
  assert (Hlen : Spec.days_played pid rows = Py.len l)
    by apply days_played_is_len_scores.
  split; [exact Hlen|]. split; [lia|].
  split; [exact Hmin1|]. split; [exact Hmax1|].
  split; [intros x Hx; split; auto|].
  intros Hs. unfold Spec.mean. rewrite rn_quotient by (assumption || lia).
  split; [reflexivity|].
  apply quot_between; [lia|].
  apply sum_bounds. intros x Hx. split; auto.
Qed.

(** Beyond 2^53 the rounding shows: for five scores of 2^53 + 1 the
    float mean is 2^53 and the average score of the entry is below its
    minimum. *)
Example large_scores_average :
  exists r c,
    Monthly.build_report Sample.large_scores Sample.names 5
      "2024-01-01" "2024-01-31" = Py.Ok r
    /\ Monthly.most_consistent r = [c]
    /\ Monthly.co_min_score c = 2 ^ 53 + 1
    /\ Monthly.co_average_score c = 2 ^ 53.
Proof.
  eexists. eexists. split; [vm_compute; reflexivity|].
  repeat split; reflexivity.
Qed.


(** ** The totals of the counters *)

Lemma sum_len_concat {A} (g : string -> list A) (ks : list string) :
  Py.sum (map (fun k => Py.len (g k)) ks)
  = Py.len (List.concat (map g ks)).
Proof.
  induction ks as [|k ks IH]; [reflexivity|].
  simpl. rewrite sum_cons, IH, len_app. reflexivity.
Qed.

Lemma tally_total (p : Row -> bool) (rows : list Row) :
  Py.sum (Py.values (Spec.tally p rows)) = Py.len (filter p rows).
Proof.
  unfold Spec.tally, Py.values. rewrite map_map. cbn [snd].
  unfold Spec.count.
  rewrite (sum_len_concat (fun pid => Spec.rows_of pid (filter p rows))).
  apply len_permutation. apply (groups_permutation playfab_id).
Qed.

Lemma participation_total (rows : list Row) :
  Py.sum (Py.values
            (Table.tabulate (fun pid => Spec.days_played pid rows)
               (Spec.players rows)))
  = Py.len rows.
Proof.
  rewrite values_tabulate. unfold Spec.days_played.
  rewrite (sum_len_concat (fun pid => Spec.rows_of pid rows)).
  apply len_permutation. apply (groups_permutation playfab_id).
Qed.

(** X9.  After the monthly loop the counts of each counter add up to the
    number of rows that the counter is about: the first places to the
    rows with position 0, the podiums to those with position at most 2,
    the top-10 finishes to those with position at most 9, the
    participations to all rows; and the scores kept are as many as the
    rows. *)
Theorem monthly_counters_add_up (rows : list Row) :
  let acc := Monthly.accumulate rows in
  Py.sum (Py.values (Monthly.first_place_counts acc))
  = Py.len (filter (fun r => position r =? 0) rows)
  /\ Py.sum (Py.values (Monthly.podium_counts acc))
     = Py.len (filter (fun r => position r <=? 2) rows)
  /\ Py.sum (Py.values (Monthly.top_10_counts acc))
     = Py.len (filter (fun r => position r <=? 9) rows)
  /\ Py.sum (Py.values (Monthly.participation_counts acc)) = Py.len rows
  /\ Py.sum (map Py.len (Py.values (Monthly.total_scores acc)))
     = Py.len rows.
Proof.
  cbv zeta. destruct (monthly_accumulate_eq rows) as (H1 & H2 & H3 & H4 & H5).
  cbv zeta in H1, H2, H3, H4, H5. rewrite H1, H2, H3, H4, H5.
  rewrite !tally_total, participation_total. repeat split.
  rewrite values_tabulate, map_map.
  rewrite <- (participation_total rows), values_tabulate.
  apply f_equal, map_ext. intros pid. symmetry.
  apply days_played_is_len_scores.
Qed.

(** X10.  Likewise after the weekly loop. *)
Theorem weekly_counters_add_up (rows : list Row) :
  let acc := Weekly.accumulate rows in
  Py.sum (Py.values (Weekly.first_place_counts acc))
  = Py.len (filter (fun r => position r =? 0) rows)
  /\ Py.sum (Py.values (Weekly.podium_counts acc))
     = Py.len (filter (fun r => position r <=? 2) rows)
  /\ Py.sum (Py.values (Weekly.participation_counts acc)) = Py.len rows
  /\ Py.sum (map Py.len (Py.values (Weekly.total_scores acc)))
     = Py.len rows.
Proof.
  cbv zeta. destruct (weekly_accumulate_eq rows) as (H1 & H2 & H3 & H4).
  cbv zeta in H1, H2, H3, H4. rewrite H1, H2, H3, H4.
  rewrite !tally_total, participation_total. repeat split.
  rewrite values_tabulate, map_map.
  rewrite <- (participation_total rows), values_tabulate.
  apply f_equal, map_ext. intros pid. symmetry.
  apply days_played_is_len_scores.
Qed.

(** * Further properties of the windows *)

Lemma iso_week_monday_is_a_monday (y w : Z) :
  (Spec.iso_week_monday y w + 6) mod 7 = 0.
Proof.
  unfold Spec.iso_week_monday. cbv zeta.
  set (j := Calendar.ymd2ord y 1 4). Z.div_mod_to_equations. lia.
Qed.

Lemma weekday_ord2ymd (n : Z) :
  Calendar.weekday (Calendar.ord2ymd n) = (n + 6) mod 7.
Proof. unfold Calendar.weekday. now rewrite toordinal_ord2ymd. Qed.

(** X11.  For a year of four digits (up to 9998) and a week in 1..53 the
    week window starts on a Monday and ends six days later, on the
    Sunday. *)
Theorem week_window_runs_from_monday_to_sunday (year week : Z) :
  1000 <= year <= 9998 -> 1 <= week <= 53 ->
  exists first_day last_day,
    get_week_date_range year week
    = Py.Ok (Calendar.strftime_Ymd first_day, Calendar.strftime_Ymd last_day)
    /\ Calendar.weekday first_day = 0
    /\ Calendar.weekday last_day = 6
    /\ Calendar.toordinal last_day = Calendar.toordinal first_day + 6.
Proof.
  intros Hy Hw. pose proof (week_window_in_general year week Hy Hw) as H.
  cbv zeta in H.
  set (fw := (Calendar.ymd2ord year 1 1 + 6) mod 7) in *.
  set (adj := if (1 <=? fw) && (fw <=? 3) then 7 else 0) in *.
  assert (Hadj : adj = 0 \/ adj = 7)
    by (unfold adj; destruct ((1 <=? fw) && (fw <=? 3)); auto).
  pose proof (iso_week_monday_is_a_monday year week) as Hm.
  eexists. eexists. split; [exact H|].
  rewrite !weekday_ord2ymd, !toordinal_ord2ymd.
  repeat split; destruct Hadj as [-> | ->]; Z.div_mod_to_equations; lia.
Qed.

Lemma week_window_runs_from_monday_to_sunday_witness :
  1000 <= 2025 <= 9998 /\ 1 <= 1 <= 53
  /\ exists first_day last_day,
      get_week_date_range 2025 1
      = Py.Ok (Calendar.strftime_Ymd first_day,
               Calendar.strftime_Ymd last_day)
      /\ Calendar.weekday first_day = 0
      /\ Calendar.weekday last_day = 6
      /\ Calendar.toordinal last_day = Calendar.toordinal first_day + 6.
Proof.
  split; [lia|]. split; [lia|].
  apply (week_window_runs_from_monday_to_sunday 2025 1); lia.
Defined.

(** X12.  The windows of two consecutive weeks of a year are adjacent:
    the second starts the day after the first ends. *)
Theorem consecutive_week_windows_are_adjacent (year week : Z) :
  1000 <= year <= 9998 -> 1 <= week <= 52 ->
  exists first_day last_day next_first_day next_last_day,
    get_week_date_range year week
    = Py.Ok (Calendar.strftime_Ymd first_day, Calendar.strftime_Ymd last_day)
    /\ get_week_date_range year (week + 1)
       = Py.Ok (Calendar.strftime_Ymd next_first_day,
                Calendar.strftime_Ymd next_last_day)
    /\ Calendar.toordinal next_first_day = Calendar.toordinal last_day + 1.
Proof.
  intros Hy Hw.
  pose proof (week_window_in_general year week Hy ltac:(lia)) as H1.
  pose proof (week_window_in_general year (week + 1) Hy ltac:(lia)) as H2.
  cbv zeta in H1, H2.
  do 4 eexists. split; [exact H1|]. split; [exact H2|].
  rewrite !toordinal_ord2ymd. unfold Spec.iso_week_monday. cbv zeta. lia.
Qed.

Lemma consecutive_week_windows_are_adjacent_witness :
  1000 <= 2025 <= 9998 /\ 1 <= 1 <= 52
  /\ exists first_day last_day next_first_day next_last_day,
      get_week_date_range 2025 1
      = Py.Ok (Calendar.strftime_Ymd first_day,
               Calendar.strftime_Ymd last_day)
      /\ get_week_date_range 2025 (1 + 1)
         = Py.Ok (Calendar.strftime_Ymd next_first_day,
                  Calendar.strftime_Ymd next_last_day)
      /\ Calendar.toordinal next_first_day = Calendar.toordinal last_day + 1.
Proof.
  split; [lia|]. split; [lia|].
  apply (consecutive_week_windows_are_adjacent 2025 1); lia.
Defined.

Lemma days_before_year_succ (y : Z) :
  Calendar.days_before_year (y + 1)
  = Calendar.days_before_year y + (if Calendar.isleap y then 366 else 365).
Proof.
  unfold Calendar.days_before_year, Calendar.isleap. cbv zeta.
  replace (y + 1 - 1) with y by lia.
  destruct (Z.eqb_spec (y mod 4) 0); destruct (Z.eqb_spec (y mod 100) 0);
    destruct (Z.eqb_spec (y mod 400) 0); cbn [andb orb negb];
    Z.div_mod_to_equations; lia.
Qed.

Lemma days_before_next_month (y m : Z) :
  1 <= m <= 11 ->
  Calendar.days_before_month y (m + 1)
  = Calendar.days_before_month y m + Calendar.days_in_month y m.
Proof.
  intros H.
  assert (E : m = 1 \/ m = 2 \/ m = 3 \/ m = 4 \/ m = 5 \/ m = 6 \/ m = 7
              \/ m = 8 \/ m = 9 \/ m = 10 \/ m = 11) by lia.
  unfold Calendar.days_before_month, Calendar.days_in_month.
  repeat (destruct E as [->|E];
          [vm_compute (_ + 1); look_up; destruct (Calendar.isleap y);
           reflexivity|]).
  subst. vm_compute (_ + 1). look_up. destruct (Calendar.isleap y);
    reflexivity.
Qed.

(** X13.  For a month in 1..12 the month window ends, between the 28th
    and the 31st, on the day before the first day of the next month (of
    January of the next year after December). *)
Theorem month_window_ends_before_the_next_month (year month : Z) :
  1 <= month <= 12 ->
  exists last,
    get_month_date_range year month
    = Py.Ok (Spec.date_text year month 1, Spec.date_text year month last)
    /\ 28 <= last <= 31
    /\ Calendar.ymd2ord year month last + 1
       = if month =? 12 then Calendar.ymd2ord (year + 1) 1 1
         else Calendar.ymd2ord year (month + 1) 1.
Proof.
  intros H. exists (Calendar.days_in_month year month).
  split; [|split].
  - unfold get_month_date_range, Calendar.monthrange_ndays.
    assert (E : (1 <=? month) && (month <=? 12) = true).
    { apply andb_true_intro. split; apply Z.leb_le; lia. }
    rewrite E. cbn [Py.bind]. unfold Spec.date_text.
    rewrite !append_assoc. cbn [String.append]. rewrite !append_assoc.
    reflexivity.
  - rewrite days_in_month_spec by assumption.
    unfold Spec.last_day_of_month.
    destruct ((month =? 4) || (month =? 6) || (month =? 9) || (month =? 11));
      [lia|].
    destruct (month =? 2); [destruct (Spec.is_leap_yearb year)|]; lia.
  - unfold Calendar.ymd2ord.
    destruct (Z.eqb_spec month 12) as [->|Hne].
    + rewrite days_before_year_succ.
      unfold Calendar.days_before_month, Calendar.days_in_month. look_up.
      destruct (Calendar.isleap year); lia.
    + rewrite days_before_next_month by lia. lia.
Qed.

Lemma month_window_ends_before_the_next_month_witness :
  1 <= 2 <= 12
  /\ exists last,
      get_month_date_range 2024 2
      = Py.Ok (Spec.date_text 2024 2 1, Spec.date_text 2024 2 last)
      /\ 28 <= last <= 31
      /\ Calendar.ymd2ord 2024 2 last + 1
         = if 2 =? 12 then Calendar.ymd2ord (2024 + 1) 1 1
           else Calendar.ymd2ord 2024 (2 + 1) 1.
Proof.
  split; [lia|]. apply (month_window_ends_before_the_next_month 2024 2). lia.
Defined.

(** * The runs of the report scripts *)

Lemma month_window_resolves (year month : Z) :
  1 <= month <= 12 ->
  exists range, get_month_date_range year month = Py.Ok range.
Proof.
  intros H. unfold get_month_date_range, Calendar.monthrange_ndays.
  assert (E : (1 <=? month) && (month <=? 12) = true).
  { apply andb_true_intro. split; apply Z.leb_le; lia. }
  rewrite E. cbn [Py.bind]. eexists. reflexivity.
Qed.

Lemma week_window_resolves (year week : Z) :
  1000 <= year <= 9998 -> 1 <= week <= 53 ->
  exists range, get_week_date_range year week = Py.Ok range.
Proof.
  intros Hy Hw. eexists. apply (week_window_in_general year week Hy Hw).
Qed.

(** X14.  When the period is valid and the database file is missing, a
    run of the monthly or of the weekly script ends with exit status 1
    after looking for the file: it neither connects to the store nor
    queries it. *)
Theorem run_without_database_stops_early (db : Store) (year : Z) :
  (forall month, 1 <= month <= 12 ->
     monthly_main false db year month = ([EvPathExists], Py.Ok (Exit 1)))
  /\ (forall week, 1000 <= year <= 9998 -> 1 <= week <= 53 ->
        weekly_main false db year week = ([EvPathExists], Py.Ok (Exit 1))).
Proof.
  split.
  - intros month H. destruct (month_window_resolves year month H) as [rg E].
    unfold monthly_main. rewrite E. reflexivity.
  - intros week Hy Hw.
    destruct (week_window_resolves year week Hy Hw) as [rg E].
    unfold weekly_main. rewrite E. reflexivity.
Qed.

Lemma run_without_database_stops_early_witness :
  1 <= 2 <= 12
  /\ monthly_main false SampleStore.empty 2024 2
     = ([EvPathExists], Py.Ok (Exit 1))
  /\ 1000 <= 2024 <= 9998 /\ 1 <= 7 <= 53
  /\ weekly_main false SampleStore.empty 2024 7
     = ([EvPathExists], Py.Ok (Exit 1)).
Proof.
  destruct (run_without_database_stops_early SampleStore.empty 2024)
    as [Hm Hw].
  split; [lia|]. split; [apply Hm; lia|].
  split; [lia|]. split; [lia|]. apply Hw; lia.
Defined.

(** X15.  When the month is valid and the database file exists, a run of
    the monthly script connects and runs the scores query, the players
    query and the day-count query, in this order, the two over dates with
    the bounds of the resolved window.  When all answer, it closes the
    connection, builds the report without error and goes on to display
    it.  When the connection or a query raises, the exception leaves
    [main] at once: the later queries are not run and the connection is
    not closed. *)
Theorem monthly_run_with_database (db : Store) (year month : Z) :
  1 <= month <= 12 ->
  exists start_date end_date,
    get_month_date_range year month = Py.Ok (start_date, end_date)
    /\ (forall e, connect db = Py.Raise e ->
          monthly_main true db year month
          = ([EvPathExists; EvConnect], Py.Raise e))
    /\ (connect db = Py.Ok tt ->
        (forall e, select_scores db start_date end_date = Py.Raise e ->
           monthly_main true db year month
           = ([EvPathExists; EvConnect;
               EvExecute (QScores start_date end_date)],
              Py.Raise e))
        /\ forall scores,
            select_scores db start_date end_date = Py.Ok scores ->
            (forall e, select_players db = Py.Raise e ->
               monthly_main true db year month
               = ([EvPathExists; EvConnect;
                   EvExecute (QScores start_date end_date);
                   EvExecute QPlayers],
                  Py.Raise e))
            /\ forall players,
                select_players db = Py.Ok players ->
                (forall e, count_days db start_date end_date = Py.Raise e ->
                   monthly_main true db year month
                   = ([EvPathExists; EvConnect;
                       EvExecute (QScores start_date end_date);
                       EvExecute QPlayers;
                       EvExecute (QDayCount start_date end_date)],
                      Py.Raise e))
                /\ forall total_days,
                    count_days db start_date end_date = Py.Ok total_days ->
                    exists report,
                      Monthly.build_report scores players total_days
                        start_date end_date = Py.Ok report
                      /\ monthly_main true db year month
                         = ([EvPathExists; EvConnect;
                             EvExecute (QScores start_date end_date);
                             EvExecute QPlayers;
                             EvExecute (QDayCount start_date end_date);
                             EvClose],
                            Py.Ok (Display report))).
Proof.
  intros H. destruct (month_window_resolves year month H) as [[s e] E].
  exists s, e. split; [exact E|].
  unfold monthly_main. rewrite E.
  unfold Monthly.calculate_monthly_stats.
  cbn [io_lift io_bind io_emit fst snd app negb].
  split; [intros x Hc; rewrite Hc; reflexivity|].
  intros Hc. rewrite Hc. cbn [io_lift io_bind io_emit fst snd app].
  split; [intros x Hs; rewrite Hs; reflexivity|].
  intros scores Hs. rewrite Hs. cbn [io_lift io_bind io_emit fst snd app].
  split; [intros x Hp; rewrite Hp; reflexivity|].
  intros players Hp. rewrite Hp. cbn [io_lift io_bind io_emit fst snd app].
  split; [intros x Hd; rewrite Hd; reflexivity|].
  intros total_days Hd. rewrite Hd.
  cbn [io_lift io_bind io_emit fst snd app].
  rewrite monthly_build_report_ok. eexists. split; reflexivity.
Qed.

Lemma monthly_run_with_database_witness :
  1 <= 2 <= 12
  /\ (exists report,
        monthly_main true SampleStore.empty 2024 2
        = ([EvPathExists; EvConnect;
            EvExecute (QScores "2024-02-01" "2024-02-29");
            EvExecute QPlayers;
            EvExecute (QDayCount "2024-02-01" "2024-02-29");
            EvClose],
           Py.Ok (Display report)))
  /\ monthly_main true SampleStore.no_table 2024 2
     = ([EvPathExists; EvConnect;
         EvExecute (QScores "2024-02-01" "2024-02-29")],
        Py.Raise Py.DatabaseError).
Proof.
  split; [lia|]. split.
  - destruct (monthly_run_with_database SampleStore.empty 2024 2
                ltac:(lia)) as (s & e & E & _ & Hrun).
    injection E as <- <-.
    destruct (Hrun eq_refl) as [_ Hscores].
    destruct (Hscores [] eq_refl) as [_ Hplayers].
    destruct (Hplayers [] eq_refl) as [_ Hdays].
    destruct (Hdays 0 eq_refl) as (report & _ & Hmain).
    exists report. exact Hmain.
  - destruct (monthly_run_with_database SampleStore.no_table 2024 2
                ltac:(lia)) as (s & e & E & _ & Hrun).
    injection E as <- <-.
    destruct (Hrun eq_refl) as [Hraise _].
    exact (Hraise Py.DatabaseError eq_refl).
Defined.

(** X16.  Likewise a run of the weekly script, for a year of four digits
    and a week in 1..53, with its two queries: when both answer it closes
    the connection, builds the report without error and goes on to
    display it; when the connection or a query raises, the exception
    leaves [main] and the connection is not closed. *)
Theorem weekly_run_with_database (db : Store) (year week : Z) :
  1000 <= year <= 9998 -> 1 <= week <= 53 ->
  exists start_date end_date,
    get_week_date_range year week = Py.Ok (start_date, end_date)
    /\ (forall e, connect db = Py.Raise e ->
          weekly_main true db year week
          = ([EvPathExists; EvConnect], Py.Raise e))
    /\ (connect db = Py.Ok tt ->
        (forall e, select_scores db start_date end_date = Py.Raise e ->
           weekly_main true db year week
           = ([EvPathExists; EvConnect;
               EvExecute (QScores start_date end_date)],
              Py.Raise e))
        /\ forall scores,
            select_scores db start_date end_date = Py.Ok scores ->
            (forall e, select_players db = Py.Raise e ->
               weekly_main true db year week
               = ([EvPathExists; EvConnect;
                   EvExecute (QScores start_date end_date);
                   EvExecute QPlayers],
                  Py.Raise e))
            /\ forall players,
                select_players db = Py.Ok players ->
                exists report,
                  Weekly.build_report scores players start_date end_date
                  = Py.Ok report
                  /\ weekly_main true db year week
                     = ([EvPathExists; EvConnect;
                         EvExecute (QScores start_date end_date);
                         EvExecute QPlayers;
                         EvClose],
                        Py.Ok (Display report))).
Proof.
  intros Hy Hw. destruct (week_window_resolves year week Hy Hw) as [[s e] E].
  exists s, e. split; [exact E|].
  unfold weekly_main. rewrite E.
  unfold Weekly.calculate_weekly_stats.
  cbn [io_lift io_bind io_emit fst snd app negb].
  split; [intros x Hc; rewrite Hc; reflexivity|].
  intros Hc. rewrite Hc. cbn [io_lift io_bind io_emit fst snd app].
  split; [intros x Hs; rewrite Hs; reflexivity|].
  intros scores Hs. rewrite Hs. cbn [io_lift io_bind io_emit fst snd app].
  split; [intros x Hp; rewrite Hp; reflexivity|].
  intros players Hp. rewrite Hp. cbn [io_lift io_bind io_emit fst snd app].
  rewrite weekly_build_report_ok. eexists. split; reflexivity.
Qed.

Lemma weekly_run_with_database_witness :
  1000 <= 2024 <= 9998 /\ 1 <= 7 <= 53
  /\ (exists report,
        weekly_main true SampleStore.empty 2024 7
        = ([EvPathExists; EvConnect;
            EvExecute (QScores "2024-02-12" "2024-02-18");
            EvExecute QPlayers;
            EvClose],
           Py.Ok (Display report)))
  /\ weekly_main true SampleStore.no_table 2024 7
     = ([EvPathExists; EvConnect;
         EvExecute (QScores "2024-02-12" "2024-02-18")],
        Py.Raise Py.DatabaseError).
Proof.
  split; [lia|]. split; [lia|]. split.
  - destruct (weekly_run_with_database SampleStore.empty 2024 7
                ltac:(lia) ltac:(lia)) as (s & e & E & _ & Hrun).
    vm_compute in E. injection E as <- <-.
    destruct (Hrun eq_refl) as [_ Hscores].
    destruct (Hscores [] eq_refl) as [_ Hplayers].
    destruct (Hplayers [] eq_refl) as (report & _ & Hmain).
    exists report. exact Hmain.
  - destruct (weekly_run_with_database SampleStore.no_table 2024 7
                ltac:(lia) ltac:(lia)) as (s & e & E & _ & Hrun).
    vm_compute in E. injection E as <- <-.
    destruct (Hrun eq_refl) as [Hraise _].
    exact (Hraise Py.DatabaseError eq_refl).
Defined.

(** ** The export: what a rejected record leaves behind *)

Lemma dict_to_list_rejected (fieldnames : list string) (r : Exporter.record) :
  (exists k, In k (Py.keys r) /\ ~ In k fieldnames) ->
  Exporter.dict_to_list fieldnames r = Py.Raise Py.ValueError.
Proof.
  intros (k & Hk & Hn). unfold Exporter.dict_to_list.
  assert (E : existsb (fun k => negb (existsb (String.eqb k) fieldnames))
                (Py.keys r) = true).
  { apply existsb_exists. exists k. split; [assumption|].
    apply existsb_eqb_notIn in Hn. now rewrite Hn. }
  now rewrite E.
Qed.

Lemma writerows_rejected (fieldnames : list string)
  (good : list Exporter.record) (bad : Exporter.record)
  (rest : list Exporter.record) (path text : string) (w : Exporter.World) :
  (forall r k, In r good -> In k (Py.keys r) -> In k fieldnames) ->
  (exists k, In k (Py.keys bad) /\ ~ In k fieldnames) ->
  Exporter.writerows fieldnames (good ++ bad :: rest) path
    (ExporterSpec.set_file w path text)
  = (ExporterSpec.set_file w path
       (String.append text (ExporterSpec.csv_rows fieldnames good)),
     Py.Raise Py.ValueError).
Proof.
  revert text. induction good as [|r good IH]; intros text Hgood Hbad; simpl.
  - rewrite dict_to_list_rejected by assumption. now rewrite append_empty.
  - rewrite dict_to_list_ok by (intros k; apply Hgood; now left).
    rewrite fwrite_set_file, IH;
      [|intros r' k Hr; apply Hgood; now right|assumption].
    now rewrite append_assoc.
Qed.

(** X17.  When a record has a key that the first record lacks, the CSV
    export raises [ValueError] at that record: the file then holds the
    header and the lines of the records before it, and nothing of the
    rejected record or of those after it. *)
Theorem csv_export_stops_at_the_first_rejected_record
  (first : Exporter.record) (good : list Exporter.record)
  (bad : Exporter.record) (rest : list Exporter.record)
  (path : string) (w : Exporter.World) :
  (forall r k, In r good -> In k (Py.keys r) -> In k (Py.keys first)) ->
  (exists k, In k (Py.keys bad) /\ ~ In k (Py.keys first)) ->
  Exporter.write_csv (first :: good ++ bad :: rest) path w
  = (ExporterSpec.set_file w path (ExporterSpec.csv_file first good),
     Py.Raise Py.ValueError).
Proof.
  intros Hgood Hbad. unfold Exporter.write_csv.
  change (Exporter.open_w w path) with (ExporterSpec.set_file w path "").
  rewrite fwrite_set_file. cbn [String.append].
  change (first :: good ++ bad :: rest) with ((first :: good) ++ bad :: rest).
  rewrite writerows_rejected; [reflexivity| |assumption].
  intros r k [<-|Hr] Hk; [assumption|]. now apply (Hgood r).
Qed.

Lemma csv_export_stops_at_the_first_rejected_record_witness :
  Exporter.write_csv
    ([("a", Exporter.VInt 1)]
       :: [[("a", Exporter.VInt 2)]]
       ++ [("a", Exporter.VInt 3); ("b", Exporter.VInt 4)]
       :: [[("a", Exporter.VInt 5)]])
    "out.csv" ExporterSpec.no_files
  = (ExporterSpec.set_file ExporterSpec.no_files "out.csv"
       (ExporterSpec.csv_file [("a", Exporter.VInt 1)]
          [[("a", Exporter.VInt 2)]]),
     Py.Raise Py.ValueError).
Proof.
  apply csv_export_stops_at_the_first_rejected_record.
  - simpl. intros r k [<-|[]] Hk. exact Hk.
  - exists "b". split; [simpl; auto|].
    simpl. intros [E|[]]. discriminate E.
Defined.

(** ** The export of the daily scores *)

(** X18.  The query of the scores export has as many placeholders as
    parameters; the parameters are the bounds that are given and not
    empty, the start before the end; an empty bound is treated as an
    absent one. *)
Theorem scores_query_placeholders_match_parameters
  (start_date end_date : option string) :
  Chars.count "?" (fst (ExportScores.scores_query start_date end_date))
  = List.length (snd (ExportScores.scores_query start_date end_date))
  /\ snd (ExportScores.scores_query start_date end_date)
     = ScoresFile.bounds start_date end_date
  /\ ExportScores.scores_query (Some "") end_date
     = ExportScores.scores_query None end_date
  /\ ExportScores.scores_query start_date (Some "")
     = ExportScores.scores_query start_date None.
Proof.
  split; [|split; [|split]].
  - destruct start_date as [[|c s]|], end_date as [[|c' s']|];
      vm_compute; reflexivity.
  - destruct start_date as [[|c s]|], end_date as [[|c' s']|]; reflexivity.
  - reflexivity.
  - destruct start_date as [[|c s]|]; reflexivity.
Qed.

Lemma scores_row_of (row : ExportScores.ScoreRow) :
  ExporterSpec.row_of ExportScores.columns (ExportScores.to_record row)
  = ScoresFile.values row.
Proof. reflexivity. Qed.

Lemma scores_csv_rows (rows : list ExportScores.ScoreRow) :
  ExporterSpec.csv_rows ExportScores.columns (map ExportScores.to_record rows)
  = ScoresFile.lines rows.
Proof.
  induction rows as [|row rows IH]; [reflexivity|].
  cbn [map ExporterSpec.csv_rows ScoresFile.lines].
  now rewrite scores_row_of, IH.
Qed.

(** X19.  The CSV export of the daily scores is never rejected: whatever
    the store returns, [write_csv] applied to the records of
    [export_daily_scores] returns normally; without rows it writes no file
    and says so, otherwise the file holds the header of the eight columns
    and one line of eight fields per row, in the order of the rows. *)
Theorem scores_export_is_never_rejected
  (execute : string -> list string -> list ExportScores.ScoreRow)
  (start_date end_date : option string) (path : string)
  (w : Exporter.World) :
  Exporter.write_csv
    (ExportScores.export_daily_scores execute start_date end_date) path w
  = match execute (fst (ExportScores.scores_query start_date end_date))
            (snd (ExportScores.scores_query start_date end_date)) with
    | [] => (Exporter.print w "No records to export", Py.Ok tt)
    | rows =>
        (ExporterSpec.set_file w path
           (String.append ScoresFile.header (ScoresFile.lines rows)),
         Py.Ok tt)
    end.
Proof.
  unfold ExportScores.export_daily_scores.
  destruct (ExportScores.scores_query start_date end_date) as [q params].
  cbn [fst snd]. destruct (execute q params) as [|row rows]; [reflexivity|].
  cbn [map]. unfold Exporter.write_csv.
  change (Exporter.open_w w path) with (ExporterSpec.set_file w path "").
  rewrite fwrite_set_file. cbn [String.append].
  change (Py.keys (ExportScores.to_record row)) with ExportScores.columns.
  change (ExportScores.to_record row :: map ExportScores.to_record rows)
    with (map ExportScores.to_record (row :: rows)).
  rewrite writerows_ok.
  - rewrite scores_csv_rows. reflexivity.
  - intros r k Hr Hk. apply in_map_iff in Hr. destruct Hr as (row' & <- & _).
    exact Hk.
Qed.

(** ** The JSON text *)

Lemma all_app (p : ascii -> bool) (s t : string) :
  Chars.all p (String.append s t) = Chars.all p s && Chars.all p t.
Proof.
  induction s as [|c s IH]; simpl; [reflexivity|].
  now rewrite IH, andb_assoc.
Qed.

Lemma all_join (p : ascii -> bool) (sep : string) (l : list string) :
  Chars.all p sep = true ->
  (forall s, In s l -> Chars.all p s = true) ->
  Chars.all p (Exporter.join sep l) = true.
Proof.
  intros Hsep. induction l as [|x l IH]; intros H; [reflexivity|].
  destruct l as [|y l].
  - apply H. now left.
  - change (Exporter.join sep (x :: y :: l))
      with (String.append x (String.append sep (Exporter.join sep (y :: l)))).
    rewrite !all_app, Hsep, (H x) by now left.
    rewrite IH; [reflexivity|]. intros s Hs. apply H. now right.
Qed.

Lemma all_concat_map (p : ascii -> bool) (f : ascii -> string) (s : string) :
  (forall c, Chars.all p (f c) = true) ->
  Chars.all p (Exporter.str_concat_map f s) = true.
Proof.
  intros H. induction s as [|c s IH]; [reflexivity|].
  simpl. now rewrite all_app, H, IH.
Qed.

Lemma plain_json_escape (c : ascii) :
  Chars.all Chars.plain (Exporter.json_escape c) = true.
Proof.
  destruct c as [b0 b1 b2 b3 b4 b5 b6 b7].
  destruct b0, b1, b2, b3, b4, b5, b6, b7; vm_compute; reflexivity.
Qed.

Lemma plain_digits (s : string) :
  Numeral.all_digits s = true -> Chars.all Chars.plain s = true.
Proof.
  induction s as [|c s IH]; [reflexivity|]. simpl.
  intros H. apply andb_prop in H. destruct H as [Hc Hs].
  rewrite IH by assumption. rewrite andb_true_r.
  unfold Text.is_digit in Hc. unfold Chars.plain.
  apply andb_prop in Hc. destruct Hc as [H1 H2].
  apply Z.leb_le in H1. apply Z.leb_le in H2.
  apply orb_true_iff. right. apply andb_true_iff.
  split; apply Z.leb_le; lia.
Qed.

Lemma plain_str_int (z : Z) : Chars.all Chars.plain (Text.str_int z) = true.
Proof.
  unfold Text.str_int. destruct (Z.ltb_spec z 0).
  - simpl. apply plain_digits, all_digits_str_nat. lia.
  - apply plain_digits, all_digits_str_nat. lia.
Qed.

Lemma plain_json_value (v : Exporter.value) :
  Chars.all Chars.plain (Exporter.json_value v) = true.
Proof.
  destruct v as [|z|s]; [reflexivity|apply plain_str_int|].
  simpl. rewrite all_app, all_concat_map by apply plain_json_escape.
  reflexivity.
Qed.

Lemma plain_json_object (r : Exporter.record) :
  Chars.all Chars.plain (Exporter.json_object r) = true.
Proof.
  destruct r as [|kv r]; [reflexivity|].
  unfold Exporter.json_object. rewrite !all_app.
  rewrite all_join; [reflexivity|reflexivity|].
  intros s Hs. apply in_map_iff in Hs. destruct Hs as (kv' & <- & _).
  now rewrite !all_app, !plain_json_value.
Qed.

(** X20.  The JSON text of any records is plain ASCII: it holds line feeds
    and printable characters only, whatever the characters of the keys and
    of the strings of the records. *)
Theorem json_text_is_plain_ascii (records : list Exporter.record) :
  Chars.all Chars.plain (Exporter.json_array records) = true.
Proof.
  destruct records as [|r records]; [reflexivity|].
  unfold Exporter.json_array. rewrite !all_app.
  rewrite all_join; [reflexivity|reflexivity|].
  intros s Hs. apply in_map_iff in Hs. destruct Hs as (r' & <- & _).
  apply plain_json_object.
Qed.

(** ** The files an export leaves alone *)

Lemma fwrite_other (w : Exporter.World) (path text other : string) :
  other <> path ->
  Py.dict_get (Exporter.files (Exporter.fwrite w path text)) other
  = Py.dict_get (Exporter.files w) other.
Proof.
  intros H. unfold Exporter.fwrite. cbn [Exporter.files].
  apply dict_get_set_neq. congruence.
Qed.

Lemma writerows_other (fieldnames : list string)
  (rows : list Exporter.record) (path other : string) (w : Exporter.World) :
  other <> path ->
  Py.dict_get
    (Exporter.files (fst (Exporter.writerows fieldnames rows path w))) other
  = Py.dict_get (Exporter.files w) other
  /\ Exporter.stdout (fst (Exporter.writerows fieldnames rows path w))
     = Exporter.stdout w.
Proof.
  intros H. revert w. induction rows as [|r rows IH]; intros w; simpl.
  - split; reflexivity.
  - destruct (Exporter.dict_to_list fieldnames r) as [row|e].
    + destruct (IH (Exporter.fwrite w path (Exporter.csv_row row)))
        as [E1 E2].
      rewrite E1, E2, fwrite_other by assumption. split; reflexivity.
    + split; reflexivity.
Qed.

(** X21.  An export changes no file but its output: after [write_csv] or
    [write_json], with any records and whether or not the CSV export
    raises, every other path holds what it held before; and an export of
    at least one record prints nothing. *)
Theorem export_leaves_other_files_alone
  (records : list Exporter.record) (path other : string)
  (w : Exporter.World) :
  other <> path ->
  Py.dict_get (Exporter.files (fst (Exporter.write_csv records path w))) other
  = Py.dict_get (Exporter.files w) other
  /\ Py.dict_get (Exporter.files (fst (Exporter.write_json records path w)))
       other
     = Py.dict_get (Exporter.files w) other
  /\ Exporter.stdout (fst (Exporter.write_json records path w))
     = Exporter.stdout w
  /\ (records <> [] ->
      Exporter.stdout (fst (Exporter.write_csv records path w))
      = Exporter.stdout w).
Proof.
  intros H. split; [|split; [|split]].
  - destruct records as [|first rest]; [reflexivity|].
    unfold Exporter.write_csv.
    destruct (writerows_other (Py.keys first) (first :: rest) path other
                (Exporter.fwrite (Exporter.open_w w path) path
                   (Exporter.csv_row (map Exporter.VStr (Py.keys first)))) H)
      as [E _].
    rewrite E, fwrite_other by assumption.
    unfold Exporter.open_w. cbn [Exporter.files].
    apply dict_get_set_neq. congruence.
  - unfold Exporter.write_json. cbn [fst].
    rewrite fwrite_other by assumption.
    unfold Exporter.open_w. cbn [Exporter.files].
    apply dict_get_set_neq. congruence.
  - reflexivity.
  - intros Hne. destruct records as [|first rest]; [congruence|].
    unfold Exporter.write_csv.
    destruct (writerows_other (Py.keys first) (first :: rest) path other
                (Exporter.fwrite (Exporter.open_w w path) path
                   (Exporter.csv_row (map Exporter.VStr (Py.keys first)))) H)
      as [_ E].
    rewrite E. reflexivity.
Qed.

Lemma export_leaves_other_files_alone_witness :
  Py.dict_get
    (Exporter.files
       (fst (Exporter.write_csv ExporterSpec.mixed_records "out.csv"
               (ExporterSpec.set_file ExporterSpec.no_files "kept.txt" "x"))))
    "kept.txt"
  = Py.dict_get
      (Exporter.files
         (ExporterSpec.set_file ExporterSpec.no_files "kept.txt" "x"))
      "kept.txt".
Proof.
  apply (export_leaves_other_files_alone ExporterSpec.mixed_records
           "out.csv" "kept.txt"
           (ExporterSpec.set_file ExporterSpec.no_files "kept.txt" "x")).
  discriminate.
Defined.

(** ** The CSV writer loses nothing *)

Lemma read_quoted_ok (s r : string) :
  Reading.follows r = true ->
  Reading.read_quoted
    (String.append
       (Exporter.str_concat_map
          (fun c => if Ascii.eqb c Exporter.dquote
                    then String Exporter.dquote (String Exporter.dquote "")
                    else String c "") s)
       (String Exporter.dquote r))
  = (s, r).
Proof.
  intros Hr. induction s as [|c s IH].
  - simpl. destruct r as [|c' r']; [reflexivity|].
    simpl in Hr. apply andb_prop in Hr. destruct Hr as [_ Hq].
    apply negb_true_iff in Hq. now rewrite Hq.
  - cbn [Exporter.str_concat_map].
    destruct (Ascii.eqb c Exporter.dquote) eqn:E.
    + apply Ascii.eqb_eq in E. subst c.
      cbn [String.append Reading.read_quoted].
      rewrite Ascii.eqb_refl, IH. reflexivity.
    + cbn [String.append Reading.read_quoted]. rewrite E, IH. reflexivity.
Qed.

Lemma read_bare_ok (s r : string) :
  Exporter.str_exists Exporter.csv_special s = false ->
  Reading.follows r = true ->
  Reading.read_bare (String.append s r) = (s, r).
Proof.
  intros Hs Hr. induction s as [|c s IH].
  - simpl. destruct r as [|c' r']; [reflexivity|].
    simpl in Hr. apply andb_prop in Hr. destruct Hr as [Hc _].
    simpl. now rewrite Hc.
  - simpl in Hs. apply orb_false_iff in Hs. destruct Hs as [Hc Hs].
    cbn [String.append Reading.read_bare]. rewrite Hc, IH by assumption.
    reflexivity.
Qed.

Lemma special_dquote : Exporter.csv_special Exporter.dquote = true.
Proof. reflexivity. Qed.

Lemma read_field_ok (f r : string) :
  Reading.follows r = true ->
  Reading.read_field (String.append (Exporter.csv_field f) r) = (f, r).
Proof.
  intros Hr. unfold Exporter.csv_field.
  destruct (Exporter.str_exists Exporter.csv_special f) eqn:E.
  - cbn [String.append Reading.read_field]. rewrite Ascii.eqb_refl.
    rewrite append_assoc. cbn [String.append]. now apply read_quoted_ok.
  - pose proof (read_bare_ok f r E Hr) as Hb.
    destruct f as [|c f].
    + cbn [String.append] in *. destruct r as [|c' r']; [reflexivity|].
      unfold Reading.read_field.
      simpl in Hr. apply andb_prop in Hr. destruct Hr as [_ Hq].
      apply negb_true_iff in Hq. now rewrite Hq.
    + cbn [String.append] in *. unfold Reading.read_field.
      simpl in E. apply orb_false_iff in E. destruct E as [Hc _].
      destruct (Ascii.eqb c Exporter.dquote) eqn:Eq; [|exact Hb].
      apply Ascii.eqb_eq in Eq. subst c. rewrite special_dquote in Hc.
      discriminate Hc.
Qed.

Lemma fields_cons (f : string) (l : list string) :
  Reading.fields (f :: l)
  = String.append (Exporter.csv_field f) (Reading.after_field l).
Proof. destruct l; reflexivity. Qed.

Lemma follows_after_field (l : list string) :
  Reading.follows (Reading.after_field l) = true.
Proof. destruct l; reflexivity. Qed.

Lemma fields_inj (l1 l2 : list string) :
  l1 <> [] -> l2 <> [] -> Reading.fields l1 = Reading.fields l2 -> l1 = l2.
Proof.
  revert l2. induction l1 as [|f1 l1 IH]; intros l2 H1 H2 E; [congruence|].
  destruct l2 as [|f2 l2]; [congruence|].
  rewrite !fields_cons in E. apply (f_equal Reading.read_field) in E.
  rewrite !read_field_ok in E by apply follows_after_field.
  injection E as -> E. f_equal.
  destruct l1 as [|g1 l1], l2 as [|g2 l2]; try reflexivity;
    try discriminate E.
  apply IH; [discriminate|discriminate|].
  unfold Reading.after_field in E. now injection E.
Qed.

Lemma join_fields (l : list string) :
  String.append (Exporter.join "," (map Exporter.csv_field l))
    (String Exporter.CR (String Exporter.LF ""))
  = Reading.fields l.
Proof.
  induction l as [|f l IH]; [reflexivity|].
  destruct l as [|g l]; [reflexivity|].
  change (Exporter.join "," (map Exporter.csv_field (f :: g :: l)))
    with (String.append (Exporter.csv_field f)
            (String.append ","
               (Exporter.join "," (map Exporter.csv_field (g :: l))))).
  rewrite !append_assoc, IH. reflexivity.
Qed.

Lemma csv_row_fields (row : list Exporter.value) :
  Exporter.csv_row row
  = Reading.line (map Exporter.csv_text row).
Proof.
  unfold Exporter.csv_row, Reading.line.
  destruct (map Exporter.csv_text row) as [|[|c s] [|g l]];
    try reflexivity; apply join_fields.
Qed.

Lemma fields_not_quotes (l : list string) :
  Reading.fields l
  <> String Exporter.dquote
       (String Exporter.dquote
          (String Exporter.CR (String Exporter.LF ""))).
Proof.
  destruct l as [|f l]; [discriminate|].
  rewrite fields_cons. intros E.
  pose proof (f_equal Reading.read_field E) as E'.
  rewrite read_field_ok in E' by apply follows_after_field.
  injection E' as -> _. destruct l; discriminate E.
Qed.

Lemma fields_nil (l : list string) :
  Reading.fields l = Reading.fields [] -> l = [] \/ l = [EmptyString].
Proof.
  destruct l as [|f l]; [now left|]. intros E. right.
  rewrite fields_cons in E.
  pose proof (f_equal Reading.read_field E) as E'.
  rewrite read_field_ok in E' by apply follows_after_field.
  injection E' as -> E'. destruct l; [reflexivity|discriminate E'].
Qed.

(** X22.  The line of a row determines the texts of its fields: two rows
    with the same line have the same number of fields and, field by field,
    the same text.  Quoting therefore loses nothing, whatever commas,
    quotes and line breaks the fields hold. *)
Theorem csv_line_determines_its_fields (row1 row2 : list Exporter.value) :
  Exporter.csv_row row1 = Exporter.csv_row row2 ->
  map Exporter.csv_text row1 = map Exporter.csv_text row2.
Proof.
  rewrite !csv_row_fields.
  set (l1 := map Exporter.csv_text row1).
  set (l2 := map Exporter.csv_text row2). clearbody l1 l2.
  assert (Single : forall l : list string,
             l = [EmptyString] \/ l <> [EmptyString]).
  { intros [|[|c s] [|g l]]; (now left) || (right; discriminate). }
  assert (Other : forall l : list string,
             l <> [EmptyString] -> Reading.line l = Reading.fields l).
  { intros [|[|c s] [|g l]] H; try reflexivity. congruence. }
  destruct (Single l1) as [->|H1], (Single l2) as [->|H2].
  - reflexivity.
  - rewrite (Other l2) by assumption. cbn [Reading.line]. intros E.
    symmetry in E.
    now apply fields_not_quotes in E.
  - rewrite (Other l1) by assumption. cbn [Reading.line]. intros E.
    now apply fields_not_quotes in E.
  - rewrite (Other l1), (Other l2) by assumption. intros E.
    destruct l1 as [|f1 l1].
    + symmetry in E. apply fields_nil in E. destruct E; congruence.
    + destruct l2 as [|f2 l2].
      * apply fields_nil in E. destruct E; congruence.
      * apply fields_inj; [discriminate|discriminate|assumption].
Qed.

Lemma csv_line_determines_its_fields_witness :
  map Exporter.csv_text [Exporter.VInt 7; Exporter.VStr "a,b"; Exporter.VNone]
  = map Exporter.csv_text
      [Exporter.VStr "7"; Exporter.VStr "a,b"; Exporter.VStr ""].
Proof.
  apply csv_line_determines_its_fields. reflexivity.
Defined.

(** ** The year of a week window *)

Lemma is_digit_not_dash (c : ascii) :
  Text.is_digit c = true -> Ascii.eqb c "-" = false.
Proof.
  intros H. destruct (Ascii.eqb_spec c "-") as [->|]; [|reflexivity].
  discriminate H.
Qed.

Lemma re_digit_dash (r : string) : Calendar.re_digit (String "-" r) = None.
Proof. reflexivity. Qed.

(** Five digits or more do not match the year followed by a dash. *)
Lemma long_year_is_not_read (s t : string) :
  Numeral.all_digits s = true -> (5 <= String.length s)%nat ->
  Calendar.match_Y_W_w (String.append s t) = Py.Raise Py.ValueError.
Proof.
  intros Hd Hl.
  destruct s as [|c1 [|c2 [|c3 [|c4 [|c5 s]]]]]; simpl in Hl; try lia.
  simpl in Hd. repeat (apply andb_prop in Hd; destruct Hd as [? Hd]).
  cbn [String.append]. unfold Calendar.match_Y_W_w, Calendar.re_Y.
  rewrite !re_digit_digit by assumption.
  cbn [Calendar.re_lit]. now rewrite is_digit_not_dash.
Qed.

(** Three digits or fewer neither. *)
Lemma short_year_is_not_read (y : Z) (t : string) :
  0 <= y < 1000 ->
  Calendar.match_Y_W_w (String.append (Text.str_nat y) (String "-" t))
  = Py.Raise Py.ValueError.
Proof.
  intros H. rewrite str_nat_unfold by lia.
  destruct (Z.ltb_spec y 10).
  { cbn [String.append]. unfold Calendar.match_Y_W_w, Calendar.re_Y.
    rewrite re_digit_digit_char by lia. now rewrite re_digit_dash. }
  rewrite (str_nat_unfold (y / 10)) by (Z.div_mod_to_equations; lia).
  destruct (Z.ltb_spec (y / 10) 10).
  { cbn [String.append]. unfold Calendar.match_Y_W_w, Calendar.re_Y.
    rewrite !re_digit_digit_char by (Z.div_mod_to_equations; lia).
    now rewrite re_digit_dash. }
  rewrite (str_nat_unfold (y / 10 / 10)) by (Z.div_mod_to_equations; lia).
  destruct (Z.ltb_spec (y / 10 / 10) 10);
    [|exfalso; Z.div_mod_to_equations; lia].
  cbn [String.append]. unfold Calendar.match_Y_W_w, Calendar.re_Y.
  rewrite !re_digit_digit_char by (Z.div_mod_to_equations; lia).
  now rewrite re_digit_dash.
Qed.

Lemma length_str_nat_10000 (y : Z) :
  10000 <= y -> (5 <= String.length (Text.str_nat y))%nat.
Proof.
  intros H.
  rewrite str_nat_unfold by lia.
  destruct (Z.ltb_spec y 10); [lia|]. rewrite length_append.
  rewrite (str_nat_unfold (y / 10)) by (Z.div_mod_to_equations; lia).
  destruct (Z.ltb_spec (y / 10) 10); [Z.div_mod_to_equations; lia|].
  rewrite length_append.
  rewrite (str_nat_unfold (y / 10 / 10)) by (Z.div_mod_to_equations; lia).
  destruct (Z.ltb_spec (y / 10 / 10) 10); [Z.div_mod_to_equations; lia|].
  rewrite length_append.
  rewrite (str_nat_unfold (y / 10 / 10 / 10))
    by (Z.div_mod_to_equations; lia).
  destruct (Z.ltb_spec (y / 10 / 10 / 10) 10);
    [Z.div_mod_to_equations; lia|].
  rewrite length_append.
  pose proof (length_str_nat_pos (y / 10 / 10 / 10 / 10)
                ltac:(Z.div_mod_to_equations; lia)).
  simpl. lia.
Qed.

(** X23.  The week window needs a year of four digits: for a year below
    1000 or above 9999, and any week, [get_week_date_range] raises
    [ValueError] (the year is written without padding and [%Y] reads
    exactly four digits), and the weekly run stops before anything is
    asked of the store. *)
Theorem week_window_needs_a_four_digit_year
  (db_found : bool) (db : Store) (year week : Z) :
  year < 1000 \/ 9999 < year ->
  get_week_date_range year week = Py.Raise Py.ValueError
  /\ weekly_main db_found db year week = ([], Py.Raise Py.ValueError).
Proof.
  intros H.
  assert (E : get_week_date_range year week = Py.Raise Py.ValueError).
  { unfold get_week_date_range, Calendar.strptime_Y_W_w.
    assert (M : Calendar.match_Y_W_w
                  (String.append (Text.str_int year)
                     (String.append "-W"
                        (String.append (Text.format_02d week) "-1")))
                = Py.Raise Py.ValueError).
    { unfold Text.str_int. destruct (Z.ltb_spec year 0).
      - reflexivity.
      - destruct H as [H|H].
        + cbn [String.append]. apply short_year_is_not_read. lia.
        + apply long_year_is_not_read.
          * apply all_digits_str_nat. lia.
          * apply length_str_nat_10000. lia. }
    rewrite M. reflexivity. }
  split; [exact E|]. unfold weekly_main. rewrite E. reflexivity.
Qed.

Lemma week_window_needs_a_four_digit_year_witness :
  get_week_date_range 999 10 = Py.Raise Py.ValueError
  /\ weekly_main true SampleStore.empty 999 10
     = ([], Py.Raise Py.ValueError).
Proof.
  apply week_window_needs_a_four_digit_year. left. lia.
Defined.

(** ** The display names of the rankings *)

Lemma build_player_names_snoc (players : list (string * string))
  (r : string * string) :
  build_player_names (players ++ [r])
  = Py.dict_set (build_player_names players) (fst r) (snd r).
Proof. unfold build_player_names. now rewrite fold_left_app. Qed.

Lemma player_name_lookup (players : list (string * string)) (pid : string) :
  Py.get_default (build_player_names players) pid "Unknown"
  = Names.name_of players pid.
Proof.
  unfold Py.get_default, Names.name_of.
  induction players as [|r players IH] using rev_ind; [reflexivity|].
  rewrite build_player_names_snoc, filter_app. cbn [filter].
  destruct (String.eqb_spec (fst r) pid) as [->|Hne].
  - now rewrite dict_get_set_eq, last_opt_snoc.
  - rewrite dict_get_set_neq by assumption. now rewrite app_nil_r.
Qed.

(** X24.  Every entry of the rankings of both reports, and the champion,
    carries the name that the players table gives to its player: the name
    of the last row of the table with that id, and [Unknown] when the table
    has no row for it. *)
Theorem rankings_carry_the_names_of_the_players_table
  (rows : list Row) (players : list (string * string)) (total_days : Z)
  (start_date end_date : string) :
  (exists r,
      Monthly.build_report rows players total_days start_date end_date
      = Py.Ok r
      /\ (forall c, Monthly.monthly_champion r = Some c ->
            Monthly.ch_display_name c
            = Names.name_of players (Monthly.ch_playfab_id c))
      /\ (forall c, In c (Monthly.top_champions r) ->
            Monthly.ch_display_name c
            = Names.name_of players (Monthly.ch_playfab_id c))
      /\ (forall c, In c (Monthly.top_podium_finishes r) ->
            Monthly.po_display_name c
            = Names.name_of players (Monthly.po_playfab_id c))
      /\ (forall c, In c (Monthly.top_10_finishes r) ->
            Monthly.tt_display_name c
            = Names.name_of players (Monthly.tt_playfab_id c))
      /\ (forall c, In c (Monthly.most_consistent r) ->
            Monthly.co_display_name c
            = Names.name_of players (Monthly.co_playfab_id c)))
  /\
  (exists r,
      Weekly.build_report rows players start_date end_date = Py.Ok r
      /\ (forall c, Weekly.weekly_champion r = Some c ->
            Weekly.ch_display_name c
            = Names.name_of players (Weekly.ch_playfab_id c))
      /\ (forall c, In c (Weekly.top_first_places r) ->
            Weekly.cn_display_name c
            = Names.name_of players (Weekly.cn_playfab_id c))
      /\ (forall c, In c (Weekly.top_podium_finishes r) ->
            Weekly.cn_display_name c
            = Names.name_of players (Weekly.cn_playfab_id c))
      /\ (forall c, In c (Weekly.most_consistent r) ->
            Weekly.co_display_name c
            = Names.name_of players (Weekly.co_playfab_id c))).
Proof.
  split.
  - rewrite monthly_build_report_ok. eexists. split; [reflexivity|].
    unfold MonthlySpec.report. cbv zeta.
    cbn [Monthly.monthly_champion Monthly.top_champions
         Monthly.top_podium_finishes Monthly.top_10_finishes
         Monthly.most_consistent].
    repeat split.
    + intros c H.
      destruct (Py.sorted_desc snd Z.ltb (Spec.tally Spec.is_first rows))
        as [|first l]; [discriminate|].
      injection H as <-. apply player_name_lookup.
    + intros c H. apply in_map_iff in H. destruct H as (item & <- & _).
      apply player_name_lookup.
    + intros c H. apply in_map_iff in H. destruct H as (item & <- & _).
      apply player_name_lookup.
    + intros c H. apply in_map_iff in H. destruct H as (item & <- & _).
      apply player_name_lookup.
    + intros c H. apply In_firstn, in_monthly_consistent in H.
      destruct H as (pid & _ & ->). apply player_name_lookup.
  - rewrite weekly_build_report_ok. eexists. split; [reflexivity|].
    unfold WeeklySpec.report. cbv zeta.
    cbn [Weekly.weekly_champion Weekly.top_first_places
         Weekly.top_podium_finishes Weekly.most_consistent].
    repeat split.
    + intros c H.
      destruct (Py.sorted_desc snd Z.ltb (Spec.tally Spec.is_first rows))
        as [|first l]; [discriminate|].
      injection H as <-. apply player_name_lookup.
    + intros c H. apply in_map_iff in H. destruct H as (item & <- & _).
      apply player_name_lookup.
    + intros c H. apply in_map_iff in H. destruct H as (item & <- & _).
      apply player_name_lookup.
    + intros c H. apply In_firstn, in_weekly_consistent in H.
      destruct H as (pid & _ & ->). apply player_name_lookup.
Qed.
